(** * Cross-Net Wallet: the request/approval protocol

    A shallow embedding of the three contexts of the extension,

    - the page provider           (public/injectScript.js, first document),
    - the content relay           (public/injectScript.js, second document),
    - the approval broker         (public/background.js),

    and the properties of the protocol specification that they do, or do
    not, satisfy.

    Every context is single threaded: a handler runs to completion before
    the next message is looked at.  A handler is therefore a function of
    the context's state that returns the new state, the list of things it
    did that another context can see (messages posted, listeners invoked,
    popups opened) and the way it completed (normally or by a thrown
    value).  An [async] method is cut at its [await]: the part that runs
    when the method is called ([_start]) and the continuation that runs
    when the awaited promise settles ([_resume]).  A callback handed to
    the browser's storage or tabs functions is run where it is handed
    over, so a message is handled, callbacks included, before the next
    one arrives; [console] output is not part of the model. *)

From Stdlib Require Import ZArith List String Ascii Bool Lia DecimalString.
From stdpp Require Import base gmap strings list.

Open Scope string_scope.
Open Scope list_scope.

(** ** JavaScript values used by the three scripts *)

Module Js.

(** A string-valued property that may be absent: chain ids, addresses. *)
Inductive jsval :=
| VUndefined
| VNull
| VStr (s : string).

(** A request id: the page builds a string ([Date.now() + Math.random()...]),
    the relay counts numbers ([nextRequestId++]), a popup reads a string
    out of its URL.  [===] and [Map.get] never identify a number with a
    string. *)
Inductive JsId :=
| IdUndefined
| IdNum (n : Z)
| IdStr (s : string).

(** A thrown or rejected value: an [Error], or a plain object with the
    same fields. [err_code = None] when the value has no [code]. *)
Record JsError := mkError {
  err_code : option Z;
  err_message : string
}.

(** The [error] property of a message: a string or [{code, message}]. *)
Inductive ErrPayload :=
| ErrStr (s : string)
| ErrObj (code : Z) (message : string).

(** The argument handed to an event listener. *)
Inductive Payload :=
| PUndefined
| PAccounts (accounts : list string)
| PChainId (chainId : jsval)
| PConnectInfo (chainId : jsval)
| PNetwork (version : string)
| PError (code : option Z) (message : string).

(** How a piece of code completes. *)
Inductive Completion (A : Type) :=
| Normal (a : A)
| Throw (e : JsError).
Arguments Normal {A} a.
Arguments Throw {A} e.

(** A promise that has settled. *)
Inductive Settled (A : Type) :=
| Resolved (a : A)
| Rejected (e : JsError).
Arguments Resolved {A} a.
Arguments Rejected {A} e.

(** [x ? ... : ...] on a string-valued property: [undefined], [null] and
    the empty string are falsy. *)
Definition truthy (v : jsval) : bool :=
  match v with
  | VStr s => negb (String.eqb s "")
  | _ => false
  end.

Definition truthy_str (o : option string) : bool :=
  match o with
  | Some s => negb (String.eqb s "")
  | None => false
  end.

(** [a === b] on the values above. *)
Definition jsval_eqb (a b : jsval) : bool :=
  match a, b with
  | VUndefined, VUndefined => true
  | VNull, VNull => true
  | VStr s, VStr t => String.eqb s t
  | _, _ => false
  end.

Definition JsId_eqb (a b : JsId) : bool :=
  match a, b with
  | IdUndefined, IdUndefined => true
  | IdNum n, IdNum m => Z.eqb n m
  | IdStr s, IdStr t => String.eqb s t
  | _, _ => false
  end.

(** [s.includes(t)]: [t] occurs in [s] as a contiguous substring. *)
Fixpoint includes (s t : string) : bool :=
  String.prefix t s ||
  match s with
  | EmptyString => false
  | String _ s' => includes s' t
  end.

(** [String(v)], also the property key [obj[v]] uses. *)
Definition ToString (v : jsval) : string :=
  match v with
  | VUndefined => "undefined"
  | VNull => "null"
  | VStr s => s
  end.

(** [String(e)] as [new Error(e)] computes its message. *)
Definition String_of (e : ErrPayload) : string :=
  match e with
  | ErrStr s => s
  | ErrObj _ _ => "[object Object]"
  end.

(** [new Error(x)] *)
Definition new_Error (message : string) : JsError :=
  {| err_code := None; err_message := message |}.

(** The value itself when a message's [error] object is thrown as it is. *)
Definition thrown_payload (e : ErrPayload) : JsError :=
  match e with
  | ErrStr s => {| err_code := None; err_message := "" |}
  | ErrObj c m => {| err_code := Some c; err_message := m |}
  end.

(** [window.location.origin] of the document at an http(s) URL without
    user information: everything up to the end of the authority. *)
Definition ends_authority (c : ascii) : bool :=
  (Ascii.eqb c "/" || Ascii.eqb c "?" || Ascii.eqb c "#")%char.

Fixpoint authority (s : string) : string :=
  match s with
  | EmptyString => EmptyString
  | String c s' => if ends_authority c then EmptyString else String c (authority s')
  end.

Definition location_origin (url : string) : string :=
  match index 0 "://" url with
  | Some n =>
      substring 0 (n + 3) url +:+
      authority (substring (n + 3) (String.length url) url)
  | None => "null"
  end.

(** *** The effect monad: state, visible actions, exceptions *)

Definition M (S O A : Type) : Type := S → S * list O * Completion A.

Definition ret {S O A} (a : A) : M S O A := λ s, (s, [], Normal a).

Definition bind {S O A B} (c : M S O A) (k : A → M S O B) : M S O B :=
  λ s,
    match c s with
    | (s1, o1, Normal a) =>
        match k a s1 with
        | (s2, o2, r) => (s2, o1 ++ o2, r)
        end
    | (s1, o1, Throw e) => (s1, o1, Throw e)
    end.

Definition throw {S O A} (e : JsError) : M S O A := λ s, (s, [], Throw e).

(** [try { body } catch (error) { handler(error) }] *)
Definition try_catch {S O A} (body : M S O A) (handler : JsError → M S O A) : M S O A :=
  λ s,
    match body s with
    | (s1, o1, Normal a) => (s1, o1, Normal a)
    | (s1, o1, Throw e) =>
        match handler e s1 with
        | (s2, o2, r) => (s2, o1 ++ o2, r)
        end
    end.

Definition tell {S O} (o : O) : M S O unit := λ s, (s, [o], Normal tt).
Definition gets {S O A} (f : S → A) : M S O A := λ s, (s, [], Normal (f s)).
Definition modify {S O} (f : S → S) : M S O unit := λ s, (f s, [], Normal tt).

(** [await p] once [p] has settled. *)
Definition await {S O A} (p : Settled A) : M S O A :=
  match p with
  | Resolved a => ret a
  | Rejected e => throw e
  end.

(** [if (c) { body }] *)
Definition when {S O} (c : bool) (body : M S O unit) : M S O unit :=
  if c then body else ret tt.

End Js.

Export Js.

#[export] Instance M_ret {S O} : MRet (M S O) := λ A, @ret S O A.
#[export] Instance M_bind {S O} : MBind (M S O) := λ A B k c, bind c k.

(** [array.forEach(f)]: a callback that throws ends the loop. *)
Fixpoint forEach {S O A} (l : list A) (f : A → M S O unit) : M S O unit :=
  match l with
  | [] => ret tt
  | x :: l' => f x;; forEach l' f
  end.

(** The part of the platform the page provider relies on:
    [parseInt(chainId, 16).toString()]. *)
Class Platform := {
  parseInt16_toString : jsval → string
}.

(** A reference platform for hexadecimal chain ids that fit a double
    exactly. *)
Module RefPlatform.

Definition hex_digit (c : ascii) : option N :=
  let n := N_of_ascii c in
  if ((48 <=? n) && (n <=? 57))%N then Some (n - 48)%N
  else if ((97 <=? n) && (n <=? 102))%N then Some (n - 87)%N
  else if ((65 <=? n) && (n <=? 70))%N then Some (n - 55)%N
  else None.

Fixpoint hex_digits (acc : option N) (s : string) : option N :=
  match s with
  | EmptyString => acc
  | String c s' =>
      match hex_digit c with
      | Some d => hex_digits (Some (16 * default 0%N acc + d)%N) s'
      | None => acc
      end
  end.

Definition strip_0x (s : string) : string :=
  if String.prefix "0x" s || String.prefix "0X" s
  then substring 2 (String.length s) s
  else s.

Definition parseInt16 (s : string) : option N := hex_digits None (strip_0x s).

Definition Number_toString (n : option N) : string :=
  match n with
  | Some n => NilZero.string_of_uint (N.to_uint n)
  | None => "NaN"
  end.

#[export] Instance reference : Platform :=
  {| parseInt16_toString := λ v, Number_toString (parseInt16 (ToString v)) |}.

End RefPlatform.

(** ** Data carried by requests *)

(** [params[0]] of [wallet_addEthereumChain]; only the properties the
    scripts read are kept. *)
Record ChainData := mkChainData {
  cd_chainId : jsval;
  cd_chainName : jsval;
  cd_rpcUrls : option (list string)
}.

(** [params[0]] of [eth_sendTransaction]. *)
Record Transaction := mkTransaction {
  tx_to : jsval;
  tx_data : jsval;
  tx_value : jsval
}.

(** The [CROSSNET_RESPONSE] window message, as the page provider reads it.
    [R] is the type of [result] for the method that was called;
    [cr_result = None] when the property is absent or [null]. *)
Record Response (R : Type) := mkResponse {
  cr_id : string;
  cr_error : option ErrPayload;
  cr_accounts : option (list string);
  cr_chainId : jsval;
  cr_success : bool;
  cr_switched : bool;
  cr_result : option R
}.
Arguments mkResponse {R}.
Arguments cr_id {R}.
Arguments cr_error {R}.
Arguments cr_accounts {R}.
Arguments cr_chainId {R}.
Arguments cr_success {R}.
Arguments cr_switched {R}.
Arguments cr_result {R}.

(** ** The page provider ([crossNetWallet] in injectScript.js) *)

Module Provider.

Definition USER_REJECTED : Z := 4001.
Definition UNAUTHORIZED : Z := 4100.
Definition UNSUPPORTED_METHOD : Z := 4200.
Definition DISCONNECTED : Z := 4900.
Definition CHAIN_DISCONNECTED : Z := 4901.
Definition INVALID_PARAMS : Z := -32602.
Definition INTERNAL_ERROR : Z := -32603.
Definition RESOURCE_UNAVAILABLE : Z := -32002.

(** A listener registered by the page.  Listeners are compared by
    identity ([lid]); what a listener does is its own business, the
    provider only sees whether the call throws.  A listener is taken not
    to call back into the provider while it runs. *)
Record Listener := mkListener {
  lid : nat;
  lthrows : string → Payload → option JsError
}.

(** The properties of [crossNetWallet] that the methods below read or
    write.  [_events] maps an event name to the array of its listeners;
    it is read through the properties that [on] has put there (an event
    is not named like a member of [Object.prototype]). *)
Record Wallet := mkWallet {
  isConnected : bool;
  accounts : list string;
  chainId : jsval;
  selectedAddress : jsval;
  networkVersion : jsval;
  connected : bool;
  _chainSwitchInProgress : bool;
  _events : gmap string (list Listener)
}.

Definition set_isConnected (b : bool) (w : Wallet) : Wallet :=
  mkWallet b (accounts w) (chainId w) (selectedAddress w) (networkVersion w)
           (connected w) (_chainSwitchInProgress w) (_events w).
Definition set_accounts (a : list string) (w : Wallet) : Wallet :=
  mkWallet (isConnected w) a (chainId w) (selectedAddress w) (networkVersion w)
           (connected w) (_chainSwitchInProgress w) (_events w).
Definition set_chainId (c : jsval) (w : Wallet) : Wallet :=
  mkWallet (isConnected w) (accounts w) c (selectedAddress w) (networkVersion w)
           (connected w) (_chainSwitchInProgress w) (_events w).
Definition set_selectedAddress (a : jsval) (w : Wallet) : Wallet :=
  mkWallet (isConnected w) (accounts w) (chainId w) a (networkVersion w)
           (connected w) (_chainSwitchInProgress w) (_events w).
Definition set_networkVersion (v : jsval) (w : Wallet) : Wallet :=
  mkWallet (isConnected w) (accounts w) (chainId w) (selectedAddress w) v
           (connected w) (_chainSwitchInProgress w) (_events w).
Definition set_connected (b : bool) (w : Wallet) : Wallet :=
  mkWallet (isConnected w) (accounts w) (chainId w) (selectedAddress w)
           (networkVersion w) b (_chainSwitchInProgress w) (_events w).
Definition set_chainSwitchInProgress (b : bool) (w : Wallet) : Wallet :=
  mkWallet (isConnected w) (accounts w) (chainId w) (selectedAddress w)
           (networkVersion w) (connected w) b (_events w).
Definition set_events (e : gmap string (list Listener)) (w : Wallet) : Wallet :=
  mkWallet (isConnected w) (accounts w) (chainId w) (selectedAddress w)
           (networkVersion w) (connected w) (_chainSwitchInProgress w) e.

(** [params] of the requests posted to the relay. *)
Inductive Params :=
| NoParams
| ChainParams (chainId : jsval)
| ChainDataParams (chainData : ChainData)
| TxParams (tx : Transaction).

(** What the page and the relay can see of a method. *)
Inductive Obs :=
| Called (listener : nat) (eventName : string) (arg : Payload)
| Posted (method : string) (params : Params).

Abbreviation P := (M Wallet Obs).

Definition _createRPCError (code : Z) (message : string) : JsError :=
  {| err_code := Some code; err_message := message |}.

(** [listener(...args)] *)
Definition call (listener : Listener) (eventName : string) (arg : Payload) : P unit :=
  tell (Called (lid listener) eventName arg);;
  match lthrows listener eventName arg with
  | Some e => throw e
  | None => mret tt
  end.

Definition emit (eventName : string) (arg : Payload) : P unit :=
  events ← gets _events;
  match events !! eventName with
  | None => mret tt
  | Some listeners =>
      forEach listeners (λ listener,
        try_catch (call listener eventName arg) (λ error, mret tt))
  end.

Definition on (eventName : string) (listener : Listener) : P unit :=
  events ← gets _events;
  when (bool_decide (events !! eventName = None))
       (modify (λ w, set_events (<[eventName := []]> (_events w)) w));;
  modify (λ w,
    set_events (<[eventName := default [] (_events w !! eventName) ++ [listener]]>
                  (_events w)) w).


(** [_sendRequest(method, params)] posts a [CROSSNET_REQUEST]; the promise
    it returns settles later, see [responseHandler]. *)
Definition _sendRequest (method : string) (params : Params) : P unit :=
  tell (Posted method params).

(** The [responseHandler] of [_sendRequest] for the request [requestId]:
    [None] when the window message is not the awaited response. *)
Definition responseHandler {R} (requestId : string) (data : Response R)
  : P (option (Settled (Response R))) :=
  if String.eqb (cr_id data) requestId then
    match cr_error data with
    | Some (ErrStr "") | None => mret (Some (Resolved data))
    | Some e =>
        let code := match e with ErrStr _ => 0%Z | ErrObj c _ => c end in
        let message := match e with ErrStr s => s | ErrObj _ m => m end in
        let error :=
          _createRPCError (if (code =? 0)%Z then INTERNAL_ERROR else code)
                          (if String.eqb message "" then "Unknown error" else message) in
        when (bool_decide (err_code error = Some CHAIN_DISCONNECTED))
             (emit "chainChanged" (PChainId VNull));;
        mret (Some (Rejected error))
    end
  else mret None.

(** [connect()] *)
Definition connect_start : P unit :=
  try_catch (_sendRequest "eth_requestAccounts" NoParams) (λ error, throw error).

Definition connect_resume `{Platform} {R} (p : Settled (Response R)) : P (list string) :=
  try_catch
    (response ← await p;
     match cr_accounts response with
     | Some (first :: rest) =>
         modify (set_accounts (first :: rest));;
         modify (set_selectedAddress (VStr first));;
         modify (set_chainId (cr_chainId response));;
         modify (set_networkVersion (VStr (parseInt16_toString (cr_chainId response))));;
         modify (set_isConnected true);;
         modify (set_connected true);;
         a ← gets accounts; emit "accountsChanged" (PAccounts a);;
         c ← gets chainId; emit "chainChanged" (PChainId c);;
         c ← gets chainId; emit "connect" (PConnectInfo c)
     | _ => mret tt
     end;;
     gets accounts)
    (λ error, throw error).

(** [getAccounts()] *)
Definition getAccounts_start : P unit :=
  try_catch (_sendRequest "eth_accounts" NoParams) (λ error, mret tt).

Definition getAccounts_resume (p : Settled (Response (list string))) : P (list string) :=
  try_catch
    (response ← await p;
     modify (set_accounts (default [] (cr_result response)));;
     gets accounts)
    (λ error, mret []).

(** [sendTransaction(txParams)] *)
Definition sendTransaction_start (txParams : Transaction) : P unit :=
  isConnected ← gets isConnected;
  if negb isConnected then
    throw (_createRPCError UNAUTHORIZED
             "Wallet not connected. Connect first using eth_requestAccounts")
  else
    try_catch (_sendRequest "eth_sendTransaction" (TxParams txParams))
              (λ error, throw error).

Definition sendTransaction_resume (p : Settled (Response string)) : P (option string) :=
  try_catch (response ← await p; mret (cr_result response)) (λ error, throw error).

(** [switchChain(chainId)] *)
Definition switchChain_start (chainId : jsval) : P unit :=
  try_catch
    (inProgress ← gets _chainSwitchInProgress;
     (if (inProgress : bool)
      then throw (_createRPCError RESOURCE_UNAVAILABLE "Chain switch already in progress")
      else mret tt);;
     modify (set_chainSwitchInProgress true);;
     _sendRequest "wallet_switchEthereumChain" (ChainParams chainId))
    (λ error, modify (set_chainSwitchInProgress false);; throw error).

Definition switchChain_resume `{Platform} {R} (chainId : jsval) (p : Settled (Response R))
  : P unit :=
  try_catch
    (response ← await p;
     when (cr_success response)
       (oldChainId ← gets Provider.chainId;
        modify (set_chainId chainId);;
        modify (set_networkVersion (VStr (parseInt16_toString chainId)));;
        when (negb (jsval_eqb oldChainId chainId))
          (emit "chainChanged" (PChainId chainId);;
           emit "networkChanged" (PNetwork (parseInt16_toString chainId));;
           emit "chainIdChanged" (PChainId chainId)));;
     modify (set_chainSwitchInProgress false))
    (λ error, modify (set_chainSwitchInProgress false);; throw error).

(** [addChain(chainData)] *)
Definition invalid_chainData (chainData : ChainData) : bool :=
  negb (truthy (cd_chainId chainData)) ||
  negb (truthy (cd_chainName chainData)) ||
  match cd_rpcUrls chainData with
  | None => true
  | Some urls => (length urls =? 0)%nat
  end.

Definition addChain_start (chainData : ChainData) : P unit :=
  try_catch
    (inProgress ← gets _chainSwitchInProgress;
     (if (inProgress : bool)
      then throw (_createRPCError RESOURCE_UNAVAILABLE "Chain operation already in progress")
      else mret tt);;
     modify (set_chainSwitchInProgress true);;
     (if invalid_chainData chainData
      then throw (_createRPCError INVALID_PARAMS
                    "Invalid chain data: chainId, chainName, and rpcUrls are required")
      else mret tt);;
     _sendRequest "wallet_addEthereumChain" (ChainDataParams chainData))
    (λ error, modify (set_chainSwitchInProgress false);; throw error).

Definition addChain_resume `{Platform} {R} (chainData : ChainData) (p : Settled (Response R))
  : P unit :=
  try_catch
    (response ← await p;
     when (cr_success response && cr_switched response)
       (oldChainId ← gets Provider.chainId;
        modify (set_chainId (cd_chainId chainData));;
        modify (set_networkVersion (VStr (parseInt16_toString (cd_chainId chainData))));;
        when (negb (jsval_eqb oldChainId (cd_chainId chainData)))
          (emit "chainChanged" (PChainId (cd_chainId chainData));;
           emit "networkChanged" (PNetwork (parseInt16_toString (cd_chainId chainData)))));;
     modify (set_chainSwitchInProgress false))
    (λ error, modify (set_chainSwitchInProgress false);; throw error).

(** The page's [message] listener, [WALLET_EVENT] branch. *)
Definition onWalletEvent (eventName : string) (eventData : Payload) : P unit :=
  emit eventName eventData.

(** The listeners an [emit] of [eventName] goes through. *)
Definition listeners (w : Wallet) (eventName : string) : list Listener :=
  default [] (_events w !! eventName).

End Provider.

(** ** Messages between the contexts *)

Module Wire.

(** [message.data] of a request sent by the relay. *)
Record Data := mkData {
  d_requestId : JsId;
  d_origin : jsval;
  d_chainId : jsval;
  d_chainData : option ChainData;
  d_transaction : option Transaction;
  d_msgData : jsval;
  d_address : jsval
}.

(** A message received by the broker's [runtime.onMessage] listeners,
    from a relay or from the approval popup. *)
Record Message := mkMessage {
  m_type : string;
  m_method : string;
  m_requestId : JsId;
  m_approved : bool;
  m_accounts : option (list string);
  m_chainId : jsval;
  m_origin : jsval;
  m_switchToChain : bool;
  m_txHash : jsval;
  m_signature : jsval;
  m_data : option Data
}.

(** The argument of the broker's [sendResponse].  [result] is a string
    ([br_result]) or, in the answer of [handleWeb3Request] to
    [eth_accounts] only, an array of addresses ([br_result_list]). *)
Record BrokerResponse := mkBrokerResponse {
  br_success : bool;
  br_waiting : bool;
  br_error : option ErrPayload;
  br_accounts : option (list string);
  br_chainId : jsval;
  br_result : jsval;
  br_result_list : option (list string)
}.

(** [window.crossNetWalletState], the [data] of a state update. *)
Record WalletState := mkWalletState {
  ws_connected : bool;
  ws_accounts : list string;
  ws_chainId : jsval
}.

(** A message received by the relay's [runtime.onMessage] listener. *)
Record TabMessage := mkTabMessage {
  t_type : string;
  t_requestId : JsId;
  t_approved : bool;
  t_accounts : option (list string);
  t_chainId : jsval;
  t_result : jsval;
  t_error : option ErrPayload;
  t_eventName : string;
  t_eventData : Payload;
  t_data : option WalletState
}.

Definition error_truthy (e : option ErrPayload) : bool :=
  match e with
  | None | Some (ErrStr "") => false
  | Some _ => true
  end.

(** A request [{ type, data }]. *)
Definition request (type : string) (data : Data) : Message :=
  mkMessage type "" IdUndefined false None VUndefined VUndefined false
            VUndefined VUndefined (Some data).

Definition data_of (requestId : JsId) : Data :=
  mkData requestId VUndefined VUndefined None None VUndefined VUndefined.

End Wire.

Export Wire.

#[export] Instance JsId_eq_dec : EqDecision JsId.
Proof. solve_decision. Defined.

#[export] Instance JsId_countable : Countable JsId.
Proof.
  refine (inj_countable'
    (λ i, match i with
          | IdUndefined => inl tt
          | IdNum n => inr (inl n)
          | IdStr s => inr (inr s)
          end)
    (λ x, match x with
          | inl _ => IdUndefined
          | inr (inl n) => IdNum n
          | inr (inr s) => IdStr s
          end) _).
  intros []; reflexivity.
Defined.

(** ** The content relay (content script)

    The [message] listener of the relay picks a handler by the [method]
    of the page's request, awaits it, and answers the page with
    [respond].  A handler sends a request to the broker ([_start]) and
    settles its promise when the broker has answered ([_reply]), when a
    later message from the broker arrives ([onMessage]), or when its
    timer fires ([on_timeout]). *)

Module Relay.

(** [pendingRequestsMap] holds, under the relay's request id, the
    [resolve]/[reject] pair of the promise that the [message] listener
    awaits for one page request; the pair is named by the [id] of that
    page request. *)
Record Relay := mkRelay {
  origin : string;
  nextRequestId : Z;
  pendingRequestsMap : gmap JsId string;
  crossNetWalletState : option WalletState
}.

Definition set_nextRequestId (n : Z) (r : Relay) : Relay :=
  mkRelay (origin r) n (pendingRequestsMap r) (crossNetWalletState r).
Definition set_pendingRequestsMap (m : gmap JsId string) (r : Relay) : Relay :=
  mkRelay (origin r) (nextRequestId r) m (crossNetWalletState r).
Definition set_crossNetWalletState (s : option WalletState) (r : Relay) : Relay :=
  mkRelay (origin r) (nextRequestId r) (pendingRequestsMap r) s.

(** What the relay does that the page or the broker can see. *)
Inductive Obs :=
| ToBackground (m : Message)
| ToPage (r : Response string)
| ToPageEvent (eventName : string) (eventData : Payload)
| ToPageState (data : option WalletState)
| Acked.

Abbreviation R := (M Relay Obs).

(** [const requestId = nextRequestId++] *)
Definition fresh : R JsId :=
  n ← gets nextRequestId;
  modify (set_nextRequestId (n + 1)%Z);;
  mret (IdNum n).

Definition pending_set (requestId : JsId) (id : string) : R unit :=
  modify (λ r, set_pendingRequestsMap (<[requestId := id]> (pendingRequestsMap r)) r).

Definition pending_delete (requestId : JsId) : R unit :=
  modify (λ r, set_pendingRequestsMap (delete requestId (pendingRequestsMap r)) r).

(** The end of the [message] listener for the page request [id]: the
    awaited handler resolved with [response] ([None] is [null]) or threw. *)
Definition respond {A} (id : string) (outcome : Settled (option A)) : Response A :=
  match outcome with
  | Resolved response => mkResponse id None None VUndefined true false response
  | Rejected error =>
      let errorMessage :=
        if String.eqb (err_message error) "" then "Unknown error" else err_message error in
      let errorCode :=
        (if includes errorMessage "user rejected" then 4001
         else if includes errorMessage "not connected" then 4100
         else if includes errorMessage "chain ID" then 4901
         else -32603)%Z in
      mkResponse id (Some (ErrObj errorCode errorMessage)) None VUndefined false false None
  end.

(** *** Requests that are answered at once *)

Definition handleGetAccountsRequest_start : R JsId :=
  requestId ← fresh;
  tell (ToBackground (request "GET_ACCOUNTS_REQUEST" (data_of requestId)));;
  mret requestId.

Definition handleGetAccountsRequest_reply (reply : Settled BrokerResponse)
  : Settled (option (list string)) :=
  match reply with
  | Resolved response =>
      match br_accounts response with
      | Some accounts => Resolved (Some accounts)
      | None => Resolved (Some [])
      end
  | Rejected error => Resolved (Some [])
  end.

Definition handleGetChainIdRequest_start : R JsId :=
  requestId ← fresh;
  tell (ToBackground (request "GET_CHAINID_REQUEST" (data_of requestId)));;
  mret requestId.




(** *** Requests that may wait for the approval popup

    [handleTransactionRequest], [handleSignRequest],
    [handleSwitchChainRequest] and [handleAddChainRequest] treat the
    broker's answer in the same four steps; [granted] is the first test
    and the value the promise resolves with. *)

Definition approval_reply (granted : BrokerResponse → option (option string))
    (requestId : JsId) (id : string) (reply : Settled BrokerResponse)
  : R (option (Settled (option string))) :=
  match reply with
  | Resolved response =>
      match granted response with
      | Some value =>
          pending_delete requestId;; mret (Some (Resolved value))
      | None =>
          if br_waiting response then
            pending_set requestId id;; mret None
          else if error_truthy (br_error response) then
            pending_delete requestId;;
            mret (Some (Rejected (new_Error
                    (match br_error response with Some e => String_of e | None => "" end))))
          else
            pending_delete requestId;;
            mret (Some (Rejected (new_Error "Invalid response from wallet")))
      end
  | Rejected error =>
      pending_delete requestId;; mret (Some (Rejected error))
  end.

Definition granted_result (response : BrokerResponse) : option (option string) :=
  match br_result response with
  | VStr s => if String.eqb s "" then None else Some (Some s)
  | _ => None
  end.


Definition handleTransactionRequest_start (transaction : option Transaction) : R JsId :=
  requestId ← fresh;
  o ← gets origin;
  tell (ToBackground (request "SEND_TRANSACTION_REQUEST"
          (mkData requestId (VStr o) VUndefined None transaction VUndefined VUndefined)));;
  mret requestId.

Definition handleTransactionRequest_reply := approval_reply granted_result.

(** [type] is ['personal'], ['eth'] or ['typed']. *)
Definition handleSignRequest_start (msgData address : jsval) (type : string) : R JsId :=
  requestId ← fresh;
  o ← gets origin;
  let requestType :=
    if String.eqb type "typed" then "TYPED_SIGN_REQUEST"
    else if String.eqb type "eth" then "ETH_SIGN_REQUEST"
    else "PERSONAL_SIGN_REQUEST" in
  tell (ToBackground (request requestType
          (mkData requestId (VStr o) VUndefined None None msgData address)));;
  mret requestId.


Definition handleSwitchChainRequest_start (chainId : jsval) : R JsId :=
  requestId ← fresh;
  o ← gets origin;
  tell (ToBackground (request "SWITCH_CHAIN_REQUEST"
          (mkData requestId (VStr o) chainId None None VUndefined VUndefined)));;
  mret requestId.


Definition handleAddChainRequest_start (chainData : option ChainData) : R JsId :=
  requestId ← fresh;
  o ← gets origin;
  tell (ToBackground (request "ADD_CHAIN_REQUEST"
          (mkData requestId (VStr o) VUndefined chainData None VUndefined VUndefined)));;
  mret requestId.


Definition handleGetBalanceRequest_start (address : jsval) : R JsId :=
  requestId ← fresh;
  tell (ToBackground (request "GET_BALANCE_REQUEST"
          (mkData requestId VUndefined VUndefined None None VUndefined address)));;
  mret requestId.


(** The [setTimeout] callback of a handler: [timedOut] is its message. *)
Definition on_timeout (timedOut : string) (requestId : JsId) : R (Settled (option string)) :=
  pending_delete requestId;;
  mret (Rejected (new_Error timedOut)).

(** *** Messages from the broker ([chrome.runtime.onMessage]) *)

(** [handleTransactionResponse(message)] and [handleSignResponse(message)];
    [rejected] is the message of the fallback error. *)
Definition handleResponse (rejected : string) (message : TabMessage) : R unit :=
  pending ← gets pendingRequestsMap;
  match pending !! t_requestId message with
  | None => mret tt
  | Some id =>
      (if t_approved message && truthy (t_result message)
       then tell (ToPage (respond id (Resolved
                    (match t_result message with VStr s => Some s | _ => None end))))
       else tell (ToPage (respond id (Rejected
                    (match t_error message with
                     | Some e => if error_truthy (Some e) then thrown_payload e
                                 else new_Error rejected
                     | None => new_Error rejected
                     end)))));;
      pending_delete (t_requestId message)
  end.

Definition handleTransactionResponse := handleResponse "Transaction rejected".
Definition handleSignResponse := handleResponse "Signing rejected".

(** The listener; its result is the listener's return value. *)
Definition onMessage (message : TabMessage) : R bool :=
  let type := t_type message in
  if String.eqb type "SEND_TRANSACTION_RESPONSE" then
    handleTransactionResponse message;; tell Acked;; mret true
  else if String.eqb type "PERSONAL_SIGN_RESPONSE"
       || String.eqb type "ETH_SIGN_RESPONSE"
       || String.eqb type "TYPED_SIGN_RESPONSE" then
    handleSignResponse message;; tell Acked;; mret true
  else if String.eqb type "SWITCH_CHAIN_RESPONSE"
       || String.eqb type "ADD_CHAIN_RESPONSE" then
    pending ← gets pendingRequestsMap;
    match pending !! t_requestId message with
    | Some id =>
        (if t_approved message
         then tell (ToPage (respond id (Resolved None)))
         else tell (ToPage (respond id (Rejected (new_Error
                      (match t_error message with
                       | Some e => if error_truthy (Some e) then String_of e
                                   else "Request rejected"
                       | None => "Request rejected"
                       end))))));;
        pending_delete (t_requestId message)
    | None => mret tt
    end;;
    tell Acked;; mret true
  else if String.eqb type "CROSSNET_STATE_UPDATE" then
    tell (ToPageState (t_data message));;
    tell Acked;; mret true
  else if String.eqb type "CONNECT" then
    modify (set_crossNetWalletState (Some
      (mkWalletState true (default [] (t_accounts message)) (t_chainId message))));;
    tell (ToPageEvent "connect" (PConnectInfo (t_chainId message)));;
    tell Acked;; mret true
  else if String.eqb type "DISCONNECT" then
    modify (λ r, set_crossNetWalletState (Some
      (mkWalletState false []
         (match crossNetWalletState r with
          | Some s => ws_chainId s
          | None => VUndefined
          end))) r);;
    s ← gets crossNetWalletState;
    tell (ToPageState s);;
    tell (ToPageEvent "disconnect" (PError (Some 1000%Z) "Connection closed by wallet"));;
    tell Acked;; mret true
  else if String.eqb type "WALLET_EVENT" then
    tell (ToPageEvent (t_eventName message) (t_eventData message));;
    tell Acked;; mret true
  else mret false.

(** Does a tab running the relay answer a message of this type?  The
    broker's [tabs.sendMessage] callbacks receive [{ success: true }] when
    it does and [undefined] when it does not. *)
Definition answers (type : string) : bool :=
  String.eqb type "SEND_TRANSACTION_RESPONSE"
  || String.eqb type "PERSONAL_SIGN_RESPONSE"
  || String.eqb type "ETH_SIGN_RESPONSE"
  || String.eqb type "TYPED_SIGN_RESPONSE"
  || String.eqb type "SWITCH_CHAIN_RESPONSE"
  || String.eqb type "ADD_CHAIN_RESPONSE"
  || String.eqb type "CROSSNET_STATE_UPDATE"
  || String.eqb type "CONNECT"
  || String.eqb type "DISCONNECT"
  || String.eqb type "WALLET_EVENT".

End Relay.

(** ** The approval broker (background.js) *)

Module Broker.

(** [state.connectedSites[origin]] *)
Record ConnectedSite := mkSite {
  cs_origin : jsval;
  cs_accounts : list string;
  cs_chainId : jsval;
  cs_connected : bool;
  cs_lastConnected : Z;
  cs_permissions : list string;
  cs_timestamp : Z
}.

(** [state.customChains[chainId]] *)
Record CustomChain := mkCustomChain {
  cc_chainData : ChainData;
  cc_addedBy : jsval;
  cc_timestamp : Z
}.

(** The properties of [state] that a handler reads or writes. *)
Record State := mkState {
  isUnlocked : bool;
  accounts : list string;
  selectedChainId : jsval;
  connectedSites : gmap string ConnectedSite;
  customChains : gmap string CustomChain
}.

(** A pending request as it is kept in [chrome.storage.local]. *)
Record PendingRequest := mkPending {
  id : JsId;
  type : string;
  origin : jsval;
  timestamp : Z;
  chainId : jsval;
  chainData : option ChainData;
  transaction : option Transaction;
  msgData : jsval;
  address : jsval
}.

(** [result.account]: a JSON text; [JSON.parse] may throw on it, and the
    object it yields may lack [address]. *)
Inductive StoredAccount :=
| Unparsable
| Parsed (address : jsval).

(** [chrome.storage.local]: one slot for each kind of pending request
    and the copies written by [saveState], [saveConnectedSites] and
    [saveCustomChains]. *)
Record Storage := mkStorage {
  account : option StoredAccount;
  pendingConnectRequest : option PendingRequest;
  pendingChainRequest : option PendingRequest;
  pendingAddChainRequest : option PendingRequest;
  pendingTransactionRequest : option PendingRequest;
  pendingSignRequest : option PendingRequest;
  saved_state : option (bool * list string * jsval);
  saved_connectedSites : option (gmap string ConnectedSite);
  saved_customChains : option (gmap string CustomChain)
}.

(** An open tab: [tab.id], [tab.url] and whether the relay runs in it. *)
Record Tab := mkTab {
  tab_id : nat;
  tab_url : jsval;
  tab_relay : bool
}.

(** The broker and what it sees of the browser: the open tabs,
    [Date.now()], and whether [chrome.runtime.lastError] is set after a
    [chrome.storage.local.set]. *)
Record World := mkWorld {
  state : State;
  storage : Storage;
  tabs : list Tab;
  now : Z;
  lastError : bool
}.

Definition set_state (s : State) (w : World) : World :=
  mkWorld s (storage w) (tabs w) (now w) (lastError w).
Definition set_storage (s : Storage) (w : World) : World :=
  mkWorld (state w) s (tabs w) (now w) (lastError w).

Definition set_accounts (a : list string) (s : State) : State :=
  mkState (isUnlocked s) a (selectedChainId s) (connectedSites s) (customChains s).
Definition set_isUnlocked (b : bool) (s : State) : State :=
  mkState b (accounts s) (selectedChainId s) (connectedSites s) (customChains s).
Definition set_selectedChainId (c : jsval) (s : State) : State :=
  mkState (isUnlocked s) (accounts s) c (connectedSites s) (customChains s).
Definition set_connectedSites (m : gmap string ConnectedSite) (s : State) : State :=
  mkState (isUnlocked s) (accounts s) (selectedChainId s) m (customChains s).
Definition set_customChains (m : gmap string CustomChain) (s : State) : State :=
  mkState (isUnlocked s) (accounts s) (selectedChainId s) (connectedSites s) m.

Definition set_cs_chainId (c : jsval) (s : ConnectedSite) : ConnectedSite :=
  mkSite (cs_origin s) (cs_accounts s) c (cs_connected s) (cs_lastConnected s)
         (cs_permissions s) (cs_timestamp s).

Definition set_pendingConnectRequest (p : option PendingRequest) (s : Storage) : Storage :=
  mkStorage (account s) p (pendingChainRequest s) (pendingAddChainRequest s)
            (pendingTransactionRequest s) (pendingSignRequest s)
            (saved_state s) (saved_connectedSites s) (saved_customChains s).
Definition set_pendingChainRequest (p : option PendingRequest) (s : Storage) : Storage :=
  mkStorage (account s) (pendingConnectRequest s) p (pendingAddChainRequest s)
            (pendingTransactionRequest s) (pendingSignRequest s)
            (saved_state s) (saved_connectedSites s) (saved_customChains s).
Definition set_pendingAddChainRequest (p : option PendingRequest) (s : Storage) : Storage :=
  mkStorage (account s) (pendingConnectRequest s) (pendingChainRequest s) p
            (pendingTransactionRequest s) (pendingSignRequest s)
            (saved_state s) (saved_connectedSites s) (saved_customChains s).
Definition set_pendingTransactionRequest (p : option PendingRequest) (s : Storage) : Storage :=
  mkStorage (account s) (pendingConnectRequest s) (pendingChainRequest s)
            (pendingAddChainRequest s) p (pendingSignRequest s)
            (saved_state s) (saved_connectedSites s) (saved_customChains s).
Definition set_pendingSignRequest (p : option PendingRequest) (s : Storage) : Storage :=
  mkStorage (account s) (pendingConnectRequest s) (pendingChainRequest s)
            (pendingAddChainRequest s) (pendingTransactionRequest s) p
            (saved_state s) (saved_connectedSites s) (saved_customChains s).
Definition set_saved_state (v : option (bool * list string * jsval)) (s : Storage) : Storage :=
  mkStorage (account s) (pendingConnectRequest s) (pendingChainRequest s)
            (pendingAddChainRequest s) (pendingTransactionRequest s) (pendingSignRequest s)
            v (saved_connectedSites s) (saved_customChains s).
Definition set_saved_connectedSites (v : option (gmap string ConnectedSite)) (s : Storage)
  : Storage :=
  mkStorage (account s) (pendingConnectRequest s) (pendingChainRequest s)
            (pendingAddChainRequest s) (pendingTransactionRequest s) (pendingSignRequest s)
            (saved_state s) v (saved_customChains s).
Definition set_saved_customChains (v : option (gmap string CustomChain)) (s : Storage)
  : Storage :=
  mkStorage (account s) (pendingConnectRequest s) (pendingChainRequest s)
            (pendingAddChainRequest s) (pendingTransactionRequest s) (pendingSignRequest s)
            (saved_state s) (saved_connectedSites s) v.

(** What the broker does that another context can see. [OutOfModel] marks
    the popup's signer path, which is not part of the protocol. *)
Inductive Effect :=
| SendResponse (r : BrokerResponse)
| TabSend (tabId : nat) (m : TabMessage)
| OpenPopup (requestType : string) (requestId : JsId)
| OutOfModel (type : string).

Abbreviation B := (M World Effect).

Definition update_state (f : State → State) : B unit :=
  modify (λ w, set_state (f (state w)) w).
Definition update_storage (f : Storage → Storage) : B unit :=
  modify (λ w, set_storage (f (storage w)) w).

(** The storage and tabs functions of the browser take a callback, which
    runs after the function that passed it has returned.  The model runs
    the callback in place; an exception thrown in it does not reach the
    caller, it is reported on the console and lost. *)
Definition callback (body : B unit) : B unit :=
  try_catch body (λ error, mret tt).

(** [browserAPI.runtime.lastError] is read once, when the script is
    loaded, and is [undefined] from then on. *)
Definition browserAPI_lastError : bool := false.

Definition saveState : B unit :=
  s ← gets state;
  update_storage (set_saved_state (Some (isUnlocked s, accounts s, selectedChainId s))).

Definition saveConnectedSites : B unit :=
  s ← gets state;
  update_storage (set_saved_connectedSites (Some (connectedSites s))).

Definition saveCustomChains : B unit :=
  s ← gets state;
  update_storage (set_saved_customChains (Some (customChains s))).

Definition openPopupForApproval (requestType : string) (requestId : JsId) : B unit :=
  tell (OpenPopup requestType requestId).

(** The answers of [sendResponse]. *)
Definition no_response : BrokerResponse :=
  mkBrokerResponse false false None None VUndefined VUndefined None.
Definition success_response : BrokerResponse :=
  mkBrokerResponse true false None None VUndefined VUndefined None.
Definition waiting_response : BrokerResponse :=
  mkBrokerResponse false true None None VUndefined VUndefined None.
Definition error_response (e : ErrPayload) : BrokerResponse :=
  mkBrokerResponse false false (Some e) None VUndefined VUndefined None.

Definition sendResponse (r : BrokerResponse) : B unit := tell (SendResponse r).

(** The messages sent to tabs. *)
Definition tab_message (type : string) (requestId : JsId) (approved : bool) : TabMessage :=
  mkTabMessage type requestId approved None VUndefined VUndefined None "" PUndefined None.
Definition wallet_event (eventName : string) (eventData : Payload) : TabMessage :=
  mkTabMessage "WALLET_EVENT" IdUndefined false None VUndefined VUndefined None
               eventName eventData None.
Definition with_accounts (a : list string) (c : jsval) (m : TabMessage) : TabMessage :=
  mkTabMessage (t_type m) (t_requestId m) (t_approved m) (Some a) c (t_result m)
               (t_error m) (t_eventName m) (t_eventData m) (t_data m).
Definition with_chainId (c : jsval) (m : TabMessage) : TabMessage :=
  mkTabMessage (t_type m) (t_requestId m) (t_approved m) (t_accounts m) c (t_result m)
               (t_error m) (t_eventName m) (t_eventData m) (t_data m).
Definition with_result (r : jsval) (m : TabMessage) : TabMessage :=
  mkTabMessage (t_type m) (t_requestId m) (t_approved m) (t_accounts m) (t_chainId m) r
               (t_error m) (t_eventName m) (t_eventData m) (t_data m).
Definition with_error (e : ErrPayload) (m : TabMessage) : TabMessage :=
  mkTabMessage (t_type m) (t_requestId m) (t_approved m) (t_accounts m) (t_chainId m)
               (t_result m) (Some e) (t_eventName m) (t_eventData m) (t_data m).

Definition user_rejected : ErrPayload := ErrObj 4001 "User rejected the request.".

(** [tab.url && tab.url.includes(origin)] *)
Definition tab_matches (origin : jsval) (tab : Tab) : bool :=
  truthy (tab_url tab) && includes (ToString (tab_url tab)) (ToString origin).

(** [tabs.query({}, tabs => tabs.forEach(tab => { if (...) send(tab) }))] *)
Definition to_matching_tabs (origin : jsval) (send : Tab → B unit) : B unit :=
  callback
    (open ← gets tabs;
     forEach open (λ tab, when (tab_matches origin tab) (send tab))).

Definition tabs_sendMessage (tab : Tab) (m : TabMessage) : B unit :=
  tell (TabSend (tab_id tab) m).

(** The callback of [tabs.sendMessage] receives a response when the tab
    runs the relay and the relay answers this type of message. *)
Definition tab_answers (tab : Tab) (m : TabMessage) : bool :=
  tab_relay tab && Relay.answers (t_type m).

Definition notifyConnectedSite (origin : jsval) (eventName : string) (data : Payload)
  : B unit :=
  to_matching_tabs origin (λ tab, tabs_sendMessage tab (wallet_event eventName data)).

(** [state.connectedSites[origin]] *)
Definition site (s : State) (origin : jsval) : option ConnectedSite :=
  connectedSites s !! ToString origin.

(** [!state.connectedSites[origin] || !state.connectedSites[origin].connected] *)
Definition not_connected (s : State) (origin : jsval) : bool :=
  match site s origin with
  | Some c => negb (cs_connected c)
  | None => true
  end.

(** [state.selectedChainId || '137'] *)
Definition selected_or_default (s : State) : jsval :=
  if truthy (selectedChainId s) then selectedChainId s else VStr "137".

(** [JSON.parse(result.account).address] *)
Definition JSON_parse (a : StoredAccount) : B jsval :=
  match a with
  | Unparsable => throw (new_Error "Unexpected token in JSON")
  | Parsed address => mret address
  end.

(** [const { data } = message; const { ... } = data;] *)
Definition destructure (message : Message) : B Data :=
  match m_data message with
  | Some data => mret data
  | None => throw (new_Error "Cannot destructure property of undefined")
  end.

(** *** Connect *)

Definition proceedWithConnectionRequest (origin : jsval) (requestId : JsId) : B unit :=
  t ← gets now;
  let pendingRequest :=
    mkPending requestId "connect" origin t VUndefined None None VUndefined VUndefined in
  failed ← gets lastError;
  when (negb failed) (update_storage (set_pendingConnectRequest (Some pendingRequest)));;
  callback
    (if (failed : bool) then
       sendResponse (error_response (ErrStr "Internal wallet error"))
     else
       openPopupForApproval "connect" requestId;;
       sendResponse waiting_response).

Definition handleConnectRequest (message : Message) : B unit :=
  let origin := m_origin message in
  let requestId := m_requestId message in
  if negb (truthy origin) then
    sendResponse (error_response (ErrStr "Origin is required"))
  else
    callback
      (st ← gets storage;
       match account st with
       | Some stored =>
           try_catch
             (address ← JSON_parse stored;
              if negb (truthy address) then
                sendResponse (error_response (ErrStr "No accounts available"))
              else
                s ← gets state;
                if negb (not_connected s origin) then
                  when (negb (existsb (String.eqb (ToString address)) (accounts s)))
                       (update_state (set_accounts [ToString address]);; saveState);;
                  s ← gets state;
                  sendResponse (mkBrokerResponse true false None (Some [ToString address])
                                  (selected_or_default s) VUndefined None)
                else proceedWithConnectionRequest origin requestId)
             (λ e, sendResponse (error_response (ErrStr "No accounts available")))
       | None => sendResponse (error_response (ErrStr "No accounts available"))
       end).

Definition handleConnectResponse (message : Message) : B unit :=
  let requestId := m_requestId message in
  let approved := m_approved message in
  callback
   (st ← gets storage;
    match pendingConnectRequest st with
    | None => mret tt
    | Some pendingRequest =>
        if negb (JsId_eqb (id pendingRequest) requestId) then mret tt
        else
          let origin := origin pendingRequest in
          (if approved then
             s ← gets state;
             let given :=
               match m_accounts message with
               | Some (a :: l) => a :: l
               | _ => accounts s
               end in
             accountsToUse ←
               match given, account st with
               | [], Some stored =>
                   try_catch
                     (address ← JSON_parse stored;
                      mret (if truthy address then [ToString address] else given))
                     (λ e, mret given)
               | _, _ => mret given
               end;
             when (negb (length accountsToUse =? 0)%nat)
                  (update_state (set_accounts accountsToUse);; saveState);;
             s ← gets state;
             let chainId := selected_or_default s in
             t ← gets now;
             update_state (λ s, set_connectedSites
               (<[ToString origin :=
                    mkSite origin accountsToUse chainId true t ["eth_accounts"] t]>
                  (connectedSites s)) s);;
             saveConnectedSites;;
             let response :=
               with_accounts accountsToUse chainId (tab_message "CONNECT_RESPONSE" requestId true) in
             to_matching_tabs origin (λ tab, tabs_sendMessage tab response);;
             to_matching_tabs origin (λ tab,
               when (tab_answers tab response)
                 (tabs_sendMessage tab (wallet_event "connect" (PConnectInfo chainId));;
                  tabs_sendMessage tab (wallet_event "accountsChanged" (PAccounts accountsToUse))))
           else
             to_matching_tabs origin (λ tab,
               tabs_sendMessage tab
                 (with_error user_rejected (tab_message "CONNECT_RESPONSE" requestId false))));;
          update_storage (set_pendingConnectRequest None)
    end).

(** *** Switch chain *)

Definition handleSwitchChainRequest (message : Message) : B unit :=
  data ← destructure message;
  let chainId := d_chainId data in
  let origin := d_origin data in
  let requestId := d_requestId data in
  s ← gets state;
  if not_connected s origin then
    sendResponse (error_response (ErrStr "Site not connected"))
  else if jsval_eqb (selectedChainId s) chainId then
    sendResponse (mkBrokerResponse false false None None chainId VUndefined None)
  else
    t ← gets now;
    let pendingRequest :=
      mkPending requestId "switchChain" origin t chainId None None VUndefined VUndefined in
    update_storage (set_pendingChainRequest (Some pendingRequest));;
    callback
      (if browserAPI_lastError then
         sendResponse (error_response (ErrStr "Internal wallet error"))
       else
         openPopupForApproval "switchChain" requestId;;
         sendResponse waiting_response).

Definition handleSwitchChainResponse (message : Message) : B unit :=
  let requestId := m_requestId message in
  let approved := m_approved message in
  callback
   (st ← gets storage;
    match pendingChainRequest st with
    | None => mret tt
    | Some pendingRequest =>
        if negb (JsId_eqb (id pendingRequest) requestId) then mret tt
        else
          let origin := origin pendingRequest in
          let chainId := chainId pendingRequest in
          (if approved then
             update_state (set_selectedChainId chainId);;
             saveState;;
             s ← gets state;
             match site s origin with
             | Some c =>
                 update_state (set_connectedSites
                   (<[ToString origin := set_cs_chainId chainId c]> (connectedSites s)));;
                 saveConnectedSites
             | None => mret tt
             end;;
             to_matching_tabs origin (λ tab,
               tabs_sendMessage tab
                 (with_chainId chainId (tab_message "SWITCH_CHAIN_RESPONSE" requestId true));;
               tabs_sendMessage tab (wallet_event "chainChanged" (PChainId chainId)))
           else
             to_matching_tabs origin (λ tab,
               tabs_sendMessage tab
                 (with_error user_rejected (tab_message "SWITCH_CHAIN_RESPONSE" requestId false))));;
          update_storage (set_pendingChainRequest None)
    end).

(** *** Add chain *)

Definition invalid_chainData (chainData : option ChainData) : bool :=
  match chainData with
  | None => true
  | Some c =>
      negb (truthy (cd_chainId c)) ||
      negb (truthy (cd_chainName c)) ||
      match cd_rpcUrls c with
      | None => true
      | Some urls => (length urls =? 0)%nat
      end
  end.

Definition handleAddChainRequest (message : Message) : B unit :=
  data ← destructure message;
  let chainData := d_chainData data in
  let origin := d_origin data in
  let requestId := d_requestId data in
  s ← gets state;
  if not_connected s origin then
    sendResponse (error_response (ErrObj 4100 "Site not connected"))
  else if invalid_chainData chainData then
    sendResponse (error_response (ErrObj 4200 "Invalid chain parameters"))
  else
    t ← gets now;
    let pendingRequest :=
      mkPending requestId "addChain" origin t VUndefined chainData None VUndefined VUndefined in
    update_storage (set_pendingAddChainRequest (Some pendingRequest));;
    callback
      (if browserAPI_lastError then
         sendResponse (error_response (ErrObj 5000 "Internal wallet error"))
       else
         openPopupForApproval "addChain" requestId;;
         sendResponse waiting_response).

Definition handleAddChainResponse (message : Message) : B unit :=
  let requestId := m_requestId message in
  let approved := m_approved message in
  callback
   (st ← gets storage;
    match pendingAddChainRequest st with
    | None => mret tt
    | Some pendingRequest =>
        if negb (JsId_eqb (id pendingRequest) requestId) then mret tt
        else
          let origin := origin pendingRequest in
          match chainData pendingRequest with
          | None => throw (new_Error "Cannot read properties of undefined (reading 'chainId')")
          | Some chainData =>
              let chainId := cd_chainId chainData in
              (if approved then
                 t ← gets now;
                 update_state (λ s, set_customChains
                   (<[ToString chainId := mkCustomChain chainData origin t]> (customChains s)) s);;
                 saveCustomChains;;
                 when (m_switchToChain message)
                   (update_state (set_selectedChainId chainId);;
                    saveState;;
                    s ← gets state;
                    match site s origin with
                    | Some c =>
                        update_state (set_connectedSites
                          (<[ToString origin := set_cs_chainId chainId c]> (connectedSites s)));;
                        saveConnectedSites
                    | None => mret tt
                    end;;
                    to_matching_tabs origin (λ tab,
                      tabs_sendMessage tab (wallet_event "chainChanged" (PChainId chainId))));;
                 to_matching_tabs origin (λ tab,
                   tabs_sendMessage tab (tab_message "ADD_CHAIN_RESPONSE" requestId true))
               else
                 to_matching_tabs origin (λ tab,
                   tabs_sendMessage tab
                     (with_error user_rejected (tab_message "ADD_CHAIN_RESPONSE" requestId false))));;
              update_storage (set_pendingAddChainRequest None)
          end
    end).

(** *** Send transaction *)

Definition quoted (s : string) : string :=
  String (ascii_of_nat 34) s +:+ String (ascii_of_nat 34) EmptyString.

Definition missing_to_or_data : string :=
  "Invalid transaction parameters: missing " +:+ quoted "to" +:+ " or " +:+ quoted "data".

Definition handleSendTransactionRequest (message : Message) : B unit :=
  data ← destructure message;
  let origin := d_origin data in
  let requestId := d_requestId data in
  s ← gets state;
  if not_connected s origin then
    sendResponse (error_response (ErrObj 4100 "Site not connected"))
  else
    match d_transaction data with
    | None => sendResponse (error_response (ErrObj 4200 "Invalid transaction parameters"))
    | Some transaction =>
        t ← gets now;
        let pendingRequest :=
          mkPending requestId "transaction" origin t (selectedChainId s) None
                    (Some transaction) VUndefined VUndefined in
        if negb (truthy (tx_to transaction)) && negb (truthy (tx_data transaction)) then
          sendResponse (error_response (ErrObj 4200 missing_to_or_data))
        else
          update_storage (set_pendingTransactionRequest (Some pendingRequest));;
          callback
            (if browserAPI_lastError then
               sendResponse (error_response (ErrObj 5000 "Internal wallet error"))
             else
               openPopupForApproval "transaction" requestId;;
               sendResponse waiting_response)
    end.

Definition handleTransactionResponse (message : Message) : B unit :=
  let requestId := m_requestId message in
  let approved := m_approved message in
  let txHash := m_txHash message in
  callback
   (st ← gets storage;
    match pendingTransactionRequest st with
    | None => mret tt
    | Some pendingRequest =>
        if negb (JsId_eqb (id pendingRequest) requestId) then mret tt
        else
          let origin := origin pendingRequest in
          (if approved then
             to_matching_tabs origin (λ tab,
               tabs_sendMessage tab
                 (with_result txHash (tab_message "SEND_TRANSACTION_RESPONSE" requestId true)))
           else
             to_matching_tabs origin (λ tab,
               tabs_sendMessage tab
                 (with_error user_rejected
                    (tab_message "SEND_TRANSACTION_RESPONSE" requestId false))));;
          update_storage (set_pendingTransactionRequest None)
    end).

(** *** Sign *)

Definition handlePersonalSignRequest (message : Message) : B unit :=
  data ← destructure message;
  let origin := d_origin data in
  let requestId := d_requestId data in
  s ← gets state;
  match site s origin with
  | Some c =>
      if negb (cs_connected c) then
        sendResponse (error_response (ErrObj 4100 "Site not connected"))
      else if negb (match d_address data with
                    | VStr a => existsb (String.eqb a) (cs_accounts c)
                    | _ => false
                    end) then
        sendResponse (error_response (ErrObj 4100 "Unauthorized account"))
      else
        t ← gets now;
        let pendingRequest :=
          mkPending requestId "personalSign" origin t VUndefined None None
                    (d_msgData data) (d_address data) in
        update_storage (set_pendingSignRequest (Some pendingRequest));;
        callback
          (if browserAPI_lastError then
             sendResponse (error_response (ErrObj 5000 "Internal wallet error"))
           else
             openPopupForApproval "personalSign" requestId;;
             sendResponse waiting_response)
  | None => sendResponse (error_response (ErrObj 4100 "Site not connected"))
  end.

Definition handleSignResponse (message : Message) : B unit :=
  let requestId := m_requestId message in
  let approved := m_approved message in
  let signature := m_signature message in
  callback
   (st ← gets storage;
    match pendingSignRequest st with
    | None => mret tt
    | Some pendingRequest =>
        if negb (JsId_eqb (id pendingRequest) requestId) then mret tt
        else
          let origin := origin pendingRequest in
          let responseType :=
            if String.eqb (type pendingRequest) "personalSign" then "PERSONAL_SIGN_RESPONSE"
            else if String.eqb (type pendingRequest) "ethSign" then "ETH_SIGN_RESPONSE"
            else "TYPED_SIGN_RESPONSE" in
          (if approved then
             to_matching_tabs origin (λ tab,
               tabs_sendMessage tab
                 (with_result signature (tab_message responseType requestId true)))
           else
             to_matching_tabs origin (λ tab,
               tabs_sendMessage tab
                 (with_error user_rejected (tab_message responseType requestId false))));;
          update_storage (set_pendingSignRequest None)
    end).

(** *** The dispatcher of EIP-1193 methods

    [message] is [{ method, params, origin, requestId }]; [m_data] stands
    for [params]. *)
Definition handleWeb3Request (message : Message) : B unit :=
  let method := m_method message in
  let origin := m_origin message in
  let requestId := m_requestId message in
  let params (k : Data → B unit) : B unit :=
    match m_data message with
    | Some p => k p
    | None => throw (new_Error "Cannot read properties of undefined (reading '0')")
    end in
  let with_data (d : Data) : Message :=
    mkMessage "" "" IdUndefined false None VUndefined VUndefined false
              VUndefined VUndefined (Some d) in
  if String.eqb method "eth_requestAccounts" then
    handleConnectRequest
      (mkMessage "" "" requestId false None VUndefined origin false
                 VUndefined VUndefined None)
  else if String.eqb method "eth_accounts" then
    s ← gets state;
    sendResponse (mkBrokerResponse false false None None VUndefined VUndefined
                    (Some (match site s origin with
                           | Some c => if cs_connected c then cs_accounts c else []
                           | None => []
                           end)))
  else if String.eqb method "eth_chainId" then
    s ← gets state;
    sendResponse (mkBrokerResponse false false None None VUndefined
                    (selected_or_default s) None)
  else if String.eqb method "eth_sendTransaction" then
    params (λ p, handleSendTransactionRequest (with_data
      (mkData requestId origin VUndefined None (d_transaction p) VUndefined VUndefined)))
  else if String.eqb method "personal_sign" then
    params (λ p, handlePersonalSignRequest (with_data
      (mkData requestId origin VUndefined None None (d_msgData p) (d_address p))))
  else if String.eqb method "wallet_switchEthereumChain" then
    params (λ p, handleSwitchChainRequest (with_data
      (mkData requestId origin (d_chainId p) None None VUndefined VUndefined)))
  else if String.eqb method "wallet_addEthereumChain" then
    params (λ p, handleAddChainRequest (with_data
      (mkData requestId origin VUndefined (d_chainData p) None VUndefined VUndefined)))
  else
    sendResponse (error_response (ErrObj 4200 ("Method " +:+ method +:+ " not supported"))).

(** *** The listeners

    A call [f(message, sender, sendResponse)] in a listener looks [f] up
    in the script's global scope when the call is made.  [declared] lists
    the handlers that background.js declares; a name that is not among
    them makes the call throw a [ReferenceError]. *)
Definition declared : list (string * (Message → B unit)) :=
  [ ("handleConnectRequest", handleConnectRequest);
    ("handleConnectResponse", handleConnectResponse);
    ("handleSwitchChainRequest", handleSwitchChainRequest);
    ("handleSwitchChainResponse", handleSwitchChainResponse);
    ("handleAddChainRequest", handleAddChainRequest);
    ("handleAddChainResponse", handleAddChainResponse);
    ("handleSendTransactionRequest", handleSendTransactionRequest);
    ("handleTransactionResponse", handleTransactionResponse);
    ("handlePersonalSignRequest", handlePersonalSignRequest);
    ("handleSignResponse", handleSignResponse);
    ("handleWeb3Request", handleWeb3Request) ].

Fixpoint resolve (name : string) (scope : list (string * (Message → B unit)))
  : option (Message → B unit) :=
  match scope with
  | [] => None
  | (n, f) :: scope' => if String.eqb n name then Some f else resolve name scope'
  end.

Definition ReferenceError (name : string) : JsError :=
  new_Error (name +:+ " is not defined").

Definition call (name : string) (message : Message) : B unit :=
  match resolve name declared with
  | Some f => f message
  | None => throw (ReferenceError name)
  end.

(** [{ requestId, approved }], the object the first listener builds. *)
Definition only_decision (message : Message) : Message :=
  mkMessage "" "" (m_requestId message) (m_approved message) None VUndefined VUndefined
            false VUndefined VUndefined None.

(** [Object.keys(state.connectedSites).forEach(site => { if (connected) ... })];
    the order in which the sites are visited is not modelled. *)
Definition each_connected_site (notify : jsval → B unit) : B unit :=
  s ← gets state;
  forEach (map_to_list (connectedSites s))
          (λ entry, when (cs_connected entry.2) (notify (VStr entry.1))).

(** The first listener; the result is its return value ([true]: the
    channel is kept open). *)
Definition onMessage (message : Message) : B bool :=
  let type := m_type message in
  if String.eqb type "LOGOUT" then
    update_state (set_accounts []);;
    update_state (set_isUnlocked false);;
    each_connected_site (λ site,
      notifyConnectedSite site "accountsChanged" (PAccounts []);;
      notifyConnectedSite site "disconnect" (PError (Some 1000%Z) "User logged out of wallet"));;
    update_state (set_connectedSites ∅);;
    saveConnectedSites;;
    saveState;;
    sendResponse success_response;;
    mret false
  else if String.eqb type "CHAIN_CHANGED" then
    update_state (set_selectedChainId (m_chainId message));;
    saveState;;
    each_connected_site (λ site,
      notifyConnectedSite site "chainChanged" (PChainId (m_chainId message)));;
    mret false
  else if String.eqb type "APPROVE_CONNECT" then
    call "handleConnectResponse" (only_decision message);;
    sendResponse success_response;;
    mret false
  else if String.eqb type "APPROVE_TRANSACTION" then
    call "handleTransactionResponse" (only_decision message);;
    sendResponse success_response;;
    mret false
  else if String.eqb type "CONNECT_REQUEST" then
    call "handleConnectRequest" message;; mret true
  else if String.eqb type "GET_ACCOUNTS_REQUEST" then
    call "handleGetAccountsRequest" message;; mret false
  else if String.eqb type "GET_CHAINID_REQUEST" then
    call "handleGetChainIdRequest" message;; mret false
  else if String.eqb type "SEND_TRANSACTION_REQUEST" then
    call "handleSendTransactionRequest" message;; mret true
  else if String.eqb type "SIGN_TRANSACTION_REQUEST" then
    call "handleSignTransactionRequest" message;; mret true
  else if String.eqb type "GET_BALANCE_REQUEST" then
    call "handleGetBalanceRequest" message;; mret false
  else if String.eqb type "PERSONAL_SIGN_REQUEST" then
    call "handlePersonalSignRequest" message;; mret true
  else if String.eqb type "ETH_SIGN_REQUEST" then
    call "handleEthSignRequest" message;; mret true
  else if String.eqb type "TYPED_SIGN_REQUEST" then
    call "handleTypedSignRequest" message;; mret true
  else if String.eqb type "WATCH_ASSET_REQUEST" then
    call "handleWatchAssetRequest" message;; mret true
  else if String.eqb type "ADD_CHAIN_REQUEST" then
    call "handleAddChainRequest" message;; mret true
  else if String.eqb type "SWITCH_CHAIN_REQUEST" then
    call "handleSwitchChainRequest" message;; mret true
  else if String.eqb type "EXECUTE_TRANSACTION" then
    tell (OutOfModel type);; mret true
  else if String.eqb type "EXECUTE_SIGNING" then
    mret true
  else mret false.

(** The second listener, added at the end of the script. *)
Definition onMessage2 (message : Message) : B bool :=
  let type := m_type message in
  if String.eqb type "APPROVE_SWITCH_CHAIN" then
    call "handleSwitchChainResponse" message;;
    sendResponse success_response;;
    mret false
  else if String.eqb type "APPROVE_ADD_CHAIN" then
    call "handleAddChainResponse" message;;
    sendResponse success_response;;
    mret false
  else if String.eqb type "APPROVE_SIGN" then
    call "handleSignResponse" message;;
    sendResponse success_response;;
    mret false
  else mret false.

(** A message is handed to both listeners, in the order in which they
    were added; an exception in one does not keep the other from
    running. *)
Definition deliver (message : Message) (w : World)
  : World * list Effect * (Completion bool * Completion bool) :=
  match onMessage message w with
  | (w1, e1, r1) =>
      match onMessage2 message w1 with
      | (w2, e2, r2) => (w2, e1 ++ e2, (r1, r2))
      end
  end.

(** The calls of [sendResponse] among the effects. *)
Definition responses (effects : list Effect) : list BrokerResponse :=
  omap (λ e, match e with SendResponse r => Some r | _ => None end) effects.

(** The messages sent to tabs among the effects. *)
Definition sent (effects : list Effect) : list (nat * TabMessage) :=
  omap (λ e, match e with TabSend t m => Some (t, m) | _ => None end) effects.


(** Does a slot of the storage hold a pending request with this id? *)
Definition holds (slot : option PendingRequest) (requestId : JsId) : bool :=
  match slot with
  | Some p => JsId_eqb (id p) requestId
  | None => false
  end.

Definition has_pending (st : Storage) (requestId : JsId) : bool :=
  holds (pendingConnectRequest st) requestId
  || holds (pendingChainRequest st) requestId
  || holds (pendingAddChainRequest st) requestId
  || holds (pendingTransactionRequest st) requestId
  || holds (pendingSignRequest st) requestId.

End Broker.

(** ** The channel between a relay and the broker

    The relay sends a request with [backgroundConnection.sendMessage] and
    the broker answers it with [sendResponse].  The two ends are joined as
    the protocol means them to be: the promise of [sendMessage] resolves
    with what the broker passes to [sendResponse], and rejects with
    ["Response timeout"], thirty seconds later, when the broker has not
    answered. *)
Module Transport.

Definition reply (effects : list Broker.Effect) : Settled BrokerResponse :=
  match Broker.responses effects with
  | r :: _ => Resolved r
  | [] => Rejected (new_Error "Response timeout")
  end.

End Transport.

(** ** What a page observes *)

Module Observe.

Import Provider.

(** The calls that one [emit] makes: every listener of the event, in the
    order of registration. *)
Definition calls (w : Wallet) (eventName : string) (arg : Payload) : list Obs :=
  map (λ l, Called (lid l) eventName arg) (listeners w eventName).



(** The requests posted to the relay in a trace. *)
Definition posted (trace : list Obs) : list (string * Params) :=
  omap (λ o, match o with Posted m p => Some (m, p) | _ => None end) trace.




(** The wallet after a chain switch to [chainId]. *)
Definition switched_to `{Platform} (chainId : jsval) (w : Wallet) : Wallet :=
  mkWallet (isConnected w) (accounts w) chainId (selectedAddress w)
           (VStr (parseInt16_toString chainId)) (connected w) false (_events w).


(** What a successful [switchChain(c)] emits on the wallet [w]. *)
Definition switch_events `{Platform} (w : Wallet) (c : jsval) : list Obs :=
  if jsval_eqb (chainId w) c then []
  else calls w "chainChanged" (PChainId c) ++
       calls w "networkChanged" (PNetwork (parseInt16_toString c)) ++
       calls w "chainIdChanged" (PChainId c).

(** What the listeners of [page] are called with when the relay of its
    tab receives the message [m] from the broker. *)
Definition page_sees (m : TabMessage) (relay : Relay.Relay) (page : Wallet) : list Obs :=
  concat (map (λ o, match o with
                    | Relay.ToPageEvent e d => (onWalletEvent e d page).1.2
                    | _ => []
                    end)
              (Relay.onMessage m relay).1.2).

End Observe.

(** ** The vocabulary of the protocol specification *)

Module Protocol.

Import Broker.

(** [response.error.code] *)
Definition error_code (r : BrokerResponse) : option Z :=
  match br_error r with
  | Some (ErrObj c _) => Some c
  | _ => None
  end.

(** The storage slot that the handler of a decision message reads. *)
Definition slot_read_by (type : string) (st : Storage) : option (option PendingRequest) :=
  if String.eqb type "APPROVE_CONNECT" then Some (pendingConnectRequest st)
  else if String.eqb type "APPROVE_TRANSACTION" then Some (pendingTransactionRequest st)
  else if String.eqb type "APPROVE_SWITCH_CHAIN" then Some (pendingChainRequest st)
  else if String.eqb type "APPROVE_ADD_CHAIN" then Some (pendingAddChainRequest st)
  else if String.eqb type "APPROVE_SIGN" then Some (pendingSignRequest st)
  else None.




(** The wallet state: what is in memory and what has been saved. *)
Definition wallet_state_of (w : World)
  : State * option (bool * list string * jsval) * option (gmap string ConnectedSite)
    * option (gmap string CustomChain) :=
  (state w, saved_state (storage w), saved_connectedSites (storage w),
   saved_customChains (storage w)).

End Protocol.

(** ** A page, a relay and a broker at work *)

Module Scenario.

Import RefPlatform.

Definition dapp : string := "https://dapp.example".
Definition evil_url : string := "https://evil.example/?next=https://dapp.example".
Definition alice : string := "0xABC".

(** A page with one listener for every event it cares about. *)
Definition quiet : Provider.Listener := Provider.mkListener 0 (λ _ _, None).
Definition faulty : Provider.Listener :=
  Provider.mkListener 1 (λ _ _, Some (new_Error "listener failed")).

Definition fresh_wallet : Provider.Wallet :=
  Provider.mkWallet false [] VNull VNull VNull false false ∅.

Definition listening (events : list string) : Provider.Wallet :=
  (forEach events (λ e, Provider.on e quiet) fresh_wallet).1.1.

Definition page : Provider.Wallet :=
  listening ["connect"; "accountsChanged"; "chainChanged"; "disconnect";
             "networkChanged"; "chainIdChanged"].

(** The page once connected on Polygon. *)
Definition page_on_polygon : Provider.Wallet :=
  Provider.set_isConnected true (Provider.set_accounts [alice]
    (Provider.set_chainId (VStr "0x89") page)).


Definition ok {A} (id : string) : Response A :=
  mkResponse id None None VUndefined true false None.


(** The broker: [dapp] is connected, [evil] was connected once, [fresh]
    has never been; a tab is open on each of them, and the address of the
    tab on [evil] carries the origin of [dapp] in its query. *)
Definition evil : string := "https://evil.example".
Definition fresh : string := "https://fresh.example".

Definition site_dapp : Broker.ConnectedSite :=
  Broker.mkSite (VStr dapp) [alice] (VStr "0x89") true 0 ["eth_accounts"] 0.
Definition site_evil : Broker.ConnectedSite :=
  Broker.mkSite (VStr evil) [alice] (VStr "0x89") false 0 ["eth_accounts"] 0.

Definition wallet_state : Broker.State :=
  Broker.mkState true [alice] (VStr "0x89")
    (<[dapp := site_dapp]> (<[evil := site_evil]> ∅)) ∅.

Definition empty_storage : Broker.Storage :=
  Broker.mkStorage (Some (Broker.Parsed (VStr alice)))
                   None None None None None None None None.

Definition open_tabs : list Broker.Tab :=
  [ Broker.mkTab 1 (VStr "https://dapp.example/app") true;
    Broker.mkTab 2 (VStr evil_url) true;
    Broker.mkTab 3 (VStr "https://fresh.example/") true ].

Definition world : Broker.World :=
  Broker.mkWorld wallet_state empty_storage open_tabs 1700000000000 false.

(** A message without data, and a decision of the popup. *)
Definition plain (type : string) : Message :=
  mkMessage type "" IdUndefined false None VUndefined VUndefined false
            VUndefined VUndefined None.
Definition decision (type : string) (requestId : JsId) (approved : bool) : Message :=
  mkMessage type "" requestId approved None VUndefined VUndefined false
            VUndefined VUndefined None.

(** The relay of a tab that has just been loaded. *)
Definition relay_at (url : string) : Relay.Relay :=
  Relay.mkRelay (location_origin url) 1 ∅ None.

(** *** A switch request from a site without a session *)

Definition stranger_switch : Message :=
  request "SWITCH_CHAIN_REQUEST"
    (mkData (IdNum 1) (VStr fresh) (VStr "0x1") None None VUndefined VUndefined).
Definition stranger_eth_sign : Message :=
  request "ETH_SIGN_REQUEST"
    (mkData (IdNum 2) (VStr fresh) VUndefined None None (VStr "0x00") (VStr alice)).

(** *** A transaction that the user rejects

    The page on [dapp] calls [eth_sendTransaction]; the relay forwards the
    request, the broker opens the popup, the user rejects. *)

Definition tx : Transaction :=
  mkTransaction (VStr "0xDEF") VUndefined (VStr "0x38D7EA4C68000").

Definition tx_relay_asks := Relay.handleTransactionRequest_start (Some tx)
                              (relay_at "https://dapp.example/app").
Definition tx_request : Message :=
  request "SEND_TRANSACTION_REQUEST"
    (mkData (IdNum 1) (VStr dapp) VUndefined None (Some tx) VUndefined VUndefined).
Definition tx_broker_waits := Broker.deliver tx_request world.
Definition tx_relay_waits :=
  Relay.handleTransactionRequest_reply (IdNum 1) "page-1"
    (Transport.reply tx_broker_waits.1.2) tx_relay_asks.1.1.
Definition tx_rejection : Message := decision "APPROVE_TRANSACTION" (IdNum 1) false.
Definition tx_broker_settles := Broker.deliver tx_rejection tx_broker_waits.1.1.
Definition tx_rejected : TabMessage :=
  Broker.with_error Broker.user_rejected
    (Broker.tab_message "SEND_TRANSACTION_RESPONSE" (IdNum 1) false).
Definition tx_relay_settles := Relay.onMessage tx_rejected tx_relay_waits.1.1.
Definition tx_page_response : Response string :=
  Relay.respond "page-1" (Rejected (thrown_payload Broker.user_rejected)).
Definition tx_page_settles :=
  Provider.responseHandler "page-1" tx_page_response page_on_polygon.
Definition tx_page_promise :=
  Provider.sendTransaction_resume
    (Rejected (Provider._createRPCError (-32603) "User rejected the request."))
    page_on_polygon.

(** *** A connection that the user approves, and [eth_accounts] after it *)

Definition connect_request : Message :=
  mkMessage "CONNECT_REQUEST" "" (IdNum 7) false None VUndefined (VStr fresh) false
            VUndefined VUndefined None.
Definition connect_broker_waits := Broker.deliver connect_request world.
Definition connect_approval : Message := decision "APPROVE_CONNECT" (IdNum 7) true.
Definition connect_broker_settles :=
  Broker.deliver connect_approval connect_broker_waits.1.1.
Definition connected_world : Broker.World := connect_broker_settles.1.1.

Definition accounts_relay_asks :=
  Relay.handleGetAccountsRequest_start (relay_at "https://fresh.example/").
Definition accounts_request : Message :=
  request "GET_ACCOUNTS_REQUEST" (data_of (IdNum 1)).
Definition accounts_broker := Broker.deliver accounts_request connected_world.
Definition accounts_page_response : Response (list string) :=
  Relay.respond "page-2"
    (Relay.handleGetAccountsRequest_reply (Transport.reply accounts_broker.1.2)).
Definition accounts_page_promise :=
  Provider.getAccounts_resume (Resolved accounts_page_response) fresh_wallet.

(** *** A chain switch whose approval is delivered twice *)

Definition switch_request : Message :=
  request "SWITCH_CHAIN_REQUEST"
    (mkData (IdNum 3) (VStr dapp) (VStr "0x1") None None VUndefined VUndefined).
Definition switch_broker_waits := Broker.deliver switch_request world.
Definition switch_approval : Message := decision "APPROVE_SWITCH_CHAIN" (IdNum 3) true.
Definition switch_broker_settles :=
  Broker.deliver switch_approval switch_broker_waits.1.1.

(** The same question put to [handleWeb3Request], which no listener
    calls. *)
Definition accounts_by_web3 :=
  Broker.handleWeb3Request
    (mkMessage "" "eth_accounts" (IdNum 8) false None VUndefined (VStr fresh) false
               VUndefined VUndefined None)
    connected_world.

End Scenario.

(** * Further parts of the three scripts *)

(** ** The cache of RPC results ([rpcCache] in background.js) *)

Module RpcCache.

(** An entry of [rpcCache.cache].  A cached result is [undefined]
    ([None]) or a value; an [expiry] of [null] is [None]. *)
Record Entry (V : Type) := mkEntry {
  value : option V;
  expiry : option Z
}.
Arguments mkEntry {V}.
Arguments value {V}.
Arguments expiry {V}.

(** The cache and the clock it reads with [Date.now()]. *)
Record Cache (V : Type) := mkCache {
  cache : gmap string (Entry V);
  now : Z
}.
Arguments mkCache {V}.
Arguments cache {V}.
Arguments now {V}.

Definition set_cache {V} (m : gmap string (Entry V)) (c : Cache V) : Cache V :=
  mkCache m (now c).

(** The cache at a later reading of the clock. *)
Definition at_time {V} (t : Z) (c : Cache V) : Cache V :=
  mkCache (cache c) t.

(** The only thing the cache does that its caller sees: a call of
    [fetchCallback]. *)
Inductive Obs :=
| FetchCallback.

Abbreviation C V := (M (Cache V) Obs).

(** [set(key, value, ttl = 30000)]; [ttl = None] when the argument is
    left out. *)
Definition set {V} (key : string) (value : option V) (ttl : option Z) : C V (option V) :=
  let ttl := default 30000%Z ttl in
  t ← gets now;
  let entry := mkEntry value (if (ttl =? 0)%Z then None else Some (t + ttl)%Z) in
  modify (λ c, set_cache (<[key := entry]> (cache c)) c);;
  mret value.

(** [entry.expiry && entry.expiry < Date.now()] *)
Definition expired {V} (t : Z) (entry : Entry V) : bool :=
  match expiry entry with
  | Some e => negb (e =? 0)%Z && (e <? t)%Z
  | None => false
  end.

Definition get {V} (key : string) : C V (option V) :=
  c ← gets cache;
  match c !! key with
  | None => mret None
  | Some entry =>
      t ← gets now;
      if expired t entry then
        modify (λ c, set_cache (delete key (cache c)) c);;
        mret None
      else mret (value entry)
  end.

(** [this.get(key) !== undefined] *)
Definition has {V} (key : string) : C V bool :=
  v ← get key;
  mret (match v with Some _ => true | None => false end).

(** [clear(key)]; [key = None] when the argument is left out. *)
Definition clear {V} (key : option string) : C V unit :=
  if truthy_str key then
    modify (λ c, set_cache (delete (default "" key) (cache c)) c)
  else
    modify (set_cache ∅).

(** [getCacheKey(method, params)]; [json] is the text
    [JSON.stringify(params || [])]. *)
Definition getCacheKey (method json : string) : string :=
  method +:+ ":" +:+ json.

Definition nonCacheableMethods : list string :=
  [ "eth_sendTransaction"; "eth_sendRawTransaction"; "eth_sign"; "personal_sign";
    "eth_signTypedData"; "wallet_addEthereumChain"; "wallet_switchEthereumChain" ].

(** [processRequest] up to the point where it returns or awaits: it
    returns a cached value, returns the promise of [fetchCallback()] as
    it is, or awaits that promise to store its result. *)
Inductive Step (V : Type) :=
| Return (v : option V)
| ReturnFetch
| AwaitFetch (cacheKey : string).
Arguments Return {V} v.
Arguments ReturnFetch {V}.
Arguments AwaitFetch {V} cacheKey.

Definition processRequest_start {V} (method json : string) : C V (Step V) :=
  if existsb (String.eqb method) nonCacheableMethods then
    tell FetchCallback;; mret ReturnFetch
  else
    let cacheKey := getCacheKey method json in
    hit ← has cacheKey;
    if (hit : bool) then
      v ← get cacheKey; mret (Return v)
    else
      tell FetchCallback;; mret (AwaitFetch cacheKey).

(** The rest of [processRequest], once the awaited promise has settled. *)
Definition processRequest_resume {V} (cacheKey : string) (ttl : option Z)
    (fetched : Settled (option V)) : C V (option V) :=
  result ← await fetched;
  set cacheKey result ttl;;
  mret result.

End RpcCache.

(** ** [_sendRequest] of the page provider, with its timers *)

Module SendRequest.

Import Provider.

Definition _maxRetries : nat := 3.

(** The variables of one call of [_sendRequest]: [attached] counts the
    [responseHandler]s that listen on the window, one for every call of
    [makeRequest] until it is removed; [timeout] tells whether the timer
    set by the last [makeRequest] is still to fire; [promise] is the
    promise that was returned, [None] until it settles. *)
Record Call (R : Type) := mkCall {
  method : string;
  params : Params;
  requestId : string;
  retryCount : nat;
  attached : nat;
  timeout : bool;
  promise : option (Settled (Response R))
}.
Arguments mkCall {R}.
Arguments method {R}.
Arguments params {R}.
Arguments requestId {R}.
Arguments retryCount {R}.
Arguments attached {R}.
Arguments timeout {R}.
Arguments promise {R}.

(** [resolve(x)] and [reject(x)]: only the first one settles the promise. *)
Definition settle {R} (s : Settled (Response R)) (c : Call R) : Call R :=
  match promise c with
  | Some _ => c
  | None => mkCall (method c) (params c) (requestId c) (retryCount c) (attached c)
                   (timeout c) (Some s)
  end.

Definition makeRequest {R} (c : Call R) : P (Call R) :=
  Provider._sendRequest (method c) (params c);;
  mret (mkCall (method c) (params c) (requestId c) (retryCount c) (S (attached c))
               true (promise c)).

(** [_sendRequest(method, params)]; [requestId] is the id it draws. *)
Definition _sendRequest {R} (method : string) (params : Params) (requestId : string)
  : P (Call R) :=
  makeRequest (mkCall method params requestId 0 0 false None).

(** The callback of [setTimeout], twenty seconds after a [makeRequest]. *)
Definition onTimeout {R} (c : Call R) : P (Call R) :=
  if (retryCount c <? _maxRetries)%nat then
    makeRequest (mkCall (method c) (params c) (requestId c) (S (retryCount c))
                        (attached c) false (promise c))
  else
    let error := _createRPCError DISCONNECTED "Request timeout after multiple retries" in
    let c' := settle (Rejected error)
                (mkCall (method c) (params c) (requestId c) (retryCount c)
                        (pred (attached c)) false (promise c)) in
    connected ← gets isConnected;
    when connected
      (modify (set_isConnected false);;
       emit "disconnect" (PError (err_code error) (err_message error)));;
    mret c'.

(** A timer fires only while it is set. *)
Definition timer_fires {R} (c : Call R) : P (Call R) :=
  if timeout c then onTimeout c else mret c.

Fixpoint after_timeouts {R} (n : nat) (c : Call R) : P (Call R) :=
  match n with
  | 0 => mret c
  | S n' => c' ← timer_fires c; after_timeouts n' c'
  end.

(** A [CROSSNET_RESPONSE] on the window: every attached
    [responseHandler] is called with it, in the order in which they
    were attached. *)
Fixpoint responseHandlers {R} (n : nat) (requestId : string) (data : Response R)
  : P (option (Settled (Response R))) :=
  match n with
  | 0 => mret None
  | S n' =>
      first ← responseHandler requestId data;
      rest ← responseHandlers n' requestId data;
      mret (match first with Some s => Some s | None => rest end)
  end.

(** A handler that takes the response clears its timer and removes
    itself; all handlers of a call wait for the same id. *)
Definition onWindowMessage {R} (data : Response R) (c : Call R) : P (Call R) :=
  outcome ← responseHandlers (attached c) (requestId c) data;
  match outcome with
  | None => mret c
  | Some s =>
      mret (settle s (mkCall (method c) (params c) (requestId c) (retryCount c)
                             0 false (promise c)))
  end.

End SendRequest.

(** ** The [message] listener of the page *)

Module Window.

Import Provider.

(** [array.join(',')] on an array of strings. *)
Definition join (separator : string) (l : list string) : string :=
  String.concat separator l.

(** The [CROSSNET_STATE_UPDATE] branch; [data] is [event.data.data]. *)
Definition onStateUpdate (data : option WalletState) : P unit :=
  match data with
  | None => throw (new_Error "Cannot read properties of undefined (reading 'accounts')")
  | Some state =>
      accounts ← gets accounts;
      chainId ← gets chainId;
      let accountsChanged :=
        negb (String.eqb (join "," accounts) (join "," (ws_accounts state))) in
      let chainChanged := negb (jsval_eqb chainId (ws_chainId state)) in
      modify (set_isConnected (ws_connected state));;
      modify (set_accounts (ws_accounts state));;
      modify (set_chainId (ws_chainId state));;
      when accountsChanged (a ← gets Provider.accounts; emit "accountsChanged" (PAccounts a));;
      when chainChanged (c ← gets Provider.chainId; emit "chainChanged" (PChainId c))
  end.

(** The listener, on a message that the relay of the tab has posted. *)
Definition onMessage (posted : Relay.Obs) : P unit :=
  match posted with
  | Relay.ToPageState data => onStateUpdate data
  | Relay.ToPageEvent eventName eventData => onWalletEvent eventName eventData
  | _ => mret tt
  end.

(** The messages of a list, one after the other; an exception thrown
    by the listener for one message is reported and does not keep the
    next message from being handled. *)
Definition messages (posted : list Relay.Obs) : P unit :=
  forEach posted (λ m, try_catch (onMessage m) (λ error, mret tt)).

End Window.

(** ** The start of the broker *)

Module Startup.

Import Broker.

(** [let state = { ... }] *)
Definition state : State := mkState true [] VNull ∅ ∅.

(** The callback of the [storage.local.get] that background.js issues
    when it is loaded.  [None]: the stored account has no string as its
    [address], and [state.accounts] would hold a value that is not an
    address. *)
Definition initialize (result : Storage) : option State :=
  let s := state in
  let s := match saved_state result with
           | Some (unlocked, accounts, selected) =>
               mkState unlocked accounts selected (connectedSites s) (customChains s)
           | None => s
           end in
  let s := match saved_connectedSites result with
           | Some sites => set_connectedSites sites s
           | None => s
           end in
  let s := match saved_customChains result with
           | Some chains => set_customChains chains s
           | None => s
           end in
  match account result with
  | Some (Parsed (VStr address)) => Some (set_isUnlocked true (set_accounts [address] s))
  | Some (Parsed _) => None
  | Some Unparsable => Some s
  | None => Some s
  end.

End Startup.

(** ** Requests that the relay forwards as they are *)

Module Forward.

Import Relay.



End Forward.

(** ** More vocabulary for the properties below *)

Module Journey.

Import Broker.

(** The message types that a listener of the broker has a branch for. *)
Definition known_types : list string :=
  [ "LOGOUT"; "CHAIN_CHANGED"; "APPROVE_CONNECT"; "APPROVE_TRANSACTION";
    "CONNECT_REQUEST"; "GET_ACCOUNTS_REQUEST"; "GET_CHAINID_REQUEST";
    "SEND_TRANSACTION_REQUEST"; "SIGN_TRANSACTION_REQUEST"; "GET_BALANCE_REQUEST";
    "PERSONAL_SIGN_REQUEST"; "ETH_SIGN_REQUEST"; "TYPED_SIGN_REQUEST";
    "WATCH_ASSET_REQUEST"; "ADD_CHAIN_REQUEST"; "SWITCH_CHAIN_REQUEST";
    "EXECUTE_TRANSACTION"; "EXECUTE_SIGNING";
    "APPROVE_SWITCH_CHAIN"; "APPROVE_ADD_CHAIN"; "APPROVE_SIGN" ].

(** The responses that settle a pending request of the relay. *)
Definition settles (type : string) : bool :=
  String.eqb type "SEND_TRANSACTION_RESPONSE"
  || String.eqb type "PERSONAL_SIGN_RESPONSE"
  || String.eqb type "ETH_SIGN_RESPONSE"
  || String.eqb type "TYPED_SIGN_RESPONSE"
  || String.eqb type "SWITCH_CHAIN_RESPONSE"
  || String.eqb type "ADD_CHAIN_RESPONSE".

(** What the relay posts to its page among what it does. *)
Definition to_page (out : list Relay.Obs) : list (Response string) :=
  omap (λ o, match o with Relay.ToPage r => Some r | _ => None end) out.

(** [transaction.to || transaction.data] *)
Definition has_to_or_data (transaction : Transaction) : bool :=
  truthy (tx_to transaction) || truthy (tx_data transaction).

(** Every change of the state has been written to the storage. *)
Definition persisted (w : World) : Prop :=
  saved_state (storage w) =
    Some (isUnlocked (state w), accounts (state w), selectedChainId (state w)) ∧
  saved_connectedSites (storage w) = Some (connectedSites (state w)) ∧
  saved_customChains (storage w) = Some (customChains (state w)).

(** The state with the stored account put in, as the start of the
    broker does. *)
Definition with_stored_account (st : Storage) (s : State) : option State :=
  match account st with
  | Some (Parsed (VStr address)) => Some (set_isUnlocked true (set_accounts [address] s))
  | Some (Parsed _) => None
  | _ => Some s
  end.





End Journey.

(** ** Further runs *)

Module Cases.

Import Scenario.

(** An empty cache, one second after the clock started. *)
Definition empty_cache : RpcCache.Cache string := RpcCache.mkCache ∅ 1000.

(** A page request with the id ["7"], and two answers to it. *)
Definition chain_gone : Response unit :=
  mkResponse "7" (Some (ErrObj 4901 "Chain disconnected")) None VUndefined false false None.
Definition done : Response unit := ok "7".

(** Messages of the broker to a tab. *)
Definition disconnect : TabMessage :=
  mkTabMessage "DISCONNECT" IdUndefined false None VUndefined VUndefined None ""
               PUndefined None.

(** The broker of the scenario once everything has been saved. *)
Definition saved_world : Broker.World :=
  Broker.mkWorld wallet_state
    (Broker.mkStorage (Some (Broker.Parsed (VStr alice))) None None None None None
       (Some (true, [alice], VStr "0x89"))
       (Some (Broker.connectedSites wallet_state))
       (Some ∅))
    open_tabs 1700000000000 false.

Definition first_tx : Data :=
  mkData (IdNum 1) (VStr dapp) VUndefined None (Some tx) VUndefined VUndefined.
Definition second_tx : Data :=
  mkData (IdNum 2) (VStr dapp) VUndefined None (Some tx) VUndefined VUndefined.

Definition tx_pending : Broker.PendingRequest :=
  Broker.mkPending (IdNum 1) "transaction" (VStr dapp) 1700000000000 (VStr "0x89") None
                   (Some tx) VUndefined VUndefined.
Definition tx_approval : Message := decision "APPROVE_TRANSACTION" (IdNum 1) true.

Definition switch_pending : Broker.PendingRequest :=
  Broker.mkPending (IdNum 3) "switchChain" (VStr dapp) 1700000000000 (VStr "0x1") None
                   None VUndefined VUndefined.

(** A chain that [dapp] asks to add, and the approval of the user. *)
Definition gnosis : ChainData :=
  mkChainData (VStr "0x64") (VStr "Gnosis") (Some ["https://rpc.gnosischain.com"]).
Definition add_request : Message :=
  request "ADD_CHAIN_REQUEST"
    (mkData (IdNum 4) (VStr dapp) VUndefined (Some gnosis) None VUndefined VUndefined).
Definition add_broker_waits := Broker.deliver add_request world.
Definition add_pending : Broker.PendingRequest :=
  Broker.mkPending (IdNum 4) "addChain" (VStr dapp) 1700000000000 VUndefined (Some gnosis)
                   None VUndefined VUndefined.
Definition add_approval : Message :=
  mkMessage "APPROVE_ADD_CHAIN" "" (IdNum 4) true None VUndefined VUndefined true
            VUndefined VUndefined None.

(** The approval of a connection as the popup may send it, with the
    accounts that the user chose. *)
Definition connect_pending : Broker.PendingRequest :=
  Broker.mkPending (IdNum 7) "connect" (VStr fresh) 1700000000000 VUndefined None None
                   VUndefined VUndefined.
Definition connect_with_accounts : Message :=
  mkMessage "APPROVE_CONNECT" "" (IdNum 7) true (Some [alice]) VUndefined VUndefined false
            VUndefined VUndefined None.

End Cases.

(** * Properties of the page provider *)

Section PageProvider.

Import Provider Observe.
Context `{Platform}.

(** A loop over listeners whose exceptions are caught visits all of
    them. *)
Lemma forEach_caught (eventName : string) (arg : Payload) (ls : list Listener) (w : Wallet) :
  forEach ls (λ listener, try_catch (call listener eventName arg) (λ error, mret tt)) w
  = (w, map (λ l, Called (lid l) eventName arg) ls, Normal tt).
Proof.
  induction ls as [|l ls IH]; [reflexivity|].
  cbn [forEach]. unfold mbind, M_bind, bind.
  unfold try_catch at 1, call at 1.
  unfold mbind, M_bind, bind, tell.
  destruct (lthrows l eventName arg); cbn; rewrite IH; reflexivity.
Qed.

Lemma emit_run (eventName : string) (arg : Payload) (w : Wallet) :
  emit eventName arg w = (w, calls w eventName arg, Normal tt).
Proof.
  unfold emit, calls, listeners, mbind, M_bind, bind, gets.
  destruct (_events w !! eventName) as [ls|]; cbn.
  - rewrite forEach_caught. reflexivity.
  - reflexivity.
Qed.


Lemma emit_without_listeners (w : Wallet) (eventName : string) (arg : Payload) :
  listeners w eventName = [] → emit eventName arg w = (w, [], Normal tt).
Proof. intros Hnone. rewrite emit_run. unfold calls. rewrite Hnone. reflexivity. Qed.



(** *** Connect *)


(** A [connect()] whose answer carries no account emits nothing. *)
Lemma connect_without_accounts_is_silent {A} (w : Wallet) (response : Response A) :
  cr_accounts response = None ∨ cr_accounts response = Some [] →
  connect_resume (Resolved response) w = (w, [], Normal (accounts w)).
Proof.
  intros [Hacc|Hacc]; unfold connect_resume, try_catch, await;
    unfold mbind, M_bind, bind, Js.ret; rewrite Hacc; reflexivity.
Qed.

(** *** The guard of chain operations *)

Lemma switchChain_start_busy (c : jsval) (w : Wallet) :
  _chainSwitchInProgress w = true →
  switchChain_start c w =
  (set_chainSwitchInProgress false w, [],
   Throw (_createRPCError RESOURCE_UNAVAILABLE "Chain switch already in progress")).
Proof.
  intros Hbusy. unfold switchChain_start, try_catch, mbind, M_bind, bind, gets.
  rewrite Hbusy. reflexivity.
Qed.

Lemma switchChain_start_idle (c : jsval) (w : Wallet) :
  _chainSwitchInProgress w = false →
  switchChain_start c w =
  (set_chainSwitchInProgress true w,
   [Posted "wallet_switchEthereumChain" (ChainParams c)], Normal tt).
Proof.
  intros Hidle. unfold switchChain_start, try_catch, mbind, M_bind, bind, gets.
  rewrite Hidle. reflexivity.
Qed.

Lemma addChain_start_busy (chainData : ChainData) (w : Wallet) :
  _chainSwitchInProgress w = true →
  addChain_start chainData w =
  (set_chainSwitchInProgress false w, [],
   Throw (_createRPCError RESOURCE_UNAVAILABLE "Chain operation already in progress")).
Proof.
  intros Hbusy. unfold addChain_start, try_catch, mbind, M_bind, bind, gets.
  rewrite Hbusy. reflexivity.
Qed.


(** A call made while the flag is set is refused at once and posts
    nothing, but it clears the flag on its way out: the call after it is
    let through although the first operation has not finished. *)
Lemma refused_call_opens_the_guard (c c' : jsval) (w : Wallet) :
  _chainSwitchInProgress w = true →
  ∃ w', switchChain_start c w =
          (w', [], Throw (_createRPCError RESOURCE_UNAVAILABLE
                            "Chain switch already in progress")) ∧
        switchChain_start c' w' =
          (set_chainSwitchInProgress true w',
           [Posted "wallet_switchEthereumChain" (ChainParams c')], Normal tt).
Proof.
  intros Hbusy. eexists. split.
  - apply switchChain_start_busy, Hbusy.
  - apply switchChain_start_idle. reflexivity.
Qed.

End PageProvider.

Section ChainSwitch.

Import Provider Observe.
Context `{Platform}.

Lemma jsval_eqb_refl (v : jsval) : jsval_eqb v v = true.
Proof. destruct v; cbn; auto. apply String.eqb_refl. Qed.

Lemma jsval_eqb_eq (u v : jsval) : jsval_eqb u v = true ↔ u = v.
Proof.
  split; [|intros ->; apply jsval_eqb_refl].
  destruct u, v; cbn; try discriminate; auto.
  intros Heq. apply String.eqb_eq in Heq. congruence.
Qed.

(** A chain switch that succeeds emits the three events when the chain
    id changes and nothing when it does not. *)
Lemma switchChain_resume_run {A} (c : jsval) (r : Response A) (w : Wallet) :
  cr_success r = true →
  switchChain_resume c (Resolved r) w = (switched_to c w, switch_events w c, Normal tt).
Proof.
  intros Hok. unfold switchChain_resume, try_catch, await, when, switch_events.
  unfold mbind, M_bind, bind, Js.ret, gets, modify. rewrite Hok.
  cbn -[emit]. destruct (jsval_eqb (chainId w) c); cbn -[emit].
  - reflexivity.
  - rewrite !emit_run. cbn. unfold calls, listeners; cbn. rewrite !app_nil_r.
    rewrite <- ?app_assoc. reflexivity.
Qed.

(** An answer without [success] changes nothing but the flag. *)
Lemma switchChain_resume_unconfirmed {A} (c : jsval) (r : Response A) (w : Wallet) :
  cr_success r = false →
  switchChain_resume c (Resolved r) w = (set_chainSwitchInProgress false w, [], Normal tt).
Proof.
  intros Hno. unfold switchChain_resume, try_catch, await, when.
  unfold mbind, M_bind, bind, Js.ret, gets, modify. rewrite Hno. reflexivity.
Qed.

(** A rejected request is passed on to the caller as it is. *)
Lemma switchChain_resume_rejected {A} (c : jsval) (e : JsError) (w : Wallet) :
  switchChain_resume (R:=A) c (Rejected e) w = (set_chainSwitchInProgress false w, [], Throw e).
Proof. reflexivity. Qed.

(** What the first of two overlapping calls does when its answer arrives
    does not depend on the flag: the refused second call leaves it
    unaffected. *)
Lemma switchChain_resume_ignores_flag {A} (c : jsval) (p : Settled (Response A))
    (b : bool) (w : Wallet) :
  switchChain_resume c p (set_chainSwitchInProgress b w) = switchChain_resume c p w.
Proof.
  destruct p as [r|e]; [|reflexivity].
  destruct (cr_success r) eqn:Hok.
  - rewrite !(switchChain_resume_run _ _ _ Hok). reflexivity.
  - rewrite !(switchChain_resume_unconfirmed _ _ _ Hok). reflexivity.
Qed.



End ChainSwitch.

(** ** The page provider on concrete pages *)

Section PageScenarios.

Import Provider Observe Scenario RefPlatform.

Example page_listens_to_connect : listeners page "connect" = [quiet].
Proof. vm_compute. reflexivity. Qed.

Example polygon_network_version : parseInt16_toString (VStr "0x89") = "137".
Proof. vm_compute. reflexivity. Qed.

Example a_faulty_listener_does_not_stop_emit :
  (emit "chainChanged" (PChainId (VStr "0x1"))
        ((on "chainChanged" faulty;; on "chainChanged" quiet) fresh_wallet).1.1).1.2
  = [Called 1 "chainChanged" (PChainId (VStr "0x1"));
     Called 0 "chainChanged" (PChainId (VStr "0x1"))].
Proof. vm_compute. reflexivity. Qed.





(** C7, at the failing input.  [switchChain("0x1")] is called three times
    before the first request is answered.  The first call posts its
    request; the second is refused with the resource-unavailable error
    and posts nothing; the third is let through and posts a second
    request while the first is still in flight. *)
Theorem third_chain_switch_call_is_let_through :
  let first := switchChain_start (VStr "0x1") page_on_polygon in
  let second := switchChain_start (VStr "0x1") first.1.1 in
  let third := switchChain_start (VStr "0x1") second.1.1 in
  (first.2 = Normal tt ∧
   posted first.1.2 = [("wallet_switchEthereumChain", ChainParams (VStr "0x1"))]) ∧
  (second.2 = Throw (_createRPCError (-32002) "Chain switch already in progress") ∧
   posted second.1.2 = [] ∧
   _chainSwitchInProgress second.1.1 = false) ∧
  (third.2 = Normal tt ∧
   posted third.1.2 = [("wallet_switchEthereumChain", ChainParams (VStr "0x1"))]).
Proof. cbv zeta. repeat split; vm_compute; reflexivity. Qed.

End PageScenarios.

(** * Properties of the approval broker *)

Section ApprovalBroker.

Import Broker Protocol.

(** Split on the type of a message, one string comparison at a time. *)
Ltac case_type m :=
  repeat match goal with
  | H : context [String.eqb (m_type m) ?lit] |- _ =>
      let E := fresh "E" in
      destruct (String.eqb (m_type m) lit) eqn:E;
      [apply String.eqb_eq in E | clear E]
  end.

(** Evaluate the listeners on a message whose type is known by [E]. *)
Ltac dispatch E :=
  unfold deliver, onMessage, onMessage2; rewrite E;
  cbn [String.eqb Ascii.eqb Bool.eqb orb];
  unfold call; cbn [resolve declared String.eqb Ascii.eqb Bool.eqb];
  cbv beta iota delta [mret M_ret Js.ret mbind M_bind bind].

(** *** Loops over the open tabs *)

Lemma forEach_tells {A} (g : A → list Effect) (f : A → B unit) (l : list A) (w : World) :
  (∀ x v, f x v = (v, g x, Normal tt)) →
  forEach l f w = (w, concat (map g l), Normal tt).
Proof.
  intros Hf. induction l as [|x l IH]; [reflexivity|].
  cbn [forEach map concat]. cbv beta iota delta [mbind M_bind bind].
  rewrite Hf, IH. reflexivity.
Qed.

Lemma to_matching_tabs_run (origin : jsval) (g : Tab → list Effect) (send : Tab → B unit)
    (w : World) :
  (∀ tab v, send tab v = (v, g tab, Normal tt)) →
  to_matching_tabs origin send w =
  (w, concat (map (λ tab, if tab_matches origin tab then g tab else []) (tabs w)), Normal tt).
Proof.
  intros Hsend. unfold to_matching_tabs, callback, try_catch.
  cbv beta iota delta [mbind M_bind bind gets].
  rewrite (forEach_tells (λ tab, if tab_matches origin tab then g tab else [])).
  - reflexivity.
  - intros tab v. unfold when. destruct (tab_matches origin tab); [apply Hsend|reflexivity].
Qed.

Lemma forEach_quiet {A} (f : A → B unit) (l : list A) (w : World) :
  (∀ x v, ∃ e, f x v = (v, e, Normal tt)) →
  ∃ e, forEach l f w = (w, e, Normal tt).
Proof.
  intros Hf. induction l as [|x l [e IH]]; [eexists; reflexivity|].
  destruct (Hf x w) as [e0 He0].
  cbn [forEach]. cbv beta iota delta [mbind M_bind bind].
  rewrite He0, IH. eexists; reflexivity.
Qed.

Lemma to_matching_tabs_quiet (origin : jsval) (send : Tab → B unit) (w : World) :
  (∀ tab v, ∃ e, send tab v = (v, e, Normal tt)) →
  ∃ e, to_matching_tabs origin send w = (w, e, Normal tt).
Proof.
  intros Hsend. unfold to_matching_tabs, callback, try_catch.
  cbv beta iota delta [mbind M_bind bind gets].
  destruct (forEach_quiet (λ tab, when (tab_matches origin tab) (send tab)) (tabs w) w)
    as [e He].
  - intros tab v. unfold when. destruct (tab_matches origin tab); [apply Hsend|].
    eexists; reflexivity.
  - rewrite He. eexists; reflexivity.
Qed.

(** Replace every loop over the tabs by its effects. *)
Ltac quiet_tabs :=
  repeat match goal with
  | |- context [to_matching_tabs ?o ?s ?v] =>
      let e := fresh "e" in
      let He := fresh "He" in
      destruct (to_matching_tabs_quiet o s v) as [e He];
      [ intros ? ?; unfold when, tabs_sendMessage;
        repeat match goal with |- context [if ?c then _ else _] => destruct c end;
        eexists; reflexivity
      | rewrite He; clear He ]
  end.

(** An event for [origin] is sent to the tabs whose address contains
    [origin] as a substring, to all of them and to no other tab. *)
Lemma notifyConnectedSite_run (origin : jsval) (eventName : string) (data : Payload)
    (w : World) :
  notifyConnectedSite origin eventName data w =
  (w,
   map (λ tab, TabSend (tab_id tab) (wallet_event eventName data))
       (List.filter (tab_matches origin) (tabs w)),
   Normal tt).
Proof.
  unfold notifyConnectedSite.
  erewrite to_matching_tabs_run by (intros; reflexivity).
  f_equal. f_equal.
  induction (tabs w) as [|tab l IH]; [reflexivity|].
  cbn. destruct (tab_matches origin tab); cbn; rewrite IH; reflexivity.
Qed.

(** The relay forwards every [WALLET_EVENT] to its page, whatever the
    origin of the page and whatever its session. *)
Lemma relay_forwards_every_event (eventName : string) (data : Payload) (r : Relay.Relay) :
  Relay.onMessage (wallet_event eventName data) r =
  (r, [Relay.ToPageEvent eventName data; Relay.Acked], Normal true).
Proof. reflexivity. Qed.

(** *** Requests from a site without a session *)



(** *** Decisions of the popup *)

Lemma no_match_connect (w : World) (message : Message) :
  holds (pendingConnectRequest (storage w)) (m_requestId message) = false →
  handleConnectResponse (only_decision message) w = (w, [], Normal tt).
Proof.
  unfold handleConnectResponse, holds, callback, try_catch.
  cbv beta iota delta [mbind M_bind bind gets]. cbn [only_decision m_requestId].
  destruct (pendingConnectRequest (storage w)) as [p|]; [|reflexivity].
  intros ->. reflexivity.
Qed.

Lemma no_match_transaction (w : World) (message : Message) :
  holds (pendingTransactionRequest (storage w)) (m_requestId message) = false →
  handleTransactionResponse (only_decision message) w = (w, [], Normal tt).
Proof.
  unfold handleTransactionResponse, holds, callback, try_catch.
  cbv beta iota delta [mbind M_bind bind gets]. cbn [only_decision m_requestId].
  destruct (pendingTransactionRequest (storage w)) as [p|]; [|reflexivity].
  intros ->. reflexivity.
Qed.

Lemma no_match_chain (w : World) (message : Message) :
  holds (pendingChainRequest (storage w)) (m_requestId message) = false →
  handleSwitchChainResponse message w = (w, [], Normal tt).
Proof.
  unfold handleSwitchChainResponse, holds, callback, try_catch.
  cbv beta iota delta [mbind M_bind bind gets]. cbn [only_decision m_requestId].
  destruct (pendingChainRequest (storage w)) as [p|]; [|reflexivity].
  intros ->. reflexivity.
Qed.

Lemma no_match_add_chain (w : World) (message : Message) :
  holds (pendingAddChainRequest (storage w)) (m_requestId message) = false →
  handleAddChainResponse message w = (w, [], Normal tt).
Proof.
  unfold handleAddChainResponse, holds, callback, try_catch.
  cbv beta iota delta [mbind M_bind bind gets]. cbn [only_decision m_requestId].
  destruct (pendingAddChainRequest (storage w)) as [p|]; [|reflexivity].
  intros ->. reflexivity.
Qed.

Lemma no_match_sign (w : World) (message : Message) :
  holds (pendingSignRequest (storage w)) (m_requestId message) = false →
  handleSignResponse message w = (w, [], Normal tt).
Proof.
  unfold handleSignResponse, holds, callback, try_catch.
  cbv beta iota delta [mbind M_bind bind gets]. cbn [only_decision m_requestId].
  destruct (pendingSignRequest (storage w)) as [p|]; [|reflexivity].
  intros ->. reflexivity.
Qed.

Lemma unmatched_decision (w : World) (message : Message) (slot : option PendingRequest) :
  slot_read_by (m_type message) (storage w) = Some slot →
  holds slot (m_requestId message) = false →
  deliver message w = (w, [SendResponse success_response], (Normal false, Normal false)).
Proof.
  unfold slot_read_by. intros Hslot Hno.
  case_type message; try discriminate; injection Hslot as <-; dispatch E.
  - rewrite (no_match_connect _ _ Hno). reflexivity.
  - rewrite (no_match_transaction _ _ Hno). reflexivity.
  - rewrite (no_match_chain _ _ Hno). reflexivity.
  - rewrite (no_match_add_chain _ _ Hno). reflexivity.
  - rewrite (no_match_sign _ _ Hno). reflexivity.
Qed.

(** Once a decision on a chain switch has been handled, no request with
    its id is left in the slot. *)
Lemma switch_chain_decision_settles
    (w w1 : World) (message : Message) (e1 : list Effect) (r1 : Completion unit) :
  handleSwitchChainResponse message w = (w1, e1, r1) →
  holds (pendingChainRequest (storage w1)) (m_requestId message) = false.
Proof.
  unfold handleSwitchChainResponse, callback, try_catch.
  cbv beta iota delta [mbind M_bind bind gets].
  destruct (pendingChainRequest (storage w)) as [p|] eqn:Hp.
  2:{ cbv beta iota delta [mret M_ret Js.ret].
      intros [= <- <- <-]. rewrite Hp. reflexivity. }
  destruct (JsId_eqb (id p) (m_requestId message)) eqn:Hid; cbn [negb].
  2:{ cbv beta iota delta [mret M_ret Js.ret].
      intros [= <- <- <-]. rewrite Hp. cbn. exact Hid. }
  destruct (m_approved message).
  - unfold update_state, saveState, saveConnectedSites, update_storage.
    cbv beta iota delta [mbind M_bind bind gets modify].
    cbn [state storage set_state set_storage].
    destruct (site _ _) as [c|].
    + cbv beta iota delta [mbind M_bind bind gets modify].
      erewrite to_matching_tabs_run by (intros; reflexivity).
      cbn. intros [= <- <- <-]. reflexivity.
    + cbv beta iota delta [mret M_ret Js.ret].
      erewrite to_matching_tabs_run by (intros; reflexivity).
      cbn. intros [= <- <- <-]. reflexivity.
  - erewrite to_matching_tabs_run by (intros; reflexivity).
    unfold update_storage. cbv beta iota delta [mbind M_bind bind gets modify].
    cbn. intros [= <- <- <-]. reflexivity.
Qed.

(** C8.  A decision message whose request id matches no pending request
    in the slot that its handler reads, because the request has been
    settled or never existed, changes neither the state nor the storage,
    sends nothing to any tab, opens nothing, and is acknowledged to the
    popup with [{ success: true }].  In particular, when the decision on a
    chain switch is delivered a second time, the second delivery does
    nothing: the switch is applied and its [chainChanged] sent by the first
    delivery only. *)
Theorem decision_without_pending_request_is_noop
    (w : World) (message : Message) (slot : option PendingRequest) :
  slot_read_by (m_type message) (storage w) = Some slot →
  (holds slot (m_requestId message) = false →
   deliver message w = (w, [SendResponse success_response], (Normal false, Normal false)))
  ∧ (m_type message = "APPROVE_SWITCH_CHAIN" →
     ∀ w1 e1 r1, deliver message w = (w1, e1, r1) →
       deliver message w1 =
       (w1, [SendResponse success_response], (Normal false, Normal false))).
Proof.
  intros Hslot. split.
  - intros Hno. exact (unmatched_decision w message slot Hslot Hno).
  - intros Htype w1 e1 r1 Hfirst.
    apply (unmatched_decision w1 message (pendingChainRequest (storage w1))).
    + unfold slot_read_by. rewrite Htype. reflexivity.
    + revert Hfirst. dispatch Htype.
      destruct (handleSwitchChainResponse message w) as [[w' e'] r'] eqn:Hrun.
      pose proof (switch_chain_decision_settles _ _ _ _ _ Hrun) as Hsettled.
      destruct r'; cbn; intros [= <- <- <-]; exact Hsettled.
Qed.

(** The popup of this repository reports a decision on a connection as
    [CONNECT_RESPONSE] and the rejection of a transaction as
    [REJECT_TRANSACTION]; no listener of the broker knows these types. *)
Lemma unknown_decision_is_ignored (w : World) (message : Message) :
  m_type message = "CONNECT_RESPONSE" ∨ m_type message = "REJECT_TRANSACTION" →
  deliver message w = (w, [], (Normal false, Normal false)).
Proof.
  intros [E|E]; unfold deliver, onMessage, onMessage2; rewrite E; reflexivity.
Qed.

(** Finish the evaluation of a handler on a rejection. *)
Ltac run_rejection :=
  cbv beta iota delta [mret M_ret Js.ret mbind M_bind bind gets modify update_storage];
  repeat (erewrite to_matching_tabs_run by (intros; reflexivity));
  cbv beta iota delta [mret M_ret Js.ret mbind M_bind bind gets modify throw];
  try reflexivity.

(** X29.  A rejection changes nothing of the wallet state: accounts, selected
    chain, connected sites and custom chains stay as they are, in memory
    and in the saved copies. *)
Lemma rejected_decision_keeps_wallet_state
    (w : World) (message : Message) (slot : option PendingRequest) :
  slot_read_by (m_type message) (storage w) = Some slot →
  m_approved message = false →
  wallet_state_of (deliver message w).1.1 = wallet_state_of w.
Proof.
  unfold slot_read_by. intros Hslot Hrejected.
  case_type message; try discriminate; clear Hslot; dispatch E.
  - unfold handleConnectResponse, only_decision, callback, try_catch.
    cbn [m_requestId m_approved m_accounts]. rewrite Hrejected.
    cbv beta iota delta [mbind M_bind bind gets mret M_ret Js.ret].
    destruct (pendingConnectRequest (storage w)) as [p|]; [|reflexivity].
    destruct (negb (JsId_eqb (id p) (m_requestId message))); [reflexivity|].
    run_rejection.
  - unfold handleTransactionResponse, only_decision, callback, try_catch.
    cbn [m_requestId m_approved m_txHash]. rewrite Hrejected.
    cbv beta iota delta [mbind M_bind bind gets mret M_ret Js.ret].
    destruct (pendingTransactionRequest (storage w)) as [p|]; [|reflexivity].
    destruct (negb (JsId_eqb (id p) (m_requestId message))); [reflexivity|].
    run_rejection.
  - unfold handleSwitchChainResponse, callback, try_catch. rewrite Hrejected.
    cbv beta iota delta [mbind M_bind bind gets mret M_ret Js.ret].
    destruct (pendingChainRequest (storage w)) as [p|]; [|reflexivity].
    destruct (negb (JsId_eqb (id p) (m_requestId message))); [reflexivity|].
    run_rejection.
  - unfold handleAddChainResponse, callback, try_catch. rewrite Hrejected.
    cbv beta iota delta [mbind M_bind bind gets mret M_ret Js.ret].
    destruct (pendingAddChainRequest (storage w)) as [p|]; [|reflexivity].
    destruct (negb (JsId_eqb (id p) (m_requestId message))); [reflexivity|].
    destruct (chainData p); run_rejection.
  - unfold handleSignResponse, callback, try_catch. rewrite Hrejected.
    cbv beta iota delta [mbind M_bind bind gets mret M_ret Js.ret].
    destruct (pendingSignRequest (storage w)) as [p|]; [|reflexivity].
    destruct (negb (JsId_eqb (id p) (m_requestId message))); [reflexivity|].
    run_rejection.
Qed.

Lemma sent_app (a b : list Effect) : sent (a ++ b) = sent a ++ sent b.
Proof. unfold sent. apply omap_app. Qed.

Lemma sent_to_tabs (m : TabMessage) (c : Tab → bool) (l : list Tab) :
  sent (concat (map (λ tab, if c tab then [TabSend (tab_id tab) m] else []) l)) =
  map (λ tab, (tab_id tab, m)) (List.filter c l).
Proof.
  induction l as [|tab l IH]; [reflexivity|].
  cbn [map concat List.filter]. rewrite sent_app, IH.
  destruct (c tab); reflexivity.
Qed.

(** What a rejection sends: to every tab that matches the origin of the
    request, one response with [approved: false] and the error
    [{ code: 4001, message: "User rejected the request." }]. *)
Lemma rejected_transaction_is_broadcast
    (w : World) (message : Message) (p : PendingRequest) :
  m_type message = "APPROVE_TRANSACTION" →
  m_approved message = false →
  pendingTransactionRequest (storage w) = Some p →
  JsId_eqb (id p) (m_requestId message) = true →
  sent (deliver message w).1.2 =
  map (λ tab, (tab_id tab,
               with_error user_rejected
                 (tab_message "SEND_TRANSACTION_RESPONSE" (m_requestId message) false)))
      (List.filter (tab_matches (origin p)) (tabs w)).
Proof.
  intros E Hrejected Hp Hid. dispatch E.
  unfold handleTransactionResponse, only_decision, callback, try_catch.
  cbn [m_requestId m_approved m_txHash].
  rewrite Hrejected. cbv beta iota delta [mbind M_bind bind gets].
  rewrite Hp, Hid. cbn [negb].
  erewrite to_matching_tabs_run by (intros; reflexivity).
  cbv beta iota delta [mret M_ret Js.ret mbind M_bind bind gets modify update_storage
                       sendResponse tell].
  cbn [fst snd]. rewrite !sent_app, sent_to_tabs. cbn. rewrite !app_nil_r. reflexivity.
Qed.

(** The relay does not recognise the rejection it is sent: the code it
    reports to the page is -32603, for the error object of a transaction
    or signature as for the one of a chain request. *)
Lemma relay_reports_user_rejection_as_internal_error (id : string) :
  cr_error (Relay.respond (A:=string) id (Rejected (thrown_payload user_rejected)))
    = Some (ErrObj (-32603) "User rejected the request.") ∧
  cr_error (Relay.respond (A:=string) id (Rejected (new_Error (String_of user_rejected))))
    = Some (ErrObj (-32603) "[object Object]").
Proof. split; reflexivity. Qed.

(** X30.  An approved connection with a non-empty account list records a
    session for the origin of the request: connected, with exactly these
    accounts. *)
Lemma approved_connect_records_session
    (w : World) (message : Message) (p : PendingRequest) (first : string) (rest : list string) :
  pendingConnectRequest (storage w) = Some p →
  JsId_eqb (id p) (m_requestId message) = true →
  m_approved message = true →
  m_accounts message = Some (first :: rest) →
  site (state (handleConnectResponse message w).1.1) (origin p) =
    Some (mkSite (origin p) (first :: rest) (selected_or_default (state w)) true (now w)
                 ["eth_accounts"] (now w)).
Proof.
  intros Hp Hid Hok Hacc. unfold handleConnectResponse, callback, try_catch.
  cbv beta iota delta [mbind M_bind bind gets]. rewrite Hp, Hid, Hok, Hacc.
  cbn [negb].
  cbv beta iota delta [mret M_ret Js.ret mbind M_bind bind gets modify update_storage
                       update_state saveState saveConnectedSites when].
  cbn [length Nat.eqb negb].
  cbv beta iota delta [mret M_ret Js.ret mbind M_bind bind gets modify update_storage
                       update_state saveState saveConnectedSites].
  quiet_tabs.
  cbv beta iota delta [mret M_ret Js.ret mbind M_bind bind gets modify update_storage].
  cbn. unfold site. cbn. apply lookup_insert_eq.
Qed.

(** [handleWeb3Request] answers [eth_accounts] with the accounts of the
    session of the asking origin. *)
Lemma web3_eth_accounts_reads_session
    (w : World) (message : Message) (c : ConnectedSite) :
  m_method message = "eth_accounts" →
  site (state w) (m_origin message) = Some c →
  cs_connected c = true →
  handleWeb3Request message w =
  (w, [SendResponse (mkBrokerResponse false false None None VUndefined VUndefined
                       (Some (cs_accounts c)))], Normal tt).
Proof.
  intros Hmethod Hsite Hconnected. unfold handleWeb3Request. rewrite Hmethod.
  cbn [String.eqb Ascii.eqb Bool.eqb].
  cbv beta iota delta [mbind M_bind bind gets sendResponse tell].
  rewrite Hsite, Hconnected. reflexivity.
Qed.

(** *** Requests whose handler does not exist *)


End ApprovalBroker.

(** ** The three contexts on concrete runs *)

Section Runs.

Import Broker Protocol Observe Scenario.

Example includes_is_a_substring_test :
  includes "abc" "bc" = true ∧ includes "abc" "" = true ∧
  includes "abc" "ac" = false ∧ includes "" "a" = false.
Proof. repeat split; vm_compute; reflexivity. Qed.

Example origin_of_an_address :
  location_origin "https://dapp.example/app?x=1#top" = dapp ∧
  location_origin "https://dapp.example" = dapp.
Proof. split; vm_compute; reflexivity. Qed.

Example the_address_of_the_evil_tab_contains_dapp : includes evil_url dapp = true.
Proof. vm_compute. reflexivity. Qed.

Example rejection_text_is_not_recognised :
  includes "User rejected the request." "user rejected" = false.
Proof. vm_compute. reflexivity. Qed.

(** C1, at the failing input.  The user logs out while [dapp] is
    connected.  The tab on [evil], whose origin is not [dapp] and whose
    session is not connected, is sent the [accountsChanged] and
    [disconnect] events decided for [dapp], because its address contains
    the origin of [dapp]; its relay forwards them and the listener of its
    page is called. *)
Theorem logout_of_dapp_is_observed_by_page_of_evil :
  In (mkTab 2 (VStr evil_url) true) (tabs world) ∧
  location_origin evil_url = evil ∧
  evil ≠ dapp ∧
  not_connected (state world) (VStr evil) = true ∧
  sent (deliver (plain "LOGOUT") world).1.2 =
    [ (1, wallet_event "accountsChanged" (PAccounts []));
      (2, wallet_event "accountsChanged" (PAccounts []));
      (1, wallet_event "disconnect" (PError (Some 1000%Z) "User logged out of wallet"));
      (2, wallet_event "disconnect" (PError (Some 1000%Z) "User logged out of wallet")) ] ∧
  page_sees (wallet_event "accountsChanged" (PAccounts [])) (relay_at evil_url) page =
    [Provider.Called 0 "accountsChanged" (PAccounts [])].
Proof.
  split; [right; left; reflexivity|].
  split; [vm_compute; reflexivity|].
  split; [discriminate|].
  repeat split; vm_compute; reflexivity.
Qed.

(** C2, at the failing input.  A site without a session asks for a chain
    switch: the broker answers with the bare string ["Site not connected"],
    an error without a code.  It asks for an [eth_sign]: the broker throws
    and answers nothing.  In both cases nothing is stored and no popup is
    opened. *)
Theorem switch_request_without_session_is_refused_without_code :
  site (state world) (VStr fresh) = None ∧
  deliver stranger_switch world =
    (world, [SendResponse (error_response (ErrStr "Site not connected"))],
     (Normal true, Normal false)) ∧
  error_code (error_response (ErrStr "Site not connected")) = None ∧
  deliver stranger_eth_sign world =
    (world, [], (Throw (ReferenceError "handleEthSignRequest"), Normal false)).
Proof. repeat split; vm_compute; reflexivity. Qed.

(** C3, at the failing input.  The user rejects a transaction.  The
    wallet state is unchanged and the tab of [dapp] is sent the error
    [{ code: 4001, message: "User rejected the request." }]; the relay
    answers the page with the code -32603, and the promise of
    [eth_sendTransaction] rejects with -32603. *)
Theorem rejected_transaction_reaches_page_with_code_32603 :
  tx_relay_asks.1.2 = [Relay.ToBackground tx_request] ∧
  holds (pendingTransactionRequest (storage tx_broker_waits.1.1)) (IdNum 1) = true ∧
  Relay.pendingRequestsMap tx_relay_waits.1.1 !! IdNum 1 = Some "page-1" ∧
  wallet_state_of tx_broker_settles.1.1 = wallet_state_of tx_broker_waits.1.1 ∧
  In (1, tx_rejected) (sent tx_broker_settles.1.2) ∧
  t_error tx_rejected = Some (ErrObj 4001 "User rejected the request.") ∧
  tx_relay_settles.1.2 = [Relay.ToPage tx_page_response; Relay.Acked] ∧
  cr_error tx_page_response = Some (ErrObj (-32603) "User rejected the request.") ∧
  tx_page_settles.2 =
    Normal (Some (Rejected
      (Provider._createRPCError (-32603) "User rejected the request."))) ∧
  tx_page_promise.2 =
    Throw (Provider._createRPCError (-32603) "User rejected the request.").
Proof.
  repeat split; try (vm_compute; reflexivity).
  vm_compute. left. reflexivity.
Qed.

(** C4, at the failing input.  The user approves the connection of
    [fresh]: its session is connected, with the account of the wallet.
    The page then asks for [eth_accounts]: the broker throws on the
    request, the relay falls back to the empty list, and the page is told
    that it has no account.  [handleWeb3Request] would have answered with
    the account, but no listener calls it. *)
Theorem eth_accounts_after_approved_connect_returns_nothing :
  site (state connected_world) (VStr fresh) =
    Some (mkSite (VStr fresh) [alice] (VStr "0x89") true 1700000000000
                 ["eth_accounts"] 1700000000000) ∧
  accounts_relay_asks.1.2 = [Relay.ToBackground accounts_request] ∧
  accounts_broker =
    (connected_world, [],
     (Throw (ReferenceError "handleGetAccountsRequest"), Normal false)) ∧
  cr_result accounts_page_response = Some [] ∧
  accounts_page_promise.2 = Normal [] ∧
  responses accounts_by_web3.1.2 =
    [mkBrokerResponse false false None None VUndefined VUndefined (Some [alice])].
Proof. repeat split; vm_compute; reflexivity. Qed.

(** C8 on two runs: an approval for a request that never existed, and
    the approval of a pending chain switch delivered a second time. *)
Lemma decision_without_pending_request_is_noop_witness :
  (slot_read_by (m_type switch_approval) (storage world) = Some None ∧
   holds None (m_requestId switch_approval) = false ∧
   deliver switch_approval world =
     (world, [SendResponse success_response], (Normal false, Normal false))) ∧
  (m_type switch_approval = "APPROVE_SWITCH_CHAIN" ∧
   selectedChainId (state switch_broker_settles.1.1) = VStr "0x1" ∧
   deliver switch_approval switch_broker_settles.1.1 =
     (switch_broker_settles.1.1, [SendResponse success_response],
      (Normal false, Normal false))).
Proof.
  assert (Hslot : slot_read_by (m_type switch_approval) (storage world) = Some None)
    by (vm_compute; reflexivity).
  assert (Hslot' : slot_read_by (m_type switch_approval) (storage switch_broker_waits.1.1)
                   = Some (pendingChainRequest (storage switch_broker_waits.1.1)))
    by (vm_compute; reflexivity).
  split.
  - split; [exact Hslot|]. split; [reflexivity|].
    apply (proj1 (decision_without_pending_request_is_noop
                    world switch_approval None Hslot)).
    reflexivity.
  - split; [reflexivity|]. split; [vm_compute; reflexivity|].
    apply (proj2 (decision_without_pending_request_is_noop
                    switch_broker_waits.1.1 switch_approval _ Hslot')
                 eq_refl switch_broker_settles.1.1 switch_broker_settles.1.2
                 switch_broker_settles.2).
    unfold switch_broker_settles.
    destruct (deliver switch_approval switch_broker_waits.1.1) as [[w1 e1] r1].
    reflexivity.
Defined.


End Runs.

(** * Further properties *)

Section Cache.

Import RpcCache.
Context {V : Type}.

Lemma get_stored (c : Cache V) (key : string) (entry : Entry V) :
  cache c !! key = Some entry →
  get key c =
  if expired (now c) entry
  then (set_cache (delete key (cache c)) c, [], Normal None)
  else (c, [], Normal (value entry)).
Proof.
  intros Hentry. unfold get.
  cbv beta iota delta [mbind M_bind bind gets mret M_ret Js.ret modify].
  rewrite Hentry. destruct (expired (now c) entry); reflexivity.
Qed.

Lemma set_run (c : Cache V) (key : string) (v : option V) (ttl : option Z) :
  set key v ttl c =
  (set_cache (<[key := mkEntry v (if (default 30000 ttl =? 0)%Z then None
                                  else Some (now c + default 30000 ttl)%Z)]> (cache c)) c,
   [], Normal v).
Proof. reflexivity. Qed.

Lemma has_run (c : Cache V) (key : string) :
  has key c =
  ((get key c).1.1, (get key c).1.2,
   match (get key c).2 with
   | Normal v => Normal (match v with Some _ => true | None => false end)
   | Throw e => Throw e
   end).
Proof.
  unfold has. cbv beta iota delta [mbind M_bind bind mret M_ret Js.ret].
  destruct (get key c) as [[c' o] [v|e]]; cbn [fst snd]; [|reflexivity].
  rewrite app_nil_r. reflexivity.
Qed.

Lemma get_before_expiry
    (c : Cache V) (key : string) (v : option V) (ttl : option Z) (t : Z) :
  (default 30000 ttl = 0 ∨ t ≤ now c + default 30000 ttl)%Z →
  get key (at_time t (set key v ttl c).1.1) =
  (at_time t (set key v ttl c).1.1, [], Normal v).
Proof.
  intros Hfresh. rewrite set_run. cbn [fst snd].
  erewrite get_stored by (cbn [at_time set_cache cache]; apply lookup_insert_eq).
  unfold expired. cbn [expiry value now at_time].
  destruct (default 30000%Z ttl =? 0)%Z eqn:Hzero; [reflexivity|].
  apply Z.eqb_neq in Hzero.
  destruct Hfresh as [Hz|Hle]; [contradiction|].
  replace (now c + default 30000%Z ttl <? t)%Z with false
    by (symmetry; apply Z.ltb_ge; exact Hle).
  rewrite andb_false_r. reflexivity.
Qed.

(** X1.  A value stored with [set] is what [get] returns for its key
    at any time up to the expiry of the entry, that time included; the
    cache is left as it is.  An entry stored with a [ttl] of 0 has no
    expiry. *)
Theorem rpcCache_get_returns_stored_value
    (c : Cache V) (key : string) (v : option V) (ttl : option Z) (t : Z) :
  (default 30000 ttl = 0 ∨ t ≤ now c + default 30000 ttl)%Z →
  let stored := at_time t (set key v ttl c).1.1 in
  get key stored = (stored, [], Normal v) ∧
  has key stored = (stored, [], Normal (match v with Some _ => true | None => false end)).
Proof.
  intros Hfresh stored. subst stored.
  pose proof (get_before_expiry c key v ttl t Hfresh) as Hget.
  split; [exact Hget|]. rewrite has_run, Hget. reflexivity.
Qed.

(** X2.  Once the expiry of an entry has passed, [get] returns
    [undefined] for its key and removes the entry: the cache is what it
    was before the [set], without the key, and [has] is false from then
    on, whatever the clock says. *)
Theorem rpcCache_expired_entry_is_removed
    (c : Cache V) (key : string) (v : option V) (ttl : option Z) (t : Z) :
  (default 30000 ttl ≠ 0)%Z →
  (now c + default 30000 ttl ≠ 0)%Z →
  (now c + default 30000 ttl < t)%Z →
  let stored := at_time t (set key v ttl c).1.1 in
  get key stored = (at_time t (set_cache (delete key (cache c)) c), [], Normal None) ∧
  ∀ t', has key (at_time t' (get key stored).1.1)
        = (at_time t' (get key stored).1.1, [], Normal false).
Proof.
  intros Hlife Hexpiry Hpast stored.
  assert (Hget : get key stored =
                 (at_time t (set_cache (delete key (cache c)) c), [], Normal None)).
  { subst stored. rewrite set_run. cbn [fst snd].
    erewrite get_stored by (cbn [at_time set_cache cache]; apply lookup_insert_eq).
    unfold expired. cbn [expiry value now at_time].
    apply Z.eqb_neq in Hlife. rewrite Hlife.
    apply Z.eqb_neq in Hexpiry. rewrite Hexpiry.
    apply Z.ltb_lt in Hpast. rewrite Hpast. cbn [negb andb].
    unfold set_cache, at_time. cbn [cache now]. rewrite delete_insert_eq. reflexivity. }
  split; [exact Hget|].
  intros t'. rewrite Hget. cbn [fst snd].
  rewrite has_run. unfold get.
  cbv beta iota delta [mbind M_bind bind gets mret M_ret Js.ret].
  cbn [at_time set_cache cache]. rewrite lookup_delete_eq. reflexivity.
Qed.

(** X3.  A request for a method that may be cached, whose fetched
    result is a value, stores that value; the same request made again
    before the entry expires returns it without calling [fetchCallback].
    A fetched result of [undefined] is stored too, but it is never
    served: the next request calls [fetchCallback] again. *)
Theorem rpcCache_second_request_is_served_from_cache
    (c : Cache V) (method json : string) (ttl : option Z) (v : V) (t : Z) :
  existsb (String.eqb method) nonCacheableMethods = false →
  (default 30000 ttl = 0 ∨ t ≤ now c + default 30000 ttl)%Z →
  let key := getCacheKey method json in
  let hit := at_time t (processRequest_resume key ttl (Resolved (Some v)) c).1.1 in
  let miss := at_time t (processRequest_resume key ttl (Resolved None) c).1.1 in
  processRequest_start method json hit = (hit, [], Normal (Return (Some v))) ∧
  processRequest_start method json miss = (miss, [FetchCallback], Normal (AwaitFetch key)).
Proof.
  intros Hcacheable Hfresh key hit miss.
  assert (Hhit : get key hit = (hit, [], Normal (Some v))).
  { exact (get_before_expiry c key (Some v) ttl t Hfresh). }
  assert (Hmiss : get key miss = (miss, [], Normal None)).
  { exact (get_before_expiry c key None ttl t Hfresh). }
  split; unfold processRequest_start; rewrite Hcacheable; fold key;
    cbv beta iota delta [mbind M_bind bind mret M_ret Js.ret]; rewrite has_run.
  - rewrite Hhit. cbn [fst snd]. rewrite Hhit. reflexivity.
  - rewrite Hmiss. reflexivity.
Qed.

End Cache.

Section Retries.

Import Provider Observe SendRequest.
Context {R : Type}.

Lemma makeRequest_run (c : Call R) (w : Wallet) :
  makeRequest c w =
  (w, [Posted (method c) (params c)],
   Normal (mkCall (method c) (params c) (requestId c) (retryCount c) (S (attached c))
                  true (promise c))).
Proof. reflexivity. Qed.

(** Up to [_maxRetries] time-outs, each one posts the request again and
    attaches one more handler. *)
Lemma after_timeouts_retry (k r a : nat) (m : string) (p : Params) (id : string) (w : Wallet) :
  (r + k ≤ _maxRetries)%nat →
  after_timeouts k (mkCall (R:=R) m p id r a true None) w =
  (w, repeat (Posted m p) k, Normal (mkCall m p id (r + k)%nat (a + k)%nat true None)).
Proof.
  revert r a. induction k as [|k IH]; intros r a Hle.
  - cbn. rewrite !Nat.add_0_r. reflexivity.
  - cbn [after_timeouts]. cbv beta iota delta [mbind M_bind bind].
    unfold timer_fires at 1. cbn [timeout]. unfold onTimeout. cbn [retryCount].
    replace (r <? _maxRetries)%nat with true
      by (symmetry; apply Nat.ltb_lt; unfold _maxRetries in *; lia).
    rewrite makeRequest_run. cbn [method params requestId retryCount attached promise].
    rewrite IH by lia.
    replace (S r + k)%nat with (r + S k)%nat by lia.
    replace (S a + k)%nat with (a + S k)%nat by lia.
    reflexivity.
Qed.

Lemma sent_and_retried (k : nat) (m : string) (p : Params) (id : string) (w : Wallet) :
  (k ≤ _maxRetries)%nat →
  (c ← _sendRequest (R:=R) m p id; after_timeouts k c) w =
  (w, repeat (Posted m p) (S k), Normal (mkCall m p id k (S k) true None)).
Proof.
  intros Hle. unfold _sendRequest. cbv beta iota delta [mbind M_bind bind].
  rewrite makeRequest_run. cbn [method params requestId retryCount attached promise].
  rewrite (after_timeouts_retry k 0 1) by lia. reflexivity.
Qed.

(** Every attached handler treats a response for the awaited id in the
    same way. *)
Lemma responseHandlers_run (n : nat) (id : string) (data : Response R) (w : Wallet)
    (trace : list Obs) (s : Settled (Response R)) :
  responseHandler id data w = (w, trace, Normal (Some s)) →
  responseHandlers (S n) id data w = (w, concat (repeat trace (S n)), Normal (Some s)).
Proof.
  intros Hone. induction n as [|n IH].
  - cbn [responseHandlers]. cbv beta iota delta [mbind M_bind bind mret M_ret Js.ret].
    rewrite Hone. cbn. rewrite !app_nil_r. reflexivity.
  - change (responseHandlers (S (S n)) id data)
      with (first ← responseHandler id data;
            rest ← responseHandlers (S n) id data;
            mret (match first with Some s => Some s | None => rest end)).
    cbv beta iota delta [mbind M_bind bind mret M_ret Js.ret].
    rewrite Hone, IH. cbn [repeat concat]. rewrite app_nil_r. reflexivity.
Qed.

Lemma responseHandlers_other_id (n : nat) (id : string) (data : Response R) (w : Wallet) :
  String.eqb (cr_id data) id = false →
  responseHandlers n id data w = (w, [], Normal None).
Proof.
  intros Hother. induction n as [|n IH]; [reflexivity|].
  cbn [responseHandlers]. cbv beta iota delta [mbind M_bind bind mret M_ret Js.ret].
  unfold responseHandler at 1. rewrite Hother.
  cbv beta iota delta [mret M_ret Js.ret]. rewrite IH. reflexivity.
Qed.

(** The handlers complete normally and leave the provider as it is. *)
Lemma responseHandler_total (id : string) (data : Response R) (w : Wallet) :
  ∃ trace outcome, responseHandler id data w = (w, trace, Normal outcome).
Proof.
  unfold responseHandler. destruct (String.eqb (cr_id data) id); [|eexists; eexists; reflexivity].
  destruct (cr_error data) as [[s|code message]|]; [destruct s| |];
    try (eexists; eexists; reflexivity);
    cbv beta iota delta [mbind M_bind bind mret M_ret Js.ret when];
    match goal with |- context [if ?b then _ else _] => destruct b end;
    rewrite ?emit_run; eexists; eexists; reflexivity.
Qed.

Lemma responseHandlers_total (n : nat) (id : string) (data : Response R) (w : Wallet) :
  ∃ trace outcome, responseHandlers n id data w = (w, trace, Normal outcome).
Proof.
  induction n as [|n [trace [outcome IH]]]; [eexists; eexists; reflexivity|].
  destruct (responseHandler_total id data w) as [trace1 [first Hfirst]].
  cbn [responseHandlers]. cbv beta iota delta [mbind M_bind bind mret M_ret Js.ret].
  rewrite Hfirst, IH. eexists; eexists; reflexivity.
Qed.

(** X4.  A request that is never answered is posted four times, once
    and then once more after each of three time-outs; the fourth
    time-out rejects its promise with the error 4900 and, if the provider
    was connected, marks it disconnected and calls the [disconnect]
    listeners with that error.  A response that arrives later does not
    change the promise. *)
Theorem unanswered_request_is_posted_four_times_then_rejected
    (w : Wallet) (m : string) (p : Params) (id : string) :
  let error := _createRPCError DISCONNECTED "Request timeout after multiple retries" in
  let gave_up := mkCall (R:=R) m p id 3 3 false (Some (Rejected error)) in
  (c ← _sendRequest m p id; after_timeouts 4 c) w =
    ((if isConnected w then set_isConnected false w else w),
     repeat (Posted m p) 4 ++
       (if isConnected w
        then calls w "disconnect" (PError (Some 4900%Z) "Request timeout after multiple retries")
        else []),
     Normal gave_up) ∧
  ∀ (data : Response R) (v : Wallet),
    ∃ trace c, onWindowMessage data gave_up v = (v, trace, Normal c) ∧
               promise c = Some (Rejected error).
Proof.
  intros error gave_up. split.
  - unfold _sendRequest. cbn [after_timeouts].
    cbv beta iota zeta delta [mbind M_bind bind mret M_ret Js.ret makeRequest
      Provider._sendRequest tell timer_fires onTimeout timeout retryCount method params
      requestId attached promise Nat.ltb Nat.leb _maxRetries settle Nat.pred gets when modify].
    destruct (isConnected w) eqn:Hconnected.
    + rewrite emit_run. unfold calls, listeners.
      cbn [app repeat _events set_isConnected]. rewrite !app_nil_r. reflexivity.
    + reflexivity.
  - intros data v. unfold onWindowMessage.
    cbv beta iota delta [mbind M_bind bind mret M_ret Js.ret].
    destruct (responseHandlers_total (attached gave_up) (requestId gave_up) data v)
      as [trace [outcome Hrun]].
    rewrite Hrun. destruct outcome as [s|]; eexists; eexists; split; reflexivity.
Qed.

(** X5.  A response that arrives after [k] time-outs is taken by
    each of the [k + 1] handlers that are attached by then.  For an
    error with the code 4901 every handler emits [chainChanged] with
    [null], so the listeners are called [k + 1] times; the promise is
    rejected once, with the error of the response; no handler and no
    timer is left. *)
Theorem response_after_retries_is_handled_once_per_attempt
    (w : Wallet) (m : string) (p : Params) (id : string) (k : nat)
    (data : Response R) (message : string) :
  (k ≤ 3)%nat →
  cr_id data = id →
  cr_error data = Some (ErrObj 4901 message) →
  (c ← _sendRequest m p id; c ← after_timeouts k c; onWindowMessage data c) w =
  (w,
   repeat (Posted m p) (S k) ++
     concat (repeat (calls w "chainChanged" (PChainId VNull)) (S k)),
   Normal (mkCall m p id k 0 false
             (Some (Rejected (_createRPCError 4901
                      (if String.eqb message "" then "Unknown error" else message)))))).
Proof.
  intros Hk Hid Herror.
  pose proof (sent_and_retried k m p id w Hk) as Hsent.
  cbv beta iota delta [mbind M_bind bind] in Hsent |- *.
  destruct (_sendRequest m p id w) as [[w0 o0] [c0|e0]]; [|discriminate].
  destruct (after_timeouts k c0 w0) as [[w1 o1] [c1|e1]]; [|discriminate].
  injection Hsent as -> Htrace ->.
  unfold onWindowMessage. cbn [attached requestId method params retryCount promise].
  cbv beta iota delta [mbind M_bind bind mret M_ret Js.ret].
  erewrite (responseHandlers_run k id data w).
  2:{ unfold responseHandler. rewrite Hid, String.eqb_refl, Herror.
      cbv beta iota zeta delta [mbind M_bind bind mret M_ret Js.ret when].
      cbn [Z.eqb Pos.eqb _createRPCError err_code CHAIN_DISCONNECTED bool_decide
           decide_rel].
      rewrite bool_decide_eq_true_2 by reflexivity.
      rewrite emit_run. cbn [app]. rewrite app_nil_r. reflexivity. }
  cbn [settle promise]. rewrite app_nil_r, app_assoc, Htrace. reflexivity.
Qed.

(** X6.  A response without an error that arrives after at most three
    time-outs resolves the promise with the response; the request has
    been posted once more than there were time-outs.  From then on
    neither a timer nor another response does anything: the promise stays
    as it is and no listener is called. *)
Theorem answered_request_settles_once
    (w : Wallet) (m : string) (p : Params) (id : string) (k : nat)
    (data : Response R) :
  (k ≤ 3)%nat →
  cr_id data = id →
  error_truthy (cr_error data) = false →
  let settled := mkCall m p id k 0 false (Some (Resolved data)) in
  (c ← _sendRequest m p id; c ← after_timeouts k c; onWindowMessage data c) w =
    (w, repeat (Posted m p) (S k), Normal settled) ∧
  ∀ (v : Wallet) (later : Response R) (n : nat),
    after_timeouts n settled v = (v, [], Normal settled) ∧
    onWindowMessage later settled v = (v, [], Normal settled).
Proof.
  intros Hk Hid Hquiet settled. split.
  - pose proof (sent_and_retried k m p id w Hk) as Hsent.
    cbv beta iota delta [mbind M_bind bind] in Hsent |- *.
    destruct (_sendRequest m p id w) as [[w0 o0] [c0|e0]]; [|discriminate].
    destruct (after_timeouts k c0 w0) as [[w1 o1] [c1|e1]]; [|discriminate].
    injection Hsent as -> Htrace ->.
    unfold onWindowMessage. cbn [attached requestId method params retryCount promise].
    cbv beta iota delta [mbind M_bind bind mret M_ret Js.ret].
    erewrite (responseHandlers_run k id data w [] (Resolved data)).
    2:{ unfold responseHandler. rewrite Hid, String.eqb_refl.
        unfold error_truthy in Hquiet.
        destruct (cr_error data) as [[s|code message]|]; try discriminate;
          [destruct s; [reflexivity|discriminate]|reflexivity]. }
    cbn [settle promise].
    replace (concat (repeat [] (S k))) with (@nil Obs)
      by (clear; induction k as [|k IH]; [reflexivity|exact IH]).
    rewrite !app_nil_r, Htrace. reflexivity.
  - intros v later n. split.
    + induction n as [|n IH]; [reflexivity|].
      cbn [after_timeouts]. cbv beta iota delta [mbind M_bind bind].
      unfold timer_fires at 1. cbn [timeout settled].
      cbv beta iota delta [mret M_ret Js.ret]. rewrite IH. reflexivity.
    + reflexivity.
Qed.

End Retries.

Section PageMessages.

Import Provider Observe Window.

(** The wallet after a state update. *)
Lemma onStateUpdate_run (state : WalletState) (w : Wallet) :
  onStateUpdate (Some state) w =
  (mkWallet (ws_connected state) (ws_accounts state) (ws_chainId state)
            (selectedAddress w) (networkVersion w) (connected w)
            (_chainSwitchInProgress w) (_events w),
   (if String.eqb (join "," (accounts w)) (join "," (ws_accounts state)) then []
    else calls w "accountsChanged" (PAccounts (ws_accounts state))) ++
   (if jsval_eqb (chainId w) (ws_chainId state) then []
    else calls w "chainChanged" (PChainId (ws_chainId state))),
   Normal tt).
Proof.
  unfold onStateUpdate.
  cbv beta iota zeta delta [mbind M_bind bind mret M_ret Js.ret gets modify when].
  destruct (String.eqb (join "," (accounts w)) (join "," (ws_accounts state)));
    destruct (jsval_eqb (chainId w) (ws_chainId state));
    cbn [negb]; rewrite ?emit_run; unfold calls, listeners;
    cbn [app _events accounts chainId set_isConnected set_accounts set_chainId
         isConnected selectedAddress networkVersion connected _chainSwitchInProgress];
    rewrite ?app_nil_r; reflexivity.
Qed.


(** X8.  When the relay is told [DISCONNECT], the page provider ends
    up not connected and without accounts, on the chain that the relay
    had recorded; it keeps its [selectedAddress] and its [connected]
    flag.  The listeners are called with [accountsChanged] (the empty
    list) unless the accounts joined by commas were the empty string
    already, with [chainChanged] if the chain id differs, and with
    [disconnect].  A transaction requested after that is refused with
    the code 4100 and nothing is posted. *)
Theorem disconnect_notice_clears_accounts_and_keeps_selectedAddress
    (m : TabMessage) (r : Relay.Relay) (w : Wallet) (tx : Transaction) :
  t_type m = "DISCONNECT" →
  let chain := match Relay.crossNetWalletState r with
               | Some s => ws_chainId s
               | None => VUndefined
               end in
  let page := mkWallet false [] chain (selectedAddress w) (networkVersion w)
                       (connected w) (_chainSwitchInProgress w) (_events w) in
  messages (Relay.onMessage m r).1.2 w =
    (page,
     (if String.eqb (join "," (accounts w)) "" then []
      else calls w "accountsChanged" (PAccounts [])) ++
     (if jsval_eqb (chainId w) chain then []
      else calls w "chainChanged" (PChainId chain)) ++
     calls w "disconnect" (PError (Some 1000%Z) "Connection closed by wallet"),
     Normal tt) ∧
  sendTransaction_start tx page =
    (page, [],
     Throw (_createRPCError 4100
              "Wallet not connected. Connect first using eth_requestAccounts")).
Proof.
  intros Htype chain page. split; [|reflexivity].
  unfold Relay.onMessage. rewrite Htype.
  cbn [String.eqb Ascii.eqb Bool.eqb orb].
  cbv beta iota zeta delta [mbind M_bind bind mret M_ret Js.ret gets modify tell].
  cbn [fst snd app Relay.crossNetWalletState Relay.set_crossNetWalletState].
  unfold messages. cbn [forEach].
  cbv beta iota zeta delta [mbind M_bind bind mret M_ret Js.ret try_catch].
  cbn [onMessage]. rewrite onStateUpdate_run. unfold onWalletEvent. rewrite emit_run.
  cbn [ws_connected ws_accounts ws_chainId join String.concat].
  unfold calls, listeners. cbn [_events]. fold chain.
  cbv beta iota zeta delta [mret M_ret Js.ret].
  rewrite ?app_nil_r, <- ?app_assoc. reflexivity.
Qed.

End PageMessages.

Section Listeners.

Import Provider Observe.







End Listeners.

Section ThroughTheRelay.

Import Provider Observe.
Context `{Platform}.

(** X12.  A chain switch that is refused because another one is in
    flight posts nothing and does not disturb the first: when the answer
    to the first call arrives, the provider ends in the same state and
    makes the same calls as if the second call had not been made. *)
Theorem refused_chain_switch_leaves_the_first_call_unaffected {A}
    (w : Wallet) (c c' : jsval) (p : Settled (Response A)) :
  _chainSwitchInProgress w = false →
  let first := switchChain_start c w in
  let second := switchChain_start c' first.1.1 in
  first.1.2 = [Posted "wallet_switchEthereumChain" (ChainParams c)] ∧
  second.1.2 = [] ∧
  second.2 = Throw (_createRPCError (-32002) "Chain switch already in progress") ∧
  switchChain_resume c p second.1.1 = switchChain_resume c p first.1.1.
Proof.
  intros Hidle first second. subst first second.
  rewrite (switchChain_start_idle c w Hidle). cbn [fst snd].
  rewrite switchChain_start_busy by reflexivity. cbn [fst snd].
  rewrite !switchChain_resume_ignores_flag. repeat split.
Qed.

(** X13.  The relay answers a page request with the value of its
    handler under [result], or with an error; neither form has the
    [accounts] that [connect()] reads nor the [switched] that
    [addChain()] reads.  Whatever the relay answers, [connect()] leaves
    the provider as it was and calls no listener, and [addChain()]
    changes nothing but the guard. *)
Theorem relay_answer_never_connects_the_provider {A}
    (w : Wallet) (id : string) (outcome : Settled (option A)) (chainData : ChainData) :
  ∃ trace settled,
    responseHandler id (Relay.respond id outcome) w = (w, trace, Normal (Some settled)) ∧
    (connect_resume settled w).1.1 = w ∧
    (connect_resume settled w).1.2 = [] ∧
    (addChain_resume chainData settled w).1.1 = set_chainSwitchInProgress false w ∧
    (addChain_resume chainData settled w).1.2 = [].
Proof.
  destruct outcome as [response|error].
  - exists [], (Resolved (Relay.respond id (Resolved response))).
    split; [|repeat split].
    unfold responseHandler, Relay.respond. cbn [cr_id cr_error].
    rewrite String.eqb_refl. reflexivity.
  - unfold responseHandler. cbn [Relay.respond cr_id cr_error].
    rewrite String.eqb_refl.
    cbv beta iota zeta delta [mbind M_bind bind mret M_ret Js.ret when].
    match goal with |- context [bool_decide ?P] => destruct (bool_decide P) end;
      rewrite ?emit_run; eexists; eexists; (split; [reflexivity|repeat split]).
Qed.

End ThroughTheRelay.

Section RelayBookkeeping.

Import Relay Journey.

(** After a response for a request has been handled, the relay holds
    no entry for that request. *)
Lemma response_clears_entry (m : TabMessage) (r : Relay) :
  settles (t_type m) = true →
  pendingRequestsMap (onMessage m r).1.1 !! t_requestId m = None ∧
  (onMessage m r).2 = Normal true.
Proof.
  unfold settles. intros Hkind.
  assert (Hcases : t_type m = "SEND_TRANSACTION_RESPONSE" ∨
                   t_type m = "PERSONAL_SIGN_RESPONSE" ∨
                   t_type m = "ETH_SIGN_RESPONSE" ∨
                   t_type m = "TYPED_SIGN_RESPONSE" ∨
                   t_type m = "SWITCH_CHAIN_RESPONSE" ∨
                   t_type m = "ADD_CHAIN_RESPONSE").
  { repeat (apply orb_true_iff in Hkind; destruct Hkind as [Hkind|Hkind]);
      apply String.eqb_eq in Hkind; tauto. }
  clear Hkind.
  destruct Hcases as [E|[E|[E|[E|[E|E]]]]];
    unfold onMessage; rewrite E; cbn [String.eqb Ascii.eqb Bool.eqb orb];
    unfold handleTransactionResponse, handleSignResponse, handleResponse, pending_delete;
    cbv beta iota zeta delta [mbind M_bind bind mret M_ret Js.ret gets modify tell];
    destruct (pendingRequestsMap r !! t_requestId m) as [id|] eqn:Hid;
    repeat match goal with |- context [if ?b then _ else _] => destruct b end;
    cbn [fst snd pendingRequestsMap set_pendingRequestsMap];
    rewrite ?lookup_delete_eq; auto.
Qed.

Lemma response_without_entry (m : TabMessage) (r : Relay) :
  settles (t_type m) = true →
  pendingRequestsMap r !! t_requestId m = None →
  onMessage m r = (r, [Acked], Normal true).
Proof.
  unfold settles. intros Hkind Hnone.
  assert (Hcases : t_type m = "SEND_TRANSACTION_RESPONSE" ∨
                   t_type m = "PERSONAL_SIGN_RESPONSE" ∨
                   t_type m = "ETH_SIGN_RESPONSE" ∨
                   t_type m = "TYPED_SIGN_RESPONSE" ∨
                   t_type m = "SWITCH_CHAIN_RESPONSE" ∨
                   t_type m = "ADD_CHAIN_RESPONSE").
  { repeat (apply orb_true_iff in Hkind; destruct Hkind as [Hkind|Hkind]);
      apply String.eqb_eq in Hkind; tauto. }
  clear Hkind.
  destruct Hcases as [E|[E|[E|[E|[E|E]]]]];
    unfold onMessage; rewrite E; cbn [String.eqb Ascii.eqb Bool.eqb orb];
    unfold handleTransactionResponse, handleSignResponse, handleResponse;
    cbv beta iota zeta delta [mbind M_bind bind mret M_ret Js.ret gets modify tell];
    rewrite Hnone; reflexivity.
Qed.

(** X14.  The relay passes at most one answer for a request to its
    page: once a response from the broker has been handled, or the timer
    of the request has fired, a response for the same request id is
    acknowledged to the broker and nothing is posted to the page. *)
Theorem relay_answers_the_page_at_most_once
    (m later : TabMessage) (r : Relay) (timedOut : string) :
  settles (t_type m) = true →
  settles (t_type later) = true →
  t_requestId later = t_requestId m →
  onMessage later (onMessage m r).1.1 = ((onMessage m r).1.1, [Acked], Normal true) ∧
  onMessage later (on_timeout timedOut (t_requestId m) r).1.1 =
    ((on_timeout timedOut (t_requestId m) r).1.1, [Acked], Normal true).
Proof.
  intros Hm Hlater Hid. split.
  - apply response_without_entry; [exact Hlater|].
    rewrite Hid. apply (response_clears_entry m r Hm).
  - apply response_without_entry; [exact Hlater|].
    rewrite Hid. unfold on_timeout, pending_delete.
    cbv beta iota zeta delta [mbind M_bind bind mret M_ret Js.ret gets modify].
    cbn [fst snd pendingRequestsMap set_pendingRequestsMap]. apply lookup_delete_eq.
Qed.

(** X15.  When the broker has answered a request that may need an
    approval, the relay holds an entry for the request exactly if the
    promise of the request is still open, which is the case only for the
    answer [{ waiting: true }] without a result; the entry names the
    page request, and the entries of other requests are untouched. *)
Theorem relay_keeps_a_request_only_while_the_broker_waits
    (granted : BrokerResponse → option (option string))
    (requestId : JsId) (id : string) (reply : Settled BrokerResponse) (r : Relay) :
  ∃ r' outcome,
    approval_reply granted requestId id reply r = (r', [], Normal outcome) ∧
    pendingRequestsMap r' !! requestId =
      (match outcome with None => Some id | Some _ => None end) ∧
    (outcome = None ↔
     ∃ response, reply = Resolved response ∧ granted response = None ∧
                 br_waiting response = true) ∧
    ∀ other, other ≠ requestId →
      pendingRequestsMap r' !! other = pendingRequestsMap r !! other.
Proof.
  unfold approval_reply, pending_delete, pending_set.
  destruct reply as [response|error].
  - destruct (granted response) as [value|] eqn:Hgranted.
    + eexists; eexists. split; [reflexivity|].
      cbn [pendingRequestsMap set_pendingRequestsMap].
      split; [apply lookup_delete_eq|]. split.
      * split; [discriminate|]. intros [x [[= <-] [Hx _]]]. congruence.
      * intros other Hne. apply lookup_delete_ne. congruence.
    + destruct (br_waiting response) eqn:Hwaiting.
      * eexists; eexists. split; [reflexivity|].
        cbn [pendingRequestsMap set_pendingRequestsMap].
        split; [apply lookup_insert_eq|]. split.
        -- split; [|reflexivity]. intros _. exists response. auto.
        -- intros other Hne. apply lookup_insert_ne. congruence.
      * destruct (error_truthy (br_error response));
          (eexists; eexists; split; [reflexivity|];
           cbn [pendingRequestsMap set_pendingRequestsMap];
           split; [apply lookup_delete_eq|]; split;
           [ split; [discriminate|]; intros [x [[= <-] [_ Hx]]]; congruence
           | intros other Hne; apply lookup_delete_ne; congruence ]).
  - eexists; eexists. split; [reflexivity|].
    cbn [pendingRequestsMap set_pendingRequestsMap].
    split; [apply lookup_delete_eq|]. split.
    + split; [discriminate|]. intros [x [Hx _]]. discriminate.
    + intros other Hne. apply lookup_delete_ne. congruence.
Qed.

End RelayBookkeeping.

Section RequestsOnTheirWay.

Import Broker Protocol Journey.

(** Evaluate the two listeners on a message whose type is known by [E]. *)
Ltac listeners_on E :=
  unfold deliver, onMessage, onMessage2; rewrite E;
  cbn [String.eqb Ascii.eqb Bool.eqb orb];
  unfold call; cbn [resolve declared String.eqb Ascii.eqb Bool.eqb];
  cbv beta iota delta [mret M_ret Js.ret mbind M_bind bind].


(** X17.  A message whose type no listener of the broker has a branch
    for is dropped: the broker does not change, sends nothing and does
    not answer.  [RPC_REQUEST], the type under which the relay forwards
    every method it has no handler of its own for, is such a type, and
    so are the [CONNECT_RESPONSE] and [REJECT_TRANSACTION] of the popup. *)
Theorem message_of_unknown_type_is_dropped (w : World) (message : Message) :
  ¬ In (m_type message) known_types →
  deliver message w = (w, [], (Normal false, Normal false)) ∧
  Transport.reply (deliver message w).1.2 = Rejected (new_Error "Response timeout").
Proof.
  intros Hunknown.
  assert (Hrun : deliver message w = (w, [], (Normal false, Normal false))).
  { unfold deliver, onMessage, onMessage2.
    repeat match goal with
    | |- context [String.eqb (m_type message) ?lit] =>
        let E := fresh "E" in
        destruct (String.eqb (m_type message) lit) eqn:E;
        [ apply String.eqb_eq in E; exfalso; apply Hunknown; rewrite E;
          unfold known_types; cbn [In]; tauto
        | clear E ]
    end.
    reflexivity. }
  rewrite Hrun. split; reflexivity.
Qed.



End RequestsOnTheirWay.

Section Approvals.

Import Broker Protocol Journey.

Ltac listeners_on E :=
  unfold deliver, onMessage, onMessage2; rewrite E;
  cbn [String.eqb Ascii.eqb Bool.eqb orb];
  unfold call; cbn [resolve declared String.eqb Ascii.eqb Bool.eqb];
  cbv beta iota delta [mret M_ret Js.ret mbind M_bind bind].


(** A transaction request of a connected site that names a recipient
    or carries data is stored and waits for the popup. *)
Lemma transaction_request_waits (w : World) (data : Data) (transaction : Transaction) :
  not_connected (state w) (d_origin data) = false →
  d_transaction data = Some transaction →
  has_to_or_data transaction = true →
  deliver (request "SEND_TRANSACTION_REQUEST" data) w =
  (set_storage
     (set_pendingTransactionRequest
        (Some (mkPending (d_requestId data) "transaction" (d_origin data) (now w)
                         (selectedChainId (state w)) None (Some transaction)
                         VUndefined VUndefined))
        (storage w)) w,
   [OpenPopup "transaction" (d_requestId data); SendResponse waiting_response],
   (Normal true, Normal false)).
Proof.
  intros Hconnected Htx Hvalid.
  assert (E : m_type (request "SEND_TRANSACTION_REQUEST" data) = "SEND_TRANSACTION_REQUEST")
    by reflexivity.
  listeners_on E. unfold handleSendTransactionRequest, destructure. cbn [request m_data].
  cbv beta iota delta [mret M_ret Js.ret mbind M_bind bind gets].
  rewrite Hconnected, Htx.
  unfold has_to_or_data in Hvalid.
  replace (negb (truthy (tx_to transaction)) && negb (truthy (tx_data transaction)))
    with false
    by (destruct (truthy (tx_to transaction)), (truthy (tx_data transaction));
        cbn in *; congruence).
  reflexivity.
Qed.

(** X21.  The broker keeps one pending transaction.  When a second
    transaction request arrives before the first is decided, the first is
    forgotten: a decision on it, approving or rejecting, changes nothing
    and sends nothing to any tab, while the second is the one that waits. *)
Theorem later_transaction_request_replaces_the_pending_one
    (w : World) (first second : Data) (tx1 tx2 : Transaction) (approved : bool) :
  not_connected (state w) (d_origin first) = false →
  not_connected (state w) (d_origin second) = false →
  d_transaction first = Some tx1 → has_to_or_data tx1 = true →
  d_transaction second = Some tx2 → has_to_or_data tx2 = true →
  JsId_eqb (d_requestId second) (d_requestId first) = false →
  let w1 := (deliver (request "SEND_TRANSACTION_REQUEST" first) w).1.1 in
  let w2 := (deliver (request "SEND_TRANSACTION_REQUEST" second) w1).1.1 in
  holds (pendingTransactionRequest (storage w1)) (d_requestId first) = true ∧
  option_map id (pendingTransactionRequest (storage w2)) = Some (d_requestId second) ∧
  deliver (Scenario.decision "APPROVE_TRANSACTION" (d_requestId first) approved) w2 =
    (w2, [SendResponse success_response], (Normal false, Normal false)).
Proof.
  intros Hc1 Hc2 Htx1 Hv1 Htx2 Hv2 Hdiff w1 w2. subst w1 w2.
  rewrite (transaction_request_waits w first tx1 Hc1 Htx1 Hv1). cbn [fst].
  rewrite (transaction_request_waits _ second tx2) by assumption. cbn [fst].
  split.
  { cbn. destruct (d_requestId first); cbn;
      [reflexivity|apply Z.eqb_refl|apply String.eqb_refl]. }
  split; [reflexivity|].
  apply (unmatched_decision _ _ (Some (mkPending (d_requestId second) "transaction"
           (d_origin second)
           (now (set_storage (set_pendingTransactionRequest
                   (Some (mkPending (d_requestId first) "transaction" (d_origin first)
                            (now w) (selectedChainId (state w)) None (Some tx1)
                            VUndefined VUndefined)) (storage w)) w))
           (selectedChainId (state w)) None (Some tx2) VUndefined VUndefined))).
  - reflexivity.
  - cbn [holds id Scenario.decision m_requestId]. exact Hdiff.
Qed.

(** X22.  An approval of the pending transaction never brings a hash
    to the page.  The first listener hands [handleTransactionResponse]
    the request id and the decision only, so the response sent to the
    tabs has no [result]; the relay takes a response without a result for
    a rejection, and the page is told ["Transaction rejected"] with the
    code -32603.  The pending request is removed. *)
Theorem approved_transaction_reaches_the_page_as_a_rejection
    (w : World) (message : Message) (p : PendingRequest) :
  m_type message = "APPROVE_TRANSACTION" →
  m_approved message = true →
  pendingTransactionRequest (storage w) = Some p →
  JsId_eqb (id p) (m_requestId message) = true →
  let response := tab_message "SEND_TRANSACTION_RESPONSE" (m_requestId message) true in
  sent (deliver message w).1.2 =
    map (λ tab, (tab_id tab, response)) (List.filter (tab_matches (origin p)) (tabs w)) ∧
  pendingTransactionRequest (storage (deliver message w).1.1) = None ∧
  ∀ (r : Relay.Relay) (page_id : string),
    Relay.pendingRequestsMap r !! m_requestId message = Some page_id →
    to_page (Relay.onMessage response r).1.2 =
      [Relay.respond page_id (Rejected (new_Error "Transaction rejected"))] ∧
    cr_error (Relay.respond (A:=string) page_id (Rejected (new_Error "Transaction rejected")))
      = Some (ErrObj (-32603) "Transaction rejected").
Proof.
  intros E Happroved Hp Hid response.
  assert (Hrun : ∃ w1,
    deliver message w =
      (w1,
       concat (map (λ tab, if tab_matches (origin p) tab
                           then [TabSend (tab_id tab) response] else []) (tabs w))
       ++ [SendResponse success_response],
       (Normal false, Normal false)) ∧
    pendingTransactionRequest (storage w1) = None).
  { listeners_on E.
    unfold handleTransactionResponse, only_decision, callback, try_catch.
    cbn [m_requestId m_approved m_txHash].
    rewrite Happroved. cbv beta iota delta [mbind M_bind bind gets].
    rewrite Hp, Hid. cbn [negb].
    erewrite to_matching_tabs_run by (intros; reflexivity).
    cbv beta iota delta [mret M_ret Js.ret mbind M_bind bind gets modify update_storage
                         sendResponse tell].
    eexists. split.
    - rewrite !app_nil_r. reflexivity.
    - reflexivity. }
  destruct Hrun as [w1 [Hrun Hcleared]]. rewrite Hrun. cbn [fst snd].
  split.
  { rewrite sent_app, sent_to_tabs. cbn. apply app_nil_r. }
  split; [exact Hcleared|].
  intros r page_id Hpending. split; [|reflexivity].
  unfold Relay.onMessage, response. cbn [tab_message t_type String.eqb Ascii.eqb Bool.eqb].
  unfold Relay.handleTransactionResponse, Relay.handleResponse.
  cbv beta iota zeta delta [mbind M_bind bind mret M_ret Js.ret gets modify tell
                            Relay.pending_delete].
  cbn [tab_message t_requestId t_approved t_result t_error truthy andb].
  rewrite Hpending. reflexivity.
Qed.

End Approvals.

Section WalletWideChanges.

Import Broker Protocol Journey.

Ltac listeners_on E :=
  unfold deliver, onMessage, onMessage2; rewrite E;
  cbn [String.eqb Ascii.eqb Bool.eqb orb];
  unfold call; cbn [resolve declared String.eqb Ascii.eqb Bool.eqb];
  cbv beta iota delta [mret M_ret Js.ret mbind M_bind bind].











(** A start of the broker from a storage whose saved copies are those
    in memory. *)
Lemma initialize_of_persisted (w : World) :
  persisted w →
  Startup.initialize (storage w) = with_stored_account (storage w) (state w).
Proof.
  intros [Hstate [Hsites Hchains]]. unfold Startup.initialize, with_stored_account.
  rewrite Hstate, Hsites, Hchains. destruct (state w) as [u a c s k].
  reflexivity.
Qed.

(** X25.  What [saveState], [saveConnectedSites] and [saveCustomChains]
    write is what the start of the broker reads back: after the three
    have run, a start restores the state as it is in memory, except that
    the account list and the lock follow the stored account if there is
    one.  The three change nothing but the saved copies. *)
Theorem start_restores_what_was_saved (w : World) :
  let saved := ((saveState;; saveConnectedSites;; saveCustomChains) w).1.1 in
  state saved = state w ∧
  account (storage saved) = account (storage w) ∧
  persisted saved ∧
  Startup.initialize (storage saved) = with_stored_account (storage w) (state w).
Proof.
  intros saved.
  assert (Hsaved : saved =
            set_storage
              (set_saved_customChains (Some (customChains (state w)))
                 (set_saved_connectedSites (Some (connectedSites (state w)))
                    (set_saved_state
                       (Some (isUnlocked (state w), accounts (state w),
                              selectedChainId (state w)))
                       (storage w)))) w) by reflexivity.
  assert (Hpersisted : persisted saved) by (rewrite Hsaved; repeat split).
  split; [rewrite Hsaved; reflexivity|].
  split; [rewrite Hsaved; reflexivity|].
  split; [exact Hpersisted|].
  rewrite (initialize_of_persisted saved Hpersisted). rewrite Hsaved. reflexivity.
Qed.

End WalletWideChanges.

Section Persistence.

Import Broker Protocol Journey.

Ltac listeners_on E :=
  unfold deliver, onMessage, onMessage2; rewrite E;
  cbn [String.eqb Ascii.eqb Bool.eqb orb];
  unfold call; cbn [resolve declared String.eqb Ascii.eqb Bool.eqb];
  cbv beta iota delta [mret M_ret Js.ret mbind M_bind bind].

Ltac loops_over_tabs :=
  repeat match goal with
  | |- context [to_matching_tabs ?o ?s ?v] =>
      let e := fresh "e" in
      let He := fresh "He" in
      destruct (to_matching_tabs_quiet o s v) as [e He];
      [ intros ? ?; unfold when, tabs_sendMessage;
        repeat match goal with |- context [if ?c then _ else _] => destruct c end;
        eexists; reflexivity
      | rewrite He; clear He ]
  end.

Ltac run :=
  cbv beta iota zeta delta [mret M_ret Js.ret mbind M_bind bind gets modify throw tell
                            update_storage update_state saveState saveConnectedSites
                            saveCustomChains sendResponse openPopupForApproval when
                            callback try_catch browserAPI_lastError].

Ltac in_sync H1 H2 H3 :=
  run; cbn [negb]; run; unfold persisted;
  cbn [fst state storage set_state set_storage
       saved_state saved_connectedSites saved_customChains
       set_saved_state set_saved_connectedSites set_saved_customChains
       set_pendingConnectRequest set_pendingChainRequest set_pendingAddChainRequest
       set_pendingTransactionRequest set_pendingSignRequest
       isUnlocked accounts selectedChainId connectedSites customChains
       set_accounts set_isUnlocked set_selectedChainId set_connectedSites set_customChains];
  rewrite ?H1, ?H2, ?H3; repeat split; reflexivity.

Lemma handleConnectResponse_keeps (m : Message) (w : World) :
  persisted w → persisted (handleConnectResponse m w).1.1.
Proof.
  intros [H1 [H2 H3]]. unfold handleConnectResponse. run.
  destruct (pendingConnectRequest (storage w)) as [p|]; [|in_sync H1 H2 H3].
  destruct (negb (JsId_eqb (id p) (m_requestId m))); [in_sync H1 H2 H3|].
  destruct (m_approved m).
  - set (given := match m_accounts m with Some (a :: l) => a :: l | _ => accounts (state w) end).
    clearbody given.
    destruct given as [|g gs];
      [destruct (account (storage w)) as [[|address]|];
       [| unfold JSON_parse; run; destruct (truthy address) |]|];
      unfold JSON_parse; run; cbn [length Nat.eqb negb]; run;
      loops_over_tabs; run; in_sync H1 H2 H3.
  - loops_over_tabs. run. in_sync H1 H2 H3.
Qed.

Lemma handleSwitchChainResponse_keeps (m : Message) (w : World) :
  persisted w → persisted (handleSwitchChainResponse m w).1.1.
Proof.
  intros [H1 [H2 H3]]. unfold handleSwitchChainResponse. run.
  destruct (pendingChainRequest (storage w)) as [p|]; [|in_sync H1 H2 H3].
  destruct (negb (JsId_eqb (id p) (m_requestId m))); [in_sync H1 H2 H3|].
  destruct (m_approved m).
  - cbn [state set_state]. destruct (site _ _) as [c|];
      run; loops_over_tabs; run; in_sync H1 H2 H3.
  - loops_over_tabs. run. in_sync H1 H2 H3.
Qed.

Lemma handleAddChainResponse_keeps (m : Message) (w : World) :
  persisted w → persisted (handleAddChainResponse m w).1.1.
Proof.
  intros [H1 [H2 H3]]. unfold handleAddChainResponse. run.
  destruct (pendingAddChainRequest (storage w)) as [p|]; [|in_sync H1 H2 H3].
  destruct (negb (JsId_eqb (id p) (m_requestId m))); [in_sync H1 H2 H3|].
  destruct (chainData p) as [chainData|]; [|in_sync H1 H2 H3].
  destruct (m_approved m).
  - destruct (m_switchToChain m).
    + cbn [state set_state]. destruct (site _ _) as [c|];
        run; loops_over_tabs; run; in_sync H1 H2 H3.
    + loops_over_tabs. run. in_sync H1 H2 H3.
  - loops_over_tabs. run. in_sync H1 H2 H3.
Qed.

Lemma handleTransactionResponse_keeps (m : Message) (w : World) :
  persisted w → persisted (handleTransactionResponse m w).1.1.
Proof.
  intros [H1 [H2 H3]]. unfold handleTransactionResponse. run.
  destruct (pendingTransactionRequest (storage w)) as [p|]; [|in_sync H1 H2 H3].
  destruct (negb (JsId_eqb (id p) (m_requestId m))); [in_sync H1 H2 H3|].
  destruct (m_approved m); loops_over_tabs; run; in_sync H1 H2 H3.
Qed.

Lemma handleSignResponse_keeps (m : Message) (w : World) :
  persisted w → persisted (handleSignResponse m w).1.1.
Proof.
  intros [H1 [H2 H3]]. unfold handleSignResponse. run.
  destruct (pendingSignRequest (storage w)) as [p|]; [|in_sync H1 H2 H3].
  destruct (negb (JsId_eqb (id p) (m_requestId m))); [in_sync H1 H2 H3|].
  destruct (m_approved m); loops_over_tabs; run; in_sync H1 H2 H3.
Qed.

Lemma handleConnectRequest_keeps (m : Message) (w : World) :
  persisted w → persisted (handleConnectRequest m w).1.1.
Proof.
  intros [H1 [H2 H3]]. unfold handleConnectRequest, JSON_parse.
  destruct (negb (truthy (m_origin m))); [in_sync H1 H2 H3|]. run.
  destruct (account (storage w)) as [[|address]|]; [in_sync H1 H2 H3| |in_sync H1 H2 H3].
  run.
  destruct (negb (truthy address)); [in_sync H1 H2 H3|].
  destruct (negb (not_connected (state w) (m_origin m))).
  - destruct (negb (existsb (String.eqb (ToString address)) (accounts (state w))));
      run; in_sync H1 H2 H3.
  - unfold proceedWithConnectionRequest. run.
    destruct (lastError w); run; in_sync H1 H2 H3.
Qed.

Lemma request_handlers_keep (m : Message) (w : World) :
  persisted w →
  persisted (handleSendTransactionRequest m w).1.1 ∧
  persisted (handlePersonalSignRequest m w).1.1 ∧
  persisted (handleSwitchChainRequest m w).1.1 ∧
  persisted (handleAddChainRequest m w).1.1.
Proof.
  intros [H1 [H2 H3]].
  unfold handleSendTransactionRequest, handlePersonalSignRequest, handleSwitchChainRequest,
    handleAddChainRequest, destructure.
  destruct (m_data m) as [data|]; [|repeat split; in_sync H1 H2 H3].
  run. split; [|split; [|split]].
  - destruct (not_connected (state w) (d_origin data)); [in_sync H1 H2 H3|].
    destruct (d_transaction data) as [transaction|]; [|in_sync H1 H2 H3].
    destruct (negb (truthy (tx_to transaction)) && negb (truthy (tx_data transaction)));
      in_sync H1 H2 H3.
  - destruct (site (state w) (d_origin data)) as [c|]; [|in_sync H1 H2 H3].
    destruct (negb (cs_connected c)); [in_sync H1 H2 H3|].
    match goal with |- context [if negb ?b then _ else _] => destruct (negb b) end;
      in_sync H1 H2 H3.
  - destruct (not_connected (state w) (d_origin data)); [in_sync H1 H2 H3|].
    destruct (jsval_eqb (selectedChainId (state w)) (d_chainId data)); in_sync H1 H2 H3.
  - destruct (not_connected (state w) (d_origin data)); [in_sync H1 H2 H3|].
    destruct (invalid_chainData (d_chainData data)); in_sync H1 H2 H3.
Qed.

(** Loops over the connected sites leave the broker as it is. *)
Lemma each_connected_site_quiet (notify : jsval → B unit) (w : World) :
  (∀ site v, ∃ e, notify site v = (v, e, Normal tt)) →
  ∃ e, each_connected_site notify w = (w, e, Normal tt).
Proof.
  intros Hnotify. unfold each_connected_site.
  cbv beta iota delta [mbind M_bind bind gets].
  destruct (forEach_quiet
              (λ entry : string * ConnectedSite,
                 when (cs_connected entry.2) (notify (VStr entry.1)))
              (map_to_list (connectedSites (state w))) w) as [e He].
  - intros entry v. unfold when.
    destruct (cs_connected entry.2); [apply Hnotify|eexists; reflexivity].
  - rewrite He. eexists. reflexivity.
Qed.

Lemma notify_quiet (origin : jsval) (eventName : string) (data : Payload) (w : World) :
  ∃ e, notifyConnectedSite origin eventName data w = (w, e, Normal tt).
Proof.
  unfold notifyConnectedSite. apply to_matching_tabs_quiet.
  intros tab v. eexists. reflexivity.
Qed.

(** X26.  The saved copies follow the state.  If the state, the
    connected sites and the custom chains in the storage are those in
    memory before a message, they are so after the message has been
    handled by both listeners, whatever the message is; a start of the
    broker at that point restores the state, up to the stored account. *)
Theorem saved_copies_follow_the_state (w : World) (message : Message) :
  persisted w →
  persisted (deliver message w).1.1 ∧
  Startup.initialize (storage (deliver message w).1.1) =
    with_stored_account (storage (deliver message w).1.1) (state (deliver message w).1.1).
Proof.
  intros Hw.
  cut (persisted (deliver message w).1.1).
  { intros Hafter. split; [exact Hafter|].
    destruct Hafter as [Hstate [Hsites Hchains]].
    unfold Startup.initialize, with_stored_account.
    rewrite Hstate, Hsites, Hchains.
    destruct (state (deliver message w).1.1) as [u a c s k]. reflexivity. }
  pose proof Hw as [H1 [H2 H3]].
  assert (Hfirst : persisted (onMessage message w).1.1).
  { unfold onMessage.
    repeat match goal with
    | |- context [String.eqb (m_type message) ?lit] =>
        destruct (String.eqb (m_type message) lit)
    end;
    unfold call; cbn [resolve declared String.eqb Ascii.eqb Bool.eqb];
    try (in_sync H1 H2 H3).
    - (* LOGOUT *)
      run. cbn [state set_state].
      match goal with |- context [each_connected_site ?n ?v] =>
        destruct (each_connected_site_quiet n v) as [e He]
      end.
      { intros site v. destruct (notify_quiet site "accountsChanged" (PAccounts []) v)
          as [e1 He1].
        destruct (notify_quiet site "disconnect"
                    (PError (Some 1000%Z) "User logged out of wallet") v) as [e2 He2].
        run. rewrite He1, He2. eexists. reflexivity. }
      rewrite He. in_sync H1 H2 H3.
    - (* CHAIN_CHANGED *)
      run. cbn [state set_state].
      match goal with |- context [each_connected_site ?n ?v] =>
        destruct (each_connected_site_quiet n v) as [e He]
      end.
      { intros site v. apply notify_quiet. }
      rewrite He. in_sync H1 H2 H3.
    - pose proof (handleConnectResponse_keeps (only_decision message) w Hw) as Hk.
      run. destruct (handleConnectResponse (only_decision message) w) as [[w1 e1] [[]|x]];
        exact Hk.
    - pose proof (handleTransactionResponse_keeps (only_decision message) w Hw) as Hk.
      run. destruct (handleTransactionResponse (only_decision message) w)
        as [[w1 e1] [[]|x]]; exact Hk.
    - pose proof (handleConnectRequest_keeps message w Hw) as Hk.
      run. destruct (handleConnectRequest message w) as [[w1 e1] [[]|x]]; exact Hk.
    - pose proof (proj1 (request_handlers_keep message w Hw)) as Hk.
      run. destruct (handleSendTransactionRequest message w) as [[w1 e1] [[]|x]]; exact Hk.
    - pose proof (proj1 (proj2 (request_handlers_keep message w Hw))) as Hk.
      run. destruct (handlePersonalSignRequest message w) as [[w1 e1] [[]|x]]; exact Hk.
    - pose proof (proj2 (proj2 (proj2 (request_handlers_keep message w Hw)))) as Hk.
      run. destruct (handleAddChainRequest message w) as [[w1 e1] [[]|x]]; exact Hk.
    - pose proof (proj1 (proj2 (proj2 (request_handlers_keep message w Hw)))) as Hk.
      run. destruct (handleSwitchChainRequest message w) as [[w1 e1] [[]|x]]; exact Hk. }
  unfold deliver.
  destruct (onMessage message w) as [[w1 e1] r1]. cbn [fst] in Hfirst.
  pose proof Hfirst as [G1 [G2 G3]].
  assert (Hsecond : persisted (onMessage2 message w1).1.1).
  { unfold onMessage2.
    repeat match goal with
    | |- context [String.eqb (m_type message) ?lit] =>
        destruct (String.eqb (m_type message) lit)
    end;
    unfold call; cbn [resolve declared String.eqb Ascii.eqb Bool.eqb];
    try (in_sync G1 G2 G3).
    - pose proof (handleSwitchChainResponse_keeps message w1 Hfirst) as Hk.
      run. destruct (handleSwitchChainResponse message w1) as [[w2 e2] [[]|x]]; exact Hk.
    - pose proof (handleAddChainResponse_keeps message w1 Hfirst) as Hk.
      run. destruct (handleAddChainResponse message w1) as [[w2 e2] [[]|x]]; exact Hk.
    - pose proof (handleSignResponse_keeps message w1 Hfirst) as Hk.
      run. destruct (handleSignResponse message w1) as [[w2 e2] [[]|x]]; exact Hk. }
  destruct (onMessage2 message w1) as [[w2 e2] r2]. exact Hsecond.
Qed.

End Persistence.

Section ApprovedChains.

Import Broker Protocol Journey.

Ltac listeners_on E :=
  unfold deliver, onMessage, onMessage2; rewrite E;
  cbn [String.eqb Ascii.eqb Bool.eqb orb];
  unfold call; cbn [resolve declared String.eqb Ascii.eqb Bool.eqb];
  cbv beta iota delta [mret M_ret Js.ret mbind M_bind bind].

Ltac run :=
  cbv beta iota zeta delta [mret M_ret Js.ret mbind M_bind bind gets modify throw tell
                            update_storage update_state saveState saveConnectedSites
                            saveCustomChains sendResponse openPopupForApproval when
                            callback try_catch browserAPI_lastError].

(** The messages sent when every matching tab is sent the messages of
    [ms], one after the other. *)
Lemma sent_to_each_tab (ms : list TabMessage) (c : Tab → bool) (l : list Tab) :
  sent (concat (map (λ tab, if c tab then map (TabSend (tab_id tab)) ms else []) l)) =
  concat (map (λ tab, map (pair (tab_id tab)) ms) (List.filter c l)).
Proof.
  induction l as [|tab l IH]; [reflexivity|].
  cbn [map concat List.filter]. rewrite sent_app, IH.
  destruct (c tab); [|reflexivity].
  cbn [map concat]. f_equal.
  clear. induction ms as [|m ms IH]; [reflexivity|]. cbn. rewrite <- IH. reflexivity.
Qed.

(** X27.  An approved chain switch selects the chain of the pending
    request and saves the state; the session of the requesting origin,
    if there is one, gets the chain id, and no other session changes.
    Every tab whose address contains the origin is sent the response
    and then [chainChanged]; the pending request is removed. *)
Theorem approved_chain_switch_is_applied
    (w : World) (message : Message) (p : PendingRequest) :
  m_type message = "APPROVE_SWITCH_CHAIN" →
  m_approved message = true →
  pendingChainRequest (storage w) = Some p →
  JsId_eqb (id p) (m_requestId message) = true →
  let after := (deliver message w).1.1 in
  selectedChainId (state after) = chainId p ∧
  saved_state (storage after) = Some (isUnlocked (state w), accounts (state w), chainId p) ∧
  connectedSites (state after) =
    (match site (state w) (origin p) with
     | Some c => <[ToString (origin p) := set_cs_chainId (chainId p) c]>
                   (connectedSites (state w))
     | None => connectedSites (state w)
     end) ∧
  pendingChainRequest (storage after) = None ∧
  sent (deliver message w).1.2 =
    concat (map (λ tab,
                   [ (tab_id tab,
                      with_chainId (chainId p)
                        (tab_message "SWITCH_CHAIN_RESPONSE" (m_requestId message) true));
                     (tab_id tab, wallet_event "chainChanged" (PChainId (chainId p))) ])
                (List.filter (tab_matches (origin p)) (tabs w))).
Proof.
  intros E Happroved Hp Hid after. subst after.
  destruct (site (state w) (origin p)) as [c|] eqn:Hsite;
    listeners_on E; unfold handleSwitchChainResponse; run;
    rewrite Hp, Hid, Happroved; cbn [negb];
    unfold site in Hsite |- *;
    cbn [state set_state set_storage storage connectedSites set_selectedChainId];
    rewrite Hsite; run;
    (erewrite (to_matching_tabs_run _
       (λ tab, map (TabSend (tab_id tab))
                 [ with_chainId (chainId p)
                     (tab_message "SWITCH_CHAIN_RESPONSE" (m_requestId message) true);
                   wallet_event "chainChanged" (PChainId (chainId p)) ]))
       by (intros; reflexivity));
    cbn [fst snd state storage set_state set_storage selectedChainId connectedSites
         set_selectedChainId set_connectedSites saved_state set_saved_state
         set_saved_connectedSites pendingChainRequest set_pendingChainRequest
         isUnlocked accounts tabs];
    (repeat split); try reflexivity;
    rewrite ?app_nil_r, ?sent_app, ?sent_to_each_tab; cbn [sent omap app];
    rewrite ?app_nil_r; reflexivity.
Qed.

(** X28.  An approved chain addition records the chain under its chain
    id, with the origin that asked for it, and saves the custom chains; a
    chain recorded under the same id before is replaced.  The selected
    chain changes only if the approval says so, in which case the tabs of
    the origin are sent [chainChanged] before the response.  The pending
    request is removed. *)
Theorem approved_chain_is_recorded
    (w : World) (message : Message) (p : PendingRequest) (added : ChainData) :
  m_type message = "APPROVE_ADD_CHAIN" →
  m_approved message = true →
  pendingAddChainRequest (storage w) = Some p →
  JsId_eqb (id p) (m_requestId message) = true →
  chainData p = Some added →
  let after := (deliver message w).1.1 in
  let matching := List.filter (tab_matches (origin p)) (tabs w) in
  customChains (state after) =
    <[ToString (cd_chainId added) := mkCustomChain added (origin p) (now w)]>
      (customChains (state w)) ∧
  saved_customChains (storage after) = Some (customChains (state after)) ∧
  selectedChainId (state after) =
    (if m_switchToChain message then cd_chainId added else selectedChainId (state w)) ∧
  pendingAddChainRequest (storage after) = None ∧
  sent (deliver message w).1.2 =
    (if m_switchToChain message
     then map (λ tab, (tab_id tab, wallet_event "chainChanged" (PChainId (cd_chainId added))))
              matching
     else []) ++
    map (λ tab, (tab_id tab, tab_message "ADD_CHAIN_RESPONSE" (m_requestId message) true))
        matching.
Proof.
  intros E Happroved Hp Hid Hadded after matching. subst after matching.
  destruct (m_switchToChain message) eqn:Hswitch;
    [destruct (site (state w) (origin p)) as [c|] eqn:Hsite|];
    listeners_on E; unfold handleAddChainResponse; run;
    rewrite Hp, Hid, Hadded, Happroved, Hswitch; cbn [negb];
    unfold site in *;
    cbn [state set_state set_storage storage connectedSites set_selectedChainId
         set_customChains];
    rewrite ?Hsite; run;
    repeat (erewrite to_matching_tabs_run by (intros; reflexivity));
    cbn [fst snd state storage set_state set_storage selectedChainId customChains
         set_selectedChainId set_connectedSites set_customChains
         saved_customChains set_saved_state set_saved_customChains
         set_saved_connectedSites pendingAddChainRequest set_pendingAddChainRequest tabs];
    (repeat split); try reflexivity;
    rewrite ?app_nil_r, ?sent_app, ?sent_to_tabs; cbn [sent omap app];
    rewrite ?app_nil_r; reflexivity.
Qed.

End ApprovedChains.

(** ** The further properties on concrete runs *)

Section FurtherRuns.

Import Broker Protocol Observe Scenario Journey Cases RefPlatform.

(** X1 on a chain id that is cached for the default thirty seconds and
    read at the last moment. *)
Lemma rpcCache_get_returns_stored_value_witness :
  (default 30000 None = 0 ∨ 31000 ≤ RpcCache.now empty_cache + default 30000 None)%Z ∧
  RpcCache.get "eth_chainId:[]"
    (RpcCache.at_time 31000
       (RpcCache.set "eth_chainId:[]" (Some "0x89") None empty_cache).1.1)
  = (RpcCache.at_time 31000
       (RpcCache.set "eth_chainId:[]" (Some "0x89") None empty_cache).1.1,
     [], Normal (Some "0x89")).
Proof.
  assert (H : (default 30000 None = 0 ∨
               31000 ≤ RpcCache.now empty_cache + default 30000 None)%Z)
    by (right; vm_compute; discriminate).
  split; [exact H|].
  exact (proj1 (rpcCache_get_returns_stored_value
                  empty_cache "eth_chainId:[]" (Some "0x89") None 31000%Z H)).
Defined.

(** X2 one millisecond later. *)
Lemma rpcCache_expired_entry_is_removed_witness :
  (default 30000 None ≠ 0)%Z ∧
  (RpcCache.now empty_cache + default 30000 None ≠ 0)%Z ∧
  (RpcCache.now empty_cache + default 30000 None < 31001)%Z ∧
  (RpcCache.get "eth_chainId:[]"
     (RpcCache.at_time 31001
        (RpcCache.set "eth_chainId:[]" (Some "0x89") None empty_cache).1.1)).2
  = Normal None.
Proof.
  assert (H1 : (default 30000 None ≠ 0)%Z) by (vm_compute; discriminate).
  assert (H2 : (RpcCache.now empty_cache + default 30000 None ≠ 0)%Z)
    by (vm_compute; discriminate).
  assert (H3 : (RpcCache.now empty_cache + default 30000 None < 31001)%Z)
    by (vm_compute; reflexivity).
  split; [exact H1|]. split; [exact H2|]. split; [exact H3|].
  rewrite (proj1 (rpcCache_expired_entry_is_removed
                    empty_cache "eth_chainId:[]" (Some "0x89") None 31001%Z H1 H2 H3)).
  reflexivity.
Defined.

(** X3 for [eth_chainId]. *)
Lemma rpcCache_second_request_is_served_from_cache_witness :
  existsb (String.eqb "eth_chainId") RpcCache.nonCacheableMethods = false ∧
  (default 30000 None = 0 ∨ 2000 ≤ RpcCache.now empty_cache + default 30000 None)%Z ∧
  (RpcCache.processRequest_start "eth_chainId" "[]"
     (RpcCache.at_time 2000
        (RpcCache.processRequest_resume "eth_chainId:[]" None (Resolved (Some "0x89"))
           empty_cache).1.1)).1.2 = [] ∧
  (RpcCache.processRequest_start "eth_chainId" "[]"
     (RpcCache.at_time 2000
        (RpcCache.processRequest_resume "eth_chainId:[]" None (Resolved (Some "0x89"))
           empty_cache).1.1)).2 = Normal (RpcCache.Return (Some "0x89")).
Proof.
  assert (H1 : existsb (String.eqb "eth_chainId") RpcCache.nonCacheableMethods = false)
    by (vm_compute; reflexivity).
  assert (H2 : (default 30000 None = 0 ∨
                2000 ≤ RpcCache.now empty_cache + default 30000 None)%Z)
    by (right; vm_compute; discriminate).
  split; [exact H1|]. split; [exact H2|].
  pose proof (proj1 (rpcCache_second_request_is_served_from_cache
                       empty_cache "eth_chainId" "[]" None "0x89" 2000%Z H1 H2)) as Hhit.
  cbv zeta in Hhit. change (RpcCache.getCacheKey "eth_chainId" "[]")
    with "eth_chainId:[]" in Hhit.
  rewrite Hhit. split; reflexivity.
Defined.

(** X5 on the connected page of the scenario: two time-outs, then the
    answer that the chain is gone. *)
Lemma response_after_retries_is_handled_once_per_attempt_witness :
  (2 ≤ 3)%nat ∧ cr_id chain_gone = "7" ∧
  cr_error chain_gone = Some (ErrObj 4901 "Chain disconnected") ∧
  ((c ← SendRequest._sendRequest "eth_chainId" Provider.NoParams "7";
    c ← SendRequest.after_timeouts 2 c;
    SendRequest.onWindowMessage chain_gone c) page_on_polygon).1.2 =
  [ Provider.Posted "eth_chainId" Provider.NoParams;
    Provider.Posted "eth_chainId" Provider.NoParams;
    Provider.Posted "eth_chainId" Provider.NoParams;
    Provider.Called 0 "chainChanged" (PChainId VNull);
    Provider.Called 0 "chainChanged" (PChainId VNull);
    Provider.Called 0 "chainChanged" (PChainId VNull) ].
Proof.
  assert (H1 : (2 ≤ 3)%nat) by lia.
  split; [exact H1|]. split; [reflexivity|]. split; [reflexivity|].
  rewrite (response_after_retries_is_handled_once_per_attempt
             page_on_polygon "eth_chainId" Provider.NoParams "7" 2 chain_gone
             "Chain disconnected" H1 eq_refl eq_refl).
  vm_compute. reflexivity.
Defined.

(** X6 on the same page: one time-out, then the answer. *)
Lemma answered_request_settles_once_witness :
  (1 ≤ 3)%nat ∧ cr_id done = "7" ∧ error_truthy (cr_error done) = false ∧
  (c ← SendRequest._sendRequest "eth_chainId" Provider.NoParams "7";
   c ← SendRequest.after_timeouts 1 c;
   SendRequest.onWindowMessage done c) page_on_polygon =
  (page_on_polygon,
   [ Provider.Posted "eth_chainId" Provider.NoParams;
     Provider.Posted "eth_chainId" Provider.NoParams ],
   Normal (SendRequest.mkCall "eth_chainId" Provider.NoParams "7" 1 0 false
             (Some (Resolved done)))).
Proof.
  assert (H1 : (1 ≤ 3)%nat) by lia.
  split; [exact H1|]. split; [reflexivity|]. split; [reflexivity|].
  exact (proj1 (answered_request_settles_once
                  page_on_polygon "eth_chainId" Provider.NoParams "7" 1 done
                  H1 eq_refl eq_refl)).
Defined.

(** X8 on the connected page of the scenario, whose relay has recorded
    no state. *)
Lemma disconnect_notice_clears_accounts_and_keeps_selectedAddress_witness :
  t_type disconnect = "DISCONNECT" ∧
  (Window.messages (Relay.onMessage disconnect (relay_at "https://dapp.example/app")).1.2
     page_on_polygon).1.2 =
  [ Provider.Called 0 "accountsChanged" (PAccounts []);
    Provider.Called 0 "chainChanged" (PChainId VUndefined);
    Provider.Called 0 "disconnect" (PError (Some 1000%Z) "Connection closed by wallet") ].
Proof.
  split; [reflexivity|].
  rewrite (proj1 (disconnect_notice_clears_accounts_and_keeps_selectedAddress
                    disconnect (relay_at "https://dapp.example/app") page_on_polygon tx
                    eq_refl)).
  vm_compute. reflexivity.
Defined.


(** X12 on the connected page. *)
Lemma refused_chain_switch_leaves_the_first_call_unaffected_witness :
  Provider._chainSwitchInProgress page_on_polygon = false ∧
  (Provider.switchChain_start (VStr "0x5")
     (Provider.switchChain_start (VStr "0x1") page_on_polygon).1.1).2
  = Throw (Provider._createRPCError (-32002) "Chain switch already in progress").
Proof.
  split; [reflexivity|].
  exact (proj1 (proj2 (proj2 (refused_chain_switch_leaves_the_first_call_unaffected
                  page_on_polygon (VStr "0x1") (VStr "0x5")
                  (Resolved (ok "1" : Response unit)) eq_refl)))).
Defined.

(** X14 on the rejected transaction of the scenario, delivered twice. *)
Lemma relay_answers_the_page_at_most_once_witness :
  settles (t_type tx_rejected) = true ∧
  Relay.onMessage tx_rejected (Relay.onMessage tx_rejected tx_relay_waits.1.1).1.1 =
    ((Relay.onMessage tx_rejected tx_relay_waits.1.1).1.1, [Relay.Acked], Normal true).
Proof.
  split; [reflexivity|].
  exact (proj1 (relay_answers_the_page_at_most_once
                  tx_rejected tx_rejected tx_relay_waits.1.1 "Transaction request timed out"
                  eq_refl eq_refl eq_refl)).
Defined.

(** X17 on the decision that the popup reports as [CONNECT_RESPONSE]. *)
Lemma message_of_unknown_type_is_dropped_witness :
  ¬ In (m_type (plain "CONNECT_RESPONSE")) known_types ∧
  deliver (plain "CONNECT_RESPONSE") world = (world, [], (Normal false, Normal false)).
Proof.
  assert (H : ¬ In (m_type (plain "CONNECT_RESPONSE")) known_types).
  { vm_compute. intros Hin. repeat destruct Hin as [Hin|Hin]; try discriminate Hin.
    exact Hin. }
  split; [exact H|].
  exact (proj1 (message_of_unknown_type_is_dropped world (plain "CONNECT_RESPONSE") H)).
Defined.



(** X21 for two transactions of [dapp]. *)
Lemma later_transaction_request_replaces_the_pending_one_witness :
  not_connected (state world) (d_origin first_tx) = false ∧
  d_transaction first_tx = Some tx ∧ has_to_or_data tx = true ∧
  JsId_eqb (d_requestId second_tx) (d_requestId first_tx) = false ∧
  deliver (decision "APPROVE_TRANSACTION" (IdNum 1) true)
    (deliver (request "SEND_TRANSACTION_REQUEST" second_tx)
       (deliver (request "SEND_TRANSACTION_REQUEST" first_tx) world).1.1).1.1 =
  ((deliver (request "SEND_TRANSACTION_REQUEST" second_tx)
      (deliver (request "SEND_TRANSACTION_REQUEST" first_tx) world).1.1).1.1,
   [SendResponse success_response], (Normal false, Normal false)).
Proof.
  assert (H1 : not_connected (state world) (d_origin first_tx) = false)
    by (vm_compute; reflexivity).
  split; [exact H1|]. split; [reflexivity|]. split; [reflexivity|]. split; [reflexivity|].
  exact (proj2 (proj2 (later_transaction_request_replaces_the_pending_one
                  world first_tx second_tx tx tx true
                  H1 H1 eq_refl eq_refl eq_refl eq_refl eq_refl))).
Defined.

(** X22 for the pending transaction of the scenario, this time
    approved. *)
Lemma approved_transaction_reaches_the_page_as_a_rejection_witness :
  m_type tx_approval = "APPROVE_TRANSACTION" ∧
  m_approved tx_approval = true ∧
  pendingTransactionRequest (storage tx_broker_waits.1.1) = Some tx_pending ∧
  JsId_eqb (id tx_pending) (m_requestId tx_approval) = true ∧
  sent (deliver tx_approval tx_broker_waits.1.1).1.2 =
    [ (1, tab_message "SEND_TRANSACTION_RESPONSE" (IdNum 1) true);
      (2, tab_message "SEND_TRANSACTION_RESPONSE" (IdNum 1) true) ].
Proof.
  assert (H3 : pendingTransactionRequest (storage tx_broker_waits.1.1) = Some tx_pending)
    by (vm_compute; reflexivity).
  split; [reflexivity|]. split; [reflexivity|]. split; [exact H3|]. split; [reflexivity|].
  rewrite (proj1 (approved_transaction_reaches_the_page_as_a_rejection
                    tx_broker_waits.1.1 tx_approval tx_pending eq_refl eq_refl H3 eq_refl)).
  vm_compute. reflexivity.
Defined.



(** X26 for a chain switch that [dapp] asks for. *)
Lemma saved_copies_follow_the_state_witness :
  persisted saved_world ∧ persisted (deliver switch_request saved_world).1.1.
Proof.
  assert (H : persisted saved_world) by (repeat split; vm_compute; reflexivity).
  split; [exact H|].
  exact (proj1 (saved_copies_follow_the_state saved_world switch_request H)).
Defined.

(** X27 on the chain switch of the scenario. *)
Lemma approved_chain_switch_is_applied_witness :
  m_type switch_approval = "APPROVE_SWITCH_CHAIN" ∧
  m_approved switch_approval = true ∧
  pendingChainRequest (storage switch_broker_waits.1.1) = Some switch_pending ∧
  JsId_eqb (id switch_pending) (m_requestId switch_approval) = true ∧
  selectedChainId (state (deliver switch_approval switch_broker_waits.1.1).1.1) = VStr "0x1".
Proof.
  assert (H3 : pendingChainRequest (storage switch_broker_waits.1.1) = Some switch_pending)
    by (vm_compute; reflexivity).
  split; [reflexivity|]. split; [reflexivity|]. split; [exact H3|]. split; [reflexivity|].
  exact (proj1 (approved_chain_switch_is_applied
                  switch_broker_waits.1.1 switch_approval switch_pending
                  eq_refl eq_refl H3 eq_refl)).
Defined.

(** X28 for a chain that [dapp] adds and the user approves, with the
    switch. *)
Lemma approved_chain_is_recorded_witness :
  m_type add_approval = "APPROVE_ADD_CHAIN" ∧
  m_approved add_approval = true ∧
  pendingAddChainRequest (storage add_broker_waits.1.1) = Some add_pending ∧
  JsId_eqb (id add_pending) (m_requestId add_approval) = true ∧
  chainData add_pending = Some gnosis ∧
  selectedChainId (state (deliver add_approval add_broker_waits.1.1).1.1) = VStr "0x64".
Proof.
  assert (H3 : pendingAddChainRequest (storage add_broker_waits.1.1) = Some add_pending)
    by (vm_compute; reflexivity).
  split; [reflexivity|]. split; [reflexivity|]. split; [exact H3|]. split; [reflexivity|].
  split; [reflexivity|].
  exact (proj1 (proj2 (proj2 (approved_chain_is_recorded
                  add_broker_waits.1.1 add_approval add_pending gnosis
                  eq_refl eq_refl H3 eq_refl eq_refl)))).
Defined.

(** X29 on the rejected transaction of the scenario. *)
Lemma rejected_decision_keeps_wallet_state_witness :
  slot_read_by (m_type tx_rejection) (storage tx_broker_waits.1.1) =
    Some (pendingTransactionRequest (storage tx_broker_waits.1.1)) ∧
  m_approved tx_rejection = false ∧
  wallet_state_of (deliver tx_rejection tx_broker_waits.1.1).1.1 =
    wallet_state_of tx_broker_waits.1.1.
Proof.
  assert (H1 : slot_read_by (m_type tx_rejection) (storage tx_broker_waits.1.1) =
               Some (pendingTransactionRequest (storage tx_broker_waits.1.1)))
    by reflexivity.
  split; [exact H1|]. split; [reflexivity|].
  exact (rejected_decision_keeps_wallet_state tx_broker_waits.1.1 tx_rejection _ H1 eq_refl).
Defined.

(** X30 on the connection of [fresh], approved with the account of the
    wallet. *)
Lemma approved_connect_records_session_witness :
  pendingConnectRequest (storage connect_broker_waits.1.1) = Some connect_pending ∧
  JsId_eqb (id connect_pending) (m_requestId connect_with_accounts) = true ∧
  m_approved connect_with_accounts = true ∧
  m_accounts connect_with_accounts = Some [alice] ∧
  site (state (handleConnectResponse connect_with_accounts connect_broker_waits.1.1).1.1)
       (VStr fresh) =
    Some (mkSite (VStr fresh) [alice] (VStr "0x89") true 1700000000000
                 ["eth_accounts"] 1700000000000).
Proof.
  assert (H1 : pendingConnectRequest (storage connect_broker_waits.1.1)
               = Some connect_pending) by (vm_compute; reflexivity).
  split; [exact H1|]. split; [reflexivity|]. split; [reflexivity|]. split; [reflexivity|].
  exact (approved_connect_records_session connect_broker_waits.1.1 connect_with_accounts
           connect_pending alice [] H1 eq_refl eq_refl eq_refl).
Defined.

End FurtherRuns.
